(** * DiskArbitration: the disk object of diskarbitrationd (DADisk.c)

    A shallow embedding of [src/diskarbitrationd/DADisk.c]: the disk record,
    its two constructors ([DADiskCreateFromIOMedia] for a hardware registry
    entry, [DADiskCreateFromVolumePath] for a mounted volume), the equality
    and hash callbacks, the match evaluator and the serialization cache,
    followed by the properties the specification states about them.

    Conventions of the embedding.
    - CoreFoundation objects are values of the inductive type [CFType]; a
      [CFTypeRef] that may be [NULL] is an [option CFType].  The two boolean
      objects are singletons in CoreFoundation, so the pointer tests
      [object == kCFBooleanTrue] are tests on the value.  A string object is
      its UTF-8 bytes and a dictionary has string keys.
    - A [char] buffer is a [string]; the C string it holds ends at the first
      NUL character (or at the end of the modelled buffer).
    - Integers are [Z], with the wrap-around of the C type written out.
    - The device registry, the mounted-volume provider, the password
      database and the CoreFoundation entry points whose results the file
      only consumes are the fields of the record [World].  An iterator over
      the parents of a registry entry is the sequence of entries it yields.
    - The constants of the headers that DADisk.c includes are the fields of
      the class [Headers].
    - Allocation succeeds: [_CFRuntimeCreateInstance], [strdup],
      [CFDataCreate] and [CFNumberCreate] return an object.  Retain counts
      are not modelled. *)

From Stdlib Require Import ZArith String Ascii List Lia.
From stdpp Require Import gmap strings list fin_maps.

Local Open Scope Z_scope.

(** ** CoreFoundation values *)

#[warnings="-register-all"]
Inductive CFType : Type :=
  | CFBoolean (b : bool)
  | CFNumber (n : Z)                    (* an integer number object *)
  | CFNumberDouble (bits : Z)           (* kCFNumberDoubleType, by its IEEE-754 pattern *)
  | CFString (s : string)
  | CFData (bytes : list Z)
  | CFURL (path : string)
  | CFDictionary (d : gmap string CFType).

Definition kCFBooleanTrue : CFType := CFBoolean true.
Definition kCFBooleanFalse : CFType := CFBoolean false.

(** [CFEqual]: equality of two objects by value. *)
Fixpoint CFEqual (a b : CFType) {struct a} : bool :=
  match a, b with
  | CFBoolean x, CFBoolean y => bool_decide (x = y)
  | CFNumber x, CFNumber y => bool_decide (x = y)
  | CFNumberDouble x, CFNumberDouble y => bool_decide (x = y)
  | CFString x, CFString y => bool_decide (x = y)
  | CFData x, CFData y => bool_decide (x = y)
  | CFURL x, CFURL y => bool_decide (x = y)
  | CFDictionary x, CFDictionary y =>
      bool_decide (dom x = dom y)
      && map_fold (fun k v acc =>
                     acc && match y !! k with
                            | Some w => CFEqual v w
                            | None => false
                            end) true x
  | _, _ => false
  end.

(** The nesting depth of an object. *)
Fixpoint CFType_depth (object : CFType) : nat :=
  match object with
  | CFDictionary d =>
      S (map_fold (fun _ value depth => Nat.max (CFType_depth value) depth) O d)
  | _ => O
  end.

(** ** C strings *)

Definition byte_of (c : ascii) : Z := Z.of_N (N_of_ascii c).

Definition is_nul (c : ascii) : bool := byte_of c =? 0.

(** The C string held in a buffer: the characters before the first NUL. *)
Fixpoint cstr (buf : string) : string :=
  match buf with
  | EmptyString => EmptyString
  | String c rest => if is_nul c then EmptyString else String c (cstr rest)
  end.

Fixpoint strlen (buf : string) : Z :=
  match buf with
  | EmptyString => 0
  | String c rest => if is_nul c then 0 else 1 + strlen rest
  end.

(** [strcmp]: the difference of the first two characters that differ, read
    as unsigned char; the end of a buffer reads as its terminator. *)
Fixpoint strcmp (s1 s2 : string) : Z :=
  match s1, s2 with
  | EmptyString, EmptyString => 0
  | EmptyString, String c2 _ => 0 - byte_of c2
  | String c1 _, EmptyString => byte_of c1 - 0
  | String c1 r1, String c2 r2 =>
      if byte_of c1 =? byte_of c2
      then (if is_nul c1 then 0 else strcmp r1 r2)
      else byte_of c1 - byte_of c2
  end.

Definition strdup (s : string) : string := cstr s.
Definition strcpy (src : string) : string := cstr src.
Definition strcat (dst src : string) : string := cstr dst +:+ cstr src.

(** The first [n] characters of a buffer. *)
Fixpoint strprefix (n : nat) (buf : string) : string :=
  match n, buf with
  | O, _ => EmptyString
  | S _, EmptyString => EmptyString
  | S m, String c rest => String c (strprefix m rest)
  end.

(** A buffer that is exactly a C string: no NUL inside. *)
Fixpoint NulFree (s : string) : Prop :=
  match s with
  | EmptyString => True
  | String c rest => is_nul c = false /\ NulFree rest
  end.

Definition MIN (a b : Z) : Z := if a <? b then a else b.

(** ** Constants of the included headers

    DADisk.c takes its description keys from DiskArbitration.h and
    DAInternal.h, its flags from DADisk.h, its identities from DABase.h and
    the registry names from the IOKit headers; none of these headers is part
    of the sources at hand, so their constants are the fields of a class. *)

Class Headers : Type := {
  (* DAInternal.h, DiskArbitration.h: keys of the disk description *)
  _kDADiskIDKey : string;
  kDADiskDescriptionVolumeMountableKey : string;
  kDADiskDescriptionVolumeNetworkKey : string;
  kDADiskDescriptionVolumePathKey : string;
  kDADiskDescriptionMediaBlockSizeKey : string;
  kDADiskDescriptionMediaBSDMajorKey : string;
  kDADiskDescriptionMediaBSDMinorKey : string;
  kDADiskDescriptionMediaBSDNameKey : string;
  kDADiskDescriptionMediaBSDUnitKey : string;
  kDADiskDescriptionMediaContentKey : string;
  kDADiskDescriptionMediaEjectableKey : string;
  kDADiskDescriptionMediaIconKey : string;
  kDADiskDescriptionMediaKindKey : string;
  kDADiskDescriptionMediaLeafKey : string;
  kDADiskDescriptionMediaNameKey : string;
  kDADiskDescriptionMediaPathKey : string;
  kDADiskDescriptionMediaRemovableKey : string;
  kDADiskDescriptionMediaSizeKey : string;
  kDADiskDescriptionMediaTypeKey : string;
  kDADiskDescriptionMediaWholeKey : string;
  kDADiskDescriptionMediaWritableKey : string;
  kDADiskDescriptionDeviceGUIDKey : string;
  kDADiskDescriptionDeviceInternalKey : string;
  kDADiskDescriptionDeviceModelKey : string;
  kDADiskDescriptionDevicePathKey : string;
  kDADiskDescriptionDeviceProtocolKey : string;
  kDADiskDescriptionDeviceRevisionKey : string;
  kDADiskDescriptionDeviceUnitKey : string;
  kDADiskDescriptionDeviceVendorKey : string;
  kDADiskDescriptionBusNameKey : string;
  kDADiskDescriptionBusPathKey : string;
  kDADiskDescriptionAppearanceTimeKey : string;
  (* DADisk.h: option and state flags *)
  kDADiskOptionEjectUponLogout : Z;
  kDADiskOptionMountAutomatic : Z;
  kDADiskOptionMountAutomaticNoDefer : Z;
  kDADiskStateStagedProbe : Z;
  kDADiskStateStagedPeek : Z;
  kDADiskStateStagedRepair : Z;
  kDADiskStateStagedApprove : Z;
  kDADiskStateStagedAuthorize : Z;
  kDADiskStateStagedMount : Z;
  (* DABase.h: identities *)
  ___GID_ADMIN : Z;
  ___GID_UNKNOWN : Z;
  ___UID_ROOT : Z;
  ___UID_UNKNOWN : Z;
  (* IOKit: property keys, class names, sizes *)
  kIOBSDNameKey : string;
  kIOBSDMajorKey : string;
  kIOBSDMinorKey : string;
  kIOBSDUnitKey : string;
  kIOMediaPreferredBlockSizeKey : string;
  kIOMediaContentKey : string;
  kIOMediaEjectableKey : string;
  kIOMediaIconKey : string;
  kIOMediaLeafKey : string;
  kIOMediaRemovableKey : string;
  kIOMediaSizeKey : string;
  kIOMediaWholeKey : string;
  kIOMediaWritableKey : string;
  kIOMediaClass : string;
  kIOCDMediaClass : string;
  kIOCDMediaTypeKey : string;
  kIODVDMediaClass : string;
  kIODVDMediaTypeKey : string;
  kIOBlockStorageDeviceClass : string;
  kIOPropertyMatchKey : string;
  kIOPropertyProtocolCharacteristicsKey : string;
  kIOPropertyPhysicalInterconnectLocationKey : string;
  kIOPropertyPhysicalInterconnectTypeKey : string;
  kIOPropertyInternalKey : string;
  kIOPropertyExternalKey : string;
  kIOPropertyDeviceCharacteristicsKey : string;
  kIOPropertyProductNameKey : string;
  kIOPropertyProductRevisionLevelKey : string;
  kIOPropertyVendorNameKey : string;
  sizeof_io_name_t : Z;
  (* paths.h, sys/types.h, sys/mount.h, libkern/OSByteOrder.h *)
  _PATH_DEV : string;
  makedev : Z -> Z -> Z;
  mode_t_of_int : Z -> Z;
  MNT_LOCAL : Z;
  MNT_NOWAIT : Z;
  host_big_endian : bool
}.

(** The keys under which the two constructors store facts. *)
Definition description_keys `{Headers} : list string :=
  [ _kDADiskIDKey;
    kDADiskDescriptionVolumeMountableKey;
    kDADiskDescriptionVolumeNetworkKey;
    kDADiskDescriptionVolumePathKey;
    kDADiskDescriptionMediaBlockSizeKey;
    kDADiskDescriptionMediaBSDMajorKey;
    kDADiskDescriptionMediaBSDMinorKey;
    kDADiskDescriptionMediaBSDNameKey;
    kDADiskDescriptionMediaBSDUnitKey;
    kDADiskDescriptionMediaContentKey;
    kDADiskDescriptionMediaEjectableKey;
    kDADiskDescriptionMediaIconKey;
    kDADiskDescriptionMediaKindKey;
    kDADiskDescriptionMediaLeafKey;
    kDADiskDescriptionMediaNameKey;
    kDADiskDescriptionMediaPathKey;
    kDADiskDescriptionMediaRemovableKey;
    kDADiskDescriptionMediaSizeKey;
    kDADiskDescriptionMediaTypeKey;
    kDADiskDescriptionMediaWholeKey;
    kDADiskDescriptionMediaWritableKey;
    kDADiskDescriptionDeviceGUIDKey;
    kDADiskDescriptionDeviceInternalKey;
    kDADiskDescriptionDeviceModelKey;
    kDADiskDescriptionDevicePathKey;
    kDADiskDescriptionDeviceProtocolKey;
    kDADiskDescriptionDeviceRevisionKey;
    kDADiskDescriptionDeviceUnitKey;
    kDADiskDescriptionDeviceVendorKey;
    kDADiskDescriptionBusNameKey;
    kDADiskDescriptionBusPathKey;
    kDADiskDescriptionAppearanceTimeKey ].

(** ** The collaborators *)

Definition io_service_t : Type := Z.      (* a registry handle; 0 is NULL *)

Inductive io_plane : Type := kIOServicePlane | kIODeviceTreePlane.

Inductive CFStringEncoding : Type :=
  kCFStringEncodingUTF8 | kCFStringEncodingMacRoman.

Record passwd : Type := { pw_uid : Z; pw_gid : Z }.

Record statfs : Type := {
  f_mntonname : string;
  f_flags : Z;
  f_owner : Z
}.

(** A query that reports a status is [None] when the status is not
    [KERN_SUCCESS]; a query that returns an object is [None] for [NULL]. *)
Record World : Type := {
  (* the device registry *)
  IORegistryEntryCreateCFProperties : io_service_t -> option (gmap string CFType);
  (* always called with kIORegistryIterateParents | kIORegistryIterateRecursively *)
  IORegistryEntrySearchCFProperty : io_service_t -> io_plane -> string -> option CFType;
  IOObjectConformsTo : io_service_t -> string -> bool;
  IORegistryEntryGetName : io_service_t -> option string;
  IORegistryEntryGetNameInPlane : io_service_t -> io_plane -> option string;
  IORegistryEntryGetPath : io_service_t -> io_plane -> option string;
  IORegistryEntryInPlane : io_service_t -> io_plane -> bool;
  (* the entries that IOIteratorNext yields, in order, for an iterator made
     by IORegistryEntryCreateIterator over the parents, recursively *)
  IORegistryEntryCreateIterator : io_service_t -> io_plane -> option (list io_service_t);
  (* the [match] flag that IOServiceMatchPropertyTable leaves *)
  IOServiceMatchPropertyTable : io_service_t -> option CFType -> bool;
  (* the mounted-volume provider and the password database *)
  ___statfs : string -> Z -> option statfs;
  getpwuid : Z -> option passwd;
  (* CoreFoundation *)
  CFStringCreateWithCString : string -> CFStringEncoding -> option CFType;
  CFURLCreateFromFileSystemRepresentation : string -> Z -> bool -> option CFType;
  ___CFURLCopyFileSystemRepresentation : CFType -> option string;
  CFAbsoluteTimeGetCurrent : Z;
  CFHashBytes : string -> Z;
  (* DAInternal.c *)
  _DASerializeDiskDescription : gmap string CFType -> option CFType
}.

(** ** The disk object *)

Record DADisk : Type := {
  _bypath : option CFType;
  _claim : option CFType;
  _context : option CFType;
  _contextRe : option CFType;
  _description : gmap string CFType;
  _device : option CFType;
  _deviceNode : Z;
  _devicePath : option string * option string;
  _deviceUnit : Z;
  _filesystem : option CFType;
  _id : string;
  _media : io_service_t;
  _mode : Z;
  _options : Z;
  _serialization : option CFType;
  _state : Z;
  _userEGID : Z;
  _userEUID : Z;
  _userRGID : Z;
  _userRUID : Z
}.

(** Assignment to one field of the object ([disk->_field = v]). *)

Definition set_bypath (v : option CFType) (disk : DADisk) : DADisk :=
  {| _bypath := v; _claim := _claim disk; _context := _context disk;
     _contextRe := _contextRe disk; _description := _description disk;
     _device := _device disk; _deviceNode := _deviceNode disk;
     _devicePath := _devicePath disk; _deviceUnit := _deviceUnit disk;
     _filesystem := _filesystem disk; _id := _id disk; _media := _media disk;
     _mode := _mode disk; _options := _options disk;
     _serialization := _serialization disk; _state := _state disk;
     _userEGID := _userEGID disk; _userEUID := _userEUID disk;
     _userRGID := _userRGID disk; _userRUID := _userRUID disk |}.

Definition set_claim (v : option CFType) (disk : DADisk) : DADisk :=
  {| _bypath := _bypath disk; _claim := v; _context := _context disk;
     _contextRe := _contextRe disk; _description := _description disk;
     _device := _device disk; _deviceNode := _deviceNode disk;
     _devicePath := _devicePath disk; _deviceUnit := _deviceUnit disk;
     _filesystem := _filesystem disk; _id := _id disk; _media := _media disk;
     _mode := _mode disk; _options := _options disk;
     _serialization := _serialization disk; _state := _state disk;
     _userEGID := _userEGID disk; _userEUID := _userEUID disk;
     _userRGID := _userRGID disk; _userRUID := _userRUID disk |}.

Definition set_context (v : option CFType) (disk : DADisk) : DADisk :=
  {| _bypath := _bypath disk; _claim := _claim disk; _context := v;
     _contextRe := _contextRe disk; _description := _description disk;
     _device := _device disk; _deviceNode := _deviceNode disk;
     _devicePath := _devicePath disk; _deviceUnit := _deviceUnit disk;
     _filesystem := _filesystem disk; _id := _id disk; _media := _media disk;
     _mode := _mode disk; _options := _options disk;
     _serialization := _serialization disk; _state := _state disk;
     _userEGID := _userEGID disk; _userEUID := _userEUID disk;
     _userRGID := _userRGID disk; _userRUID := _userRUID disk |}.

Definition set_contextRe (v : option CFType) (disk : DADisk) : DADisk :=
  {| _bypath := _bypath disk; _claim := _claim disk;
     _context := _context disk; _contextRe := v;
     _description := _description disk; _device := _device disk;
     _deviceNode := _deviceNode disk; _devicePath := _devicePath disk;
     _deviceUnit := _deviceUnit disk; _filesystem := _filesystem disk;
     _id := _id disk; _media := _media disk; _mode := _mode disk;
     _options := _options disk; _serialization := _serialization disk;
     _state := _state disk; _userEGID := _userEGID disk;
     _userEUID := _userEUID disk; _userRGID := _userRGID disk;
     _userRUID := _userRUID disk |}.

Definition set_description (v : gmap string CFType) (disk : DADisk) : DADisk :=
  {| _bypath := _bypath disk; _claim := _claim disk;
     _context := _context disk; _contextRe := _contextRe disk;
     _description := v; _device := _device disk;
     _deviceNode := _deviceNode disk; _devicePath := _devicePath disk;
     _deviceUnit := _deviceUnit disk; _filesystem := _filesystem disk;
     _id := _id disk; _media := _media disk; _mode := _mode disk;
     _options := _options disk; _serialization := _serialization disk;
     _state := _state disk; _userEGID := _userEGID disk;
     _userEUID := _userEUID disk; _userRGID := _userRGID disk;
     _userRUID := _userRUID disk |}.

Definition set_device (v : option CFType) (disk : DADisk) : DADisk :=
  {| _bypath := _bypath disk; _claim := _claim disk;
     _context := _context disk; _contextRe := _contextRe disk;
     _description := _description disk; _device := v;
     _deviceNode := _deviceNode disk; _devicePath := _devicePath disk;
     _deviceUnit := _deviceUnit disk; _filesystem := _filesystem disk;
     _id := _id disk; _media := _media disk; _mode := _mode disk;
     _options := _options disk; _serialization := _serialization disk;
     _state := _state disk; _userEGID := _userEGID disk;
     _userEUID := _userEUID disk; _userRGID := _userRGID disk;
     _userRUID := _userRUID disk |}.

Definition set_deviceNode (v : Z) (disk : DADisk) : DADisk :=
  {| _bypath := _bypath disk; _claim := _claim disk;
     _context := _context disk; _contextRe := _contextRe disk;
     _description := _description disk; _device := _device disk;
     _deviceNode := v; _devicePath := _devicePath disk;
     _deviceUnit := _deviceUnit disk; _filesystem := _filesystem disk;
     _id := _id disk; _media := _media disk; _mode := _mode disk;
     _options := _options disk; _serialization := _serialization disk;
     _state := _state disk; _userEGID := _userEGID disk;
     _userEUID := _userEUID disk; _userRGID := _userRGID disk;
     _userRUID := _userRUID disk |}.

Definition set_devicePath (v : option string * option string) (disk : DADisk) : DADisk :=
  {| _bypath := _bypath disk; _claim := _claim disk;
     _context := _context disk; _contextRe := _contextRe disk;
     _description := _description disk; _device := _device disk;
     _deviceNode := _deviceNode disk; _devicePath := v;
     _deviceUnit := _deviceUnit disk; _filesystem := _filesystem disk;
     _id := _id disk; _media := _media disk; _mode := _mode disk;
     _options := _options disk; _serialization := _serialization disk;
     _state := _state disk; _userEGID := _userEGID disk;
     _userEUID := _userEUID disk; _userRGID := _userRGID disk;
     _userRUID := _userRUID disk |}.

Definition set_deviceUnit (v : Z) (disk : DADisk) : DADisk :=
  {| _bypath := _bypath disk; _claim := _claim disk;
     _context := _context disk; _contextRe := _contextRe disk;
     _description := _description disk; _device := _device disk;
     _deviceNode := _deviceNode disk; _devicePath := _devicePath disk;
     _deviceUnit := v; _filesystem := _filesystem disk; _id := _id disk;
     _media := _media disk; _mode := _mode disk; _options := _options disk;
     _serialization := _serialization disk; _state := _state disk;
     _userEGID := _userEGID disk; _userEUID := _userEUID disk;
     _userRGID := _userRGID disk; _userRUID := _userRUID disk |}.

Definition set_filesystem (v : option CFType) (disk : DADisk) : DADisk :=
  {| _bypath := _bypath disk; _claim := _claim disk;
     _context := _context disk; _contextRe := _contextRe disk;
     _description := _description disk; _device := _device disk;
     _deviceNode := _deviceNode disk; _devicePath := _devicePath disk;
     _deviceUnit := _deviceUnit disk; _filesystem := v; _id := _id disk;
     _media := _media disk; _mode := _mode disk; _options := _options disk;
     _serialization := _serialization disk; _state := _state disk;
     _userEGID := _userEGID disk; _userEUID := _userEUID disk;
     _userRGID := _userRGID disk; _userRUID := _userRUID disk |}.

Definition set_media (v : io_service_t) (disk : DADisk) : DADisk :=
  {| _bypath := _bypath disk; _claim := _claim disk;
     _context := _context disk; _contextRe := _contextRe disk;
     _description := _description disk; _device := _device disk;
     _deviceNode := _deviceNode disk; _devicePath := _devicePath disk;
     _deviceUnit := _deviceUnit disk; _filesystem := _filesystem disk;
     _id := _id disk; _media := v; _mode := _mode disk;
     _options := _options disk; _serialization := _serialization disk;
     _state := _state disk; _userEGID := _userEGID disk;
     _userEUID := _userEUID disk; _userRGID := _userRGID disk;
     _userRUID := _userRUID disk |}.

Definition set_mode (v : Z) (disk : DADisk) : DADisk :=
  {| _bypath := _bypath disk; _claim := _claim disk;
     _context := _context disk; _contextRe := _contextRe disk;
     _description := _description disk; _device := _device disk;
     _deviceNode := _deviceNode disk; _devicePath := _devicePath disk;
     _deviceUnit := _deviceUnit disk; _filesystem := _filesystem disk;
     _id := _id disk; _media := _media disk; _mode := v;
     _options := _options disk; _serialization := _serialization disk;
     _state := _state disk; _userEGID := _userEGID disk;
     _userEUID := _userEUID disk; _userRGID := _userRGID disk;
     _userRUID := _userRUID disk |}.

Definition set_options (v : Z) (disk : DADisk) : DADisk :=
  {| _bypath := _bypath disk; _claim := _claim disk;
     _context := _context disk; _contextRe := _contextRe disk;
     _description := _description disk; _device := _device disk;
     _deviceNode := _deviceNode disk; _devicePath := _devicePath disk;
     _deviceUnit := _deviceUnit disk; _filesystem := _filesystem disk;
     _id := _id disk; _media := _media disk; _mode := _mode disk;
     _options := v; _serialization := _serialization disk;
     _state := _state disk; _userEGID := _userEGID disk;
     _userEUID := _userEUID disk; _userRGID := _userRGID disk;
     _userRUID := _userRUID disk |}.

Definition set_serialization (v : option CFType) (disk : DADisk) : DADisk :=
  {| _bypath := _bypath disk; _claim := _claim disk;
     _context := _context disk; _contextRe := _contextRe disk;
     _description := _description disk; _device := _device disk;
     _deviceNode := _deviceNode disk; _devicePath := _devicePath disk;
     _deviceUnit := _deviceUnit disk; _filesystem := _filesystem disk;
     _id := _id disk; _media := _media disk; _mode := _mode disk;
     _options := _options disk; _serialization := v; _state := _state disk;
     _userEGID := _userEGID disk; _userEUID := _userEUID disk;
     _userRGID := _userRGID disk; _userRUID := _userRUID disk |}.

Definition set_state (v : Z) (disk : DADisk) : DADisk :=
  {| _bypath := _bypath disk; _claim := _claim disk;
     _context := _context disk; _contextRe := _contextRe disk;
     _description := _description disk; _device := _device disk;
     _deviceNode := _deviceNode disk; _devicePath := _devicePath disk;
     _deviceUnit := _deviceUnit disk; _filesystem := _filesystem disk;
     _id := _id disk; _media := _media disk; _mode := _mode disk;
     _options := _options disk; _serialization := _serialization disk;
     _state := v; _userEGID := _userEGID disk; _userEUID := _userEUID disk;
     _userRGID := _userRGID disk; _userRUID := _userRUID disk |}.

Definition set_userEGID (v : Z) (disk : DADisk) : DADisk :=
  {| _bypath := _bypath disk; _claim := _claim disk;
     _context := _context disk; _contextRe := _contextRe disk;
     _description := _description disk; _device := _device disk;
     _deviceNode := _deviceNode disk; _devicePath := _devicePath disk;
     _deviceUnit := _deviceUnit disk; _filesystem := _filesystem disk;
     _id := _id disk; _media := _media disk; _mode := _mode disk;
     _options := _options disk; _serialization := _serialization disk;
     _state := _state disk; _userEGID := v; _userEUID := _userEUID disk;
     _userRGID := _userRGID disk; _userRUID := _userRUID disk |}.

Definition set_userEUID (v : Z) (disk : DADisk) : DADisk :=
  {| _bypath := _bypath disk; _claim := _claim disk;
     _context := _context disk; _contextRe := _contextRe disk;
     _description := _description disk; _device := _device disk;
     _deviceNode := _deviceNode disk; _devicePath := _devicePath disk;
     _deviceUnit := _deviceUnit disk; _filesystem := _filesystem disk;
     _id := _id disk; _media := _media disk; _mode := _mode disk;
     _options := _options disk; _serialization := _serialization disk;
     _state := _state disk; _userEGID := _userEGID disk; _userEUID := v;
     _userRGID := _userRGID disk; _userRUID := _userRUID disk |}.

Definition set_userRGID (v : Z) (disk : DADisk) : DADisk :=
  {| _bypath := _bypath disk; _claim := _claim disk;
     _context := _context disk; _contextRe := _contextRe disk;
     _description := _description disk; _device := _device disk;
     _deviceNode := _deviceNode disk; _devicePath := _devicePath disk;
     _deviceUnit := _deviceUnit disk; _filesystem := _filesystem disk;
     _id := _id disk; _media := _media disk; _mode := _mode disk;
     _options := _options disk; _serialization := _serialization disk;
     _state := _state disk; _userEGID := _userEGID disk;
     _userEUID := _userEUID disk; _userRGID := v; _userRUID := _userRUID disk |}.

Definition set_userRUID (v : Z) (disk : DADisk) : DADisk :=
  {| _bypath := _bypath disk; _claim := _claim disk;
     _context := _context disk; _contextRe := _contextRe disk;
     _description := _description disk; _device := _device disk;
     _deviceNode := _deviceNode disk; _devicePath := _devicePath disk;
     _deviceUnit := _deviceUnit disk; _filesystem := _filesystem disk;
     _id := _id disk; _media := _media disk; _mode := _mode disk;
     _options := _options disk; _serialization := _serialization disk;
     _state := _state disk; _userEGID := _userEGID disk;
     _userEUID := _userEUID disk; _userRGID := _userRGID disk; _userRUID := v |}.

(** ** Outcomes of a call

    [Ret a]: the code goes on with [a].  [Err id]: the code jumps to its
    error label, [id] being [disk ? DADiskGetID( disk ) : NULL] at that
    point.  [Undef]: the code hands an object of the wrong dynamic type to a
    CoreFoundation accessor, converts a floating-point number or uses an
    iterator that was not created, which this embedding leaves undefined. *)

Inductive outcome (A : Type) : Type :=
  | Ret (a : A)
  | Err (id : option string)
  | Undef.

Arguments Ret {A} a.
Arguments Err {A} id.
Arguments Undef {A}.

#[global] Instance outcome_ret : MRet outcome := @Ret.

#[global] Instance outcome_bind : MBind outcome :=
  fun A B (f : A -> outcome B) (m : outcome A) =>
    match m with
    | Ret a => f a
    | Err id => Err id
    | Undef => Undef
    end.

(** [if ( object == NULL )  goto DADiskCreateFromIOMediaErr;] *)
Definition required {A : Type} (id : option string) (object : option A) : outcome A :=
  match object with
  | Some a => Ret a
  | None => Err id
  end.

(** What a call hands back to its caller, with the lines it logged. *)
Inductive DALogEntry : Type :=
  | DALogError (format : string) (id : option string).

Inductive execution (A : Type) : Type :=
  | Returns (a : A) (log : list DALogEntry)
  | Undefined.

Arguments Returns {A} a log.
Arguments Undefined {A}.

(** ** CoreFoundation accessors *)

Inductive CFNumberType : Type :=
  kCFNumberSInt32Type | kCFNumberSInt64Type | kCFNumberIntType.

Definition CFNumberType_bits (ty : CFNumberType) : Z :=
  match ty with
  | kCFNumberSInt64Type => 64
  | kCFNumberSInt32Type | kCFNumberIntType => 32
  end.

Definition to_unsigned (bits v : Z) : Z := v mod 2 ^ bits.

Definition to_signed (bits v : Z) : Z :=
  (v + 2 ^ (bits - 1)) mod 2 ^ bits - 2 ^ (bits - 1).

(** [CFNumberGetValue( number, type, &v )]: the value stored in [v]. *)
Definition CFNumberGetValue (number : CFType) (ty : CFNumberType) : outcome Z :=
  match number with
  | CFNumber n => Ret (to_signed (CFNumberType_bits ty) n)
  | _ => Undef
  end.

(** [CFStringGetCString( string, buffer, size, kCFStringEncodingUTF8 )]:
    the buffer's string when the call returns true, [None] when the string
    and its terminator do not fit. *)
Definition CFStringGetCString (object : CFType) (size : Z) : outcome (option string) :=
  match object with
  | CFString s => Ret (if Z.of_nat (String.length s) <? size then Some s else None)
  | _ => Undef
  end.

(** [CFStringCompare( object, CFSTR( s ), 0 ) == 0] *)
Definition CFStringCompare_EqualTo (object : CFType) (s : string) : outcome bool :=
  match object with
  | CFString s' => Ret (bool_decide (s' = s))
  | _ => Undef
  end.

(** [CFDictionaryGetValue] on an object that has to be a dictionary. *)
Definition CFDictionaryGetValue (dict : CFType) (key : string) : outcome (option CFType) :=
  match dict with
  | CFDictionary d => Ret (d !! key)
  | _ => Undef
  end.

(** [CFDataCreate( allocator, bytes, length )] *)
Definition CFDataCreate (bytes : list Z) (length : Z) : option CFType :=
  Some (CFData (take (Z.to_nat length) bytes)).

(** [CFNumberCreate( allocator, kCFNumberDoubleType, &time )] *)
Definition CFNumberCreate_Double (bits : Z) : option CFType :=
  Some (CFNumberDouble bits).

(** The bytes that lie at a [char *]: the buffer and its terminator. *)
Definition buffer_bytes (s : string) : list Z :=
  map byte_of (list_ascii_of_string s) ++ [0].

(** ** Byte order (libkern/OSByteOrder.h) *)

Definition OSSwapInt64 (v : Z) : Z :=
  Z.lor (Z.shiftl (Z.land v 0xff) 56)
 (Z.lor (Z.shiftl (Z.land v 0xff00) 40)
 (Z.lor (Z.shiftl (Z.land v 0xff0000) 24)
 (Z.lor (Z.shiftl (Z.land v 0xff000000) 8)
 (Z.lor (Z.land (Z.shiftr v 8) 0xff000000)
 (Z.lor (Z.land (Z.shiftr v 24) 0xff0000)
 (Z.lor (Z.land (Z.shiftr v 40) 0xff00)
        (Z.land (Z.shiftr v 56) 0xff))))))).

Definition OSSwapHostToBigInt64 `{Headers} (v : Z) : Z :=
  if host_big_endian then v else OSSwapInt64 v.

(** Byte [i] of an integer, byte 0 being the least significant. *)
Definition byte_at (v : Z) (i : nat) : Z :=
  Z.land (Z.shiftr v (8 * Z.of_nat i)) 0xff.

Definition little_endian (size : nat) (v : Z) : list Z :=
  map (byte_at v) (seq 0 size).

Definition big_endian (size : nat) (v : Z) : list Z :=
  rev (little_endian size v).

(** The integer that a sequence of bytes denotes, most significant first. *)
Definition of_big_endian (bytes : list Z) : Z :=
  fold_left (fun acc byte => acc * 256 + byte) bytes 0.

(** The bytes of an integer variable as they lie in memory ([&value]). *)
Definition object_representation `{Headers} (size : nat) (v : Z) : list Z :=
  if host_big_endian then big_endian size v else little_endian size v.

(** ** DADisk.c *)

Section DADisk.

Context `{Headers}.
Variable w : World.

(** DADisk.c, lines 105-151. *)
Definition __DADiskCreate (id : string) : DADisk :=
  let disk :=
    {| _bypath := None;
       _claim := None;
       _context := None;
       _contextRe := None;
       _description := ∅;
       _device := None;
       _deviceNode := 0;
       _devicePath := (None, None);
       _deviceUnit := -1;
       _filesystem := None;
       _id := strdup id;
       _media := 0;
       _mode := 493 (* 0755 *);
       _options := 0;
       _serialization := None;
       _state := 0;
       _userEGID := ___GID_ADMIN;
       _userEUID := ___UID_ROOT;
       _userRGID := ___GID_ADMIN;
       _userRUID := ___UID_ROOT |} in
  match CFDataCreate (buffer_bytes id) (strlen id + 1) with
  | Some data => set_description (<[_kDADiskIDKey := data]> (_description disk)) disk
  | None => disk
  end.

(** DADisk.c, lines 171-177. *)
Definition __DADiskEqual (disk1 disk2 : DADisk) : bool :=
  strcmp (_id disk1) (_id disk2) =? 0.

(** DADisk.c, lines 179-184. *)
Definition __DADiskHash (disk : DADisk) : Z :=
  CFHashBytes w (strprefix (Z.to_nat (MIN (strlen (_id disk)) 16)) (_id disk)).

(** [CFDictionarySetValue( disk->_description, key, value )] *)
Definition describe (key : string) (value : CFType) (disk : DADisk) : DADisk :=
  set_description (<[key := value]> (_description disk)) disk.

Definition DADiskGetID (disk : DADisk) : string := _id disk.

Definition DADiskGetDescription (disk : DADisk) (description : string) : option CFType :=
  _description disk !! description.

Definition DADiskGetOption (disk : DADisk) (option : Z) : bool :=
  negb (Z.land (_options disk) option =? 0).

Definition DADiskGetState (disk : DADisk) (state : Z) : bool :=
  negb (Z.land (_state disk) state =? 0).

Definition DADiskGetUserEGID (disk : DADisk) : Z := _userEGID disk.
Definition DADiskGetUserEUID (disk : DADisk) : Z := _userEUID disk.
Definition DADiskGetUserRGID (disk : DADisk) : Z := _userRGID disk.
Definition DADiskGetUserRUID (disk : DADisk) : Z := _userRUID disk.

(** *** The match evaluator *)

(** DADisk.c, lines 186-215.  The applier of [CFDictionaryApplyFunction];
    [context] is the cell [*( ( void * * ) context )], cleared on a mismatch. *)
Definition __DADiskMatch (key : string) (value : CFType) (context : option DADisk)
  : option DADisk :=
  match context with
  | Some disk =>
      let compare := _description disk !! key in
      if bool_decide (key = kIOPropertyMatchKey)
      then
        let match_ := IOServiceMatchPropertyTable w (_media disk) compare in
        if match_ then context else None
      else
        match compare with
        | None => None
        | Some compare => if CFEqual value compare then context else None
        end
  | None => None
  end.

(** DADisk.c, lines 1106-1111.  The applier runs over the entries in the
    order of the fold; the result does not depend on the order. *)
Definition DADiskMatch (disk : DADisk) (match_ : gmap string CFType) : bool :=
  let context := map_fold __DADiskMatch (Some disk) match_ in
  match context with
  | Some _ => true
  | None => false
  end.

(** *** The serialization cache and the mutators *)

(** DADisk.c, lines 971-979: what is returned, and the disk afterwards. *)
Definition DADiskGetSerialization (disk : DADisk) : option CFType * DADisk :=
  let disk :=
    match _serialization disk with
    | None => set_serialization (_DASerializeDiskDescription w (_description disk)) disk
    | Some _ => disk
    end in
  (_serialization disk, disk).

(** DADisk.c, lines 1181-1198. *)
Definition DADiskSetDescription (disk : DADisk) (description : string)
  (value : option CFType) : DADisk :=
  let disk :=
    match value with
    | Some value => set_description (<[description := value]> (_description disk)) disk
    | None => set_description (delete description (_description disk)) disk
    end in
  match _serialization disk with
  | Some _ => set_serialization None disk
  | None => disk
  end.

Definition DADiskSetBypath (disk : DADisk) (bypath : option CFType) : DADisk :=
  let disk := match _bypath disk with Some _ => set_bypath None disk | None => disk end in
  match bypath with Some _ => set_bypath bypath disk | None => disk end.

Definition DADiskSetClaim (disk : DADisk) (claim : option CFType) : DADisk :=
  let disk := match _claim disk with Some _ => set_claim None disk | None => disk end in
  match claim with Some _ => set_claim claim disk | None => disk end.

Definition DADiskSetContext (disk : DADisk) (context : option CFType) : DADisk :=
  let disk := match _context disk with Some _ => set_context None disk | None => disk end in
  match context with Some _ => set_context context disk | None => disk end.

Definition DADiskSetContextRe (disk : DADisk) (context : option CFType) : DADisk :=
  let disk := match _contextRe disk with Some _ => set_contextRe None disk | None => disk end in
  match context with Some _ => set_contextRe context disk | None => disk end.

Definition DADiskSetFileSystem (disk : DADisk) (filesystem : option CFType) : DADisk :=
  let disk :=
    match _filesystem disk with Some _ => set_filesystem None disk | None => disk end in
  match filesystem with Some _ => set_filesystem filesystem disk | None => disk end.

Definition DADiskSetOptions (disk : DADisk) (options : Z) (value : bool) : DADisk :=
  let disk := set_options (Z.land (_options disk) (Z.lnot options)) disk in
  set_options (Z.lor (_options disk) (if value then options else 0)) disk.

Definition DADiskSetOption (disk : DADisk) (option : Z) (value : bool) : DADisk :=
  DADiskSetOptions disk option value.

Definition DADiskSetState (disk : DADisk) (state : Z) (value : bool) : DADisk :=
  let disk := set_state (Z.land (_state disk) (Z.lnot state)) disk in
  set_state (Z.lor (_state disk) (if value then state else 0)) disk.

Definition DADiskSetUserEGID (disk : DADisk) (userGID : Z) : DADisk :=
  set_userEGID userGID disk.

Definition DADiskSetUserEUID (disk : DADisk) (userUID : Z) : DADisk :=
  set_userEUID userUID disk.

(** *** DADiskCreateFromIOMedia

    DADisk.c, lines 229-831, one definition for each of its commented parts. *)

(** [object = CFDictionaryGetValue( properties, from ); if ( object == NULL )
    goto DADiskCreateFromIOMediaErr; CFDictionarySetValue( disk->_description,
    to, object );] *)
Definition describe_required (properties : gmap string CFType) (from to : string)
  (disk : DADisk) : outcome (CFType * DADisk) :=
  object ← required (Some (DADiskGetID disk)) (properties !! from);
  mret (object, describe to object disk).

(** Create the disk object. *)
Definition create_disk_object (media : io_service_t)
  (properties : gmap string CFType) : outcome DADisk :=
  object ← required None (properties !! kIOBSDNameKey);
  status ← CFStringGetCString object sizeof_io_name_t;
  name ← required None status;
  let path := strcat (strcpy _PATH_DEV) name in
  let disk := __DADiskCreate path in
  device ← required (Some (DADiskGetID disk))
             (CFURLCreateFromFileSystemRepresentation w path (strlen path) false);
  let disk := set_device (Some device) disk in
  let disk := set_devicePath (Some (strdup path), snd (_devicePath disk)) disk in
  let path := strcat (strcat (strcpy _PATH_DEV) "r") name in
  let disk := set_devicePath (fst (_devicePath disk), Some (strdup path)) disk in
  let disk := set_media media disk in
  mret (describe kDADiskDescriptionVolumeNetworkKey kCFBooleanFalse disk).

(** Media BSD node. *)
Definition media_bsd_node (properties : gmap string CFType) (disk : DADisk)
  : outcome DADisk :=
  '(object, disk) ← describe_required properties
                      kIOBSDMajorKey kDADiskDescriptionMediaBSDMajorKey disk;
  major ← CFNumberGetValue object kCFNumberSInt32Type;
  '(object, disk) ← describe_required properties
                      kIOBSDMinorKey kDADiskDescriptionMediaBSDMinorKey disk;
  minor ← CFNumberGetValue object kCFNumberSInt32Type;
  mret (set_deviceNode (makedev (to_unsigned 32 major) (to_unsigned 32 minor)) disk).

(** Media BSD unit. *)
Definition media_bsd_unit (properties : gmap string CFType) (disk : DADisk)
  : outcome DADisk :=
  '(object, disk) ← describe_required properties
                      kIOBSDUnitKey kDADiskDescriptionMediaBSDUnitKey disk;
  unit ← CFNumberGetValue object kCFNumberSInt32Type;
  mret (set_deviceUnit unit disk).

(** Media icon. *)
Definition media_icon (media : io_service_t) (disk : DADisk) : outcome DADisk :=
  object ← required (Some (DADiskGetID disk))
             (IORegistryEntrySearchCFProperty w media kIOServicePlane kIOMediaIconKey);
  mret (describe kDADiskDescriptionMediaIconKey object disk).

(** Media kind and media type. *)
Definition media_kind (media : io_service_t) (properties : gmap string CFType)
  (disk : DADisk) : outcome DADisk :=
  if IOObjectConformsTo w media kIODVDMediaClass
  then
    let disk := describe kDADiskDescriptionMediaKindKey (CFString kIODVDMediaClass) disk in
    '(_, disk) ← describe_required properties
                   kIODVDMediaTypeKey kDADiskDescriptionMediaTypeKey disk;
    mret disk
  else if IOObjectConformsTo w media kIOCDMediaClass
  then
    let disk := describe kDADiskDescriptionMediaKindKey (CFString kIOCDMediaClass) disk in
    '(_, disk) ← describe_required properties
                   kIOCDMediaTypeKey kDADiskDescriptionMediaTypeKey disk;
    mret disk
  else
    mret (describe kDADiskDescriptionMediaKindKey (CFString kIOMediaClass) disk).

(** [CFStringCreateWithCString] in UTF-8, then in MacRoman. *)
Definition string_with_fallback (cStr : string) : option CFType :=
  match CFStringCreateWithCString w cStr kCFStringEncodingUTF8 with
  | Some object => Some object
  | None => CFStringCreateWithCString w cStr kCFStringEncodingMacRoman
  end.

(** Media name. *)
Definition media_name (media : io_service_t) (disk : DADisk) : outcome DADisk :=
  name ← required (Some (DADiskGetID disk)) (IORegistryEntryGetName w media);
  object ← required (Some (DADiskGetID disk)) (string_with_fallback name);
  mret (describe kDADiskDescriptionMediaNameKey object disk).

(** Media path: the device tree plane, else the service plane. *)
Definition media_path (media : io_service_t) (disk : DADisk) : outcome DADisk :=
  let status :=
    match IORegistryEntryGetPath w media kIODeviceTreePlane with
    | Some path => Some path
    | None => IORegistryEntryGetPath w media kIOServicePlane
    end in
  path ← required (Some (DADiskGetID disk)) status;
  object ← required (Some (DADiskGetID disk)) (string_with_fallback path);
  mret (describe kDADiskDescriptionMediaPathKey object disk).

(** The description of the media, block size to writable. *)
Definition media_description (media : io_service_t)
  (properties : gmap string CFType) (disk : DADisk) : outcome DADisk :=
  '(_, disk) ← describe_required properties
                 kIOMediaPreferredBlockSizeKey kDADiskDescriptionMediaBlockSizeKey disk;
  '(_, disk) ← describe_required properties
                 kIOBSDNameKey kDADiskDescriptionMediaBSDNameKey disk;
  disk ← media_bsd_node properties disk;
  disk ← media_bsd_unit properties disk;
  '(_, disk) ← describe_required properties
                 kIOMediaContentKey kDADiskDescriptionMediaContentKey disk;
  '(_, disk) ← describe_required properties
                 kIOMediaEjectableKey kDADiskDescriptionMediaEjectableKey disk;
  disk ← media_icon media disk;
  disk ← media_kind media properties disk;
  '(_, disk) ← describe_required properties
                 kIOMediaLeafKey kDADiskDescriptionMediaLeafKey disk;
  disk ← media_name media disk;
  disk ← media_path media disk;
  '(_, disk) ← describe_required properties
                 kIOMediaRemovableKey kDADiskDescriptionMediaRemovableKey disk;
  '(_, disk) ← describe_required properties
                 kIOMediaSizeKey kDADiskDescriptionMediaSizeKey disk;
  '(_, disk) ← describe_required properties
                 kIOMediaWholeKey kDADiskDescriptionMediaWholeKey disk;
  '(_, disk) ← describe_required properties
                 kIOMediaWritableKey kDADiskDescriptionMediaWritableKey disk;
  mret disk.

(** [status = IORegistryEntryCreateIterator( entry, plane, options, &services )]:
    DADisk.c does not examine the status, and goes on with [services], which
    is no iterator when the call failed. *)
Definition iterate (entry : io_service_t) (plane : io_plane)
  : outcome (list io_service_t) :=
  match IORegistryEntryCreateIterator w entry plane with
  | Some services => Ret services
  | None => Undef
  end.

(** [while ( ( entry = IOIteratorNext( services ) ) ) { if ( test )  break; }]:
    the entry the loop leaves in its variable, 0 when the iterator runs out. *)
Fixpoint first_entry (test : io_service_t -> bool) (services : list io_service_t)
  : io_service_t :=
  match services with
  | [] => 0
  | entry :: rest =>
      if entry =? 0 then 0
      else if test entry then entry
      else first_entry test rest
  end.

Definition is_kCFBooleanTrue (object : option CFType) : bool :=
  match object with
  | Some (CFBoolean true) => true
  | _ => false
  end.

Definition is_kCFBooleanFalse (object : option CFType) : bool :=
  match object with
  | Some (CFBoolean false) => true
  | _ => false
  end.

(** [if ( object )  CFDictionarySetValue( disk->_description, key, object );] *)
Definition describe_optional (key : string) (object : option CFType) (disk : DADisk)
  : DADisk :=
  match object with
  | Some object => describe key object disk
  | None => disk
  end.

(** Device internal? *)
Definition device_internal (sub : CFType) (disk : DADisk) : outcome DADisk :=
  object ← CFDictionaryGetValue sub kIOPropertyPhysicalInterconnectLocationKey;
  match object with
  | Some object =>
      internal ← CFStringCompare_EqualTo object kIOPropertyInternalKey;
      if internal : bool
      then mret (describe kDADiskDescriptionDeviceInternalKey kCFBooleanTrue disk)
      else
        external ← CFStringCompare_EqualTo object kIOPropertyExternalKey;
        if external : bool
        then mret (describe kDADiskDescriptionDeviceInternalKey kCFBooleanFalse disk)
        else mret disk
  | None => mret disk
  end.

(** The device protocol subproperties. *)
Definition device_protocol (properties : gmap string CFType) (disk : DADisk)
  : outcome DADisk :=
  match properties !! kIOPropertyProtocolCharacteristicsKey with
  | Some sub =>
      disk ← device_internal sub disk;
      object ← CFDictionaryGetValue sub kIOPropertyPhysicalInterconnectTypeKey;
      mret (describe_optional kDADiskDescriptionDeviceProtocolKey object disk)
  | None => mret disk
  end.

(** The device model subproperties. *)
Definition device_model (properties : gmap string CFType) (disk : DADisk)
  : outcome DADisk :=
  match properties !! kIOPropertyDeviceCharacteristicsKey with
  | Some sub =>
      object ← CFDictionaryGetValue sub kIOPropertyProductNameKey;
      let disk := describe_optional kDADiskDescriptionDeviceModelKey object disk in
      object ← CFDictionaryGetValue sub kIOPropertyProductRevisionLevelKey;
      let disk := describe_optional kDADiskDescriptionDeviceRevisionKey object disk in
      object ← CFDictionaryGetValue sub kIOPropertyVendorNameKey;
      mret (describe_optional kDADiskDescriptionDeviceVendorKey object disk)
  | None => mret disk
  end.

(** Device path. *)
Definition device_path (device : io_service_t) (disk : DADisk) : outcome DADisk :=
  path ← required (Some (DADiskGetID disk))
           (IORegistryEntryGetPath w device kIOServicePlane);
  object ← required (Some (DADiskGetID disk))
             (CFStringCreateWithCString w path kCFStringEncodingUTF8);
  mret (describe kDADiskDescriptionDevicePathKey object disk).

(** Device unit. *)
Definition device_unit (device : io_service_t) (disk : DADisk) : DADisk :=
  describe_optional kDADiskDescriptionDeviceUnitKey
    (IORegistryEntrySearchCFProperty w device kIOServicePlane "IOUnit") disk.

(** Device GUID (IEEE EUI-64). *)
Definition device_guid (device : io_service_t) (disk : DADisk) : outcome DADisk :=
  match IORegistryEntrySearchCFProperty w device kIOServicePlane "GUID" with
  | Some object =>
      value ← CFNumberGetValue object kCFNumberSInt64Type;
      let value := to_unsigned 64 value in
      let value := OSSwapHostToBigInt64 value in
      object ← required (Some (DADiskGetID disk))
                 (CFDataCreate (object_representation 8 value) 8);
      mret (describe kDADiskDescriptionDeviceGUIDKey object disk)
  | None => mret disk
  end.

(** The description of the device, once the device object is found. *)
Definition device_description (device : io_service_t) (disk : DADisk)
  : outcome DADisk :=
  properties ← required (Some (DADiskGetID disk))
                 (IORegistryEntryCreateCFProperties w device);
  disk ← device_protocol properties disk;
  disk ← device_model properties disk;
  disk ← device_path device disk;
  let disk := device_unit device disk in
  device_guid device disk.

(** The bus object and its name and path. *)
Definition bus_description (device : io_service_t) (disk : DADisk) : outcome DADisk :=
  services ← iterate device kIOServicePlane;
  let bus :=
    first_entry (fun bus => IORegistryEntryInPlane w bus kIODeviceTreePlane) services in
  if bus =? 0 then mret disk
  else
    name ← required (Some (DADiskGetID disk))
             (IORegistryEntryGetNameInPlane w bus kIODeviceTreePlane);
    object ← required (Some (DADiskGetID disk))
               (CFStringCreateWithCString w name kCFStringEncodingUTF8);
    let disk := describe kDADiskDescriptionBusNameKey object disk in
    path ← required (Some (DADiskGetID disk))
             (IORegistryEntryGetPath w bus kIODeviceTreePlane);
    object ← required (Some (DADiskGetID disk))
               (CFStringCreateWithCString w path kCFStringEncodingUTF8);
    mret (describe kDADiskDescriptionBusPathKey object disk).

(** Appearance time. *)
Definition appearance_time (disk : DADisk) : outcome DADisk :=
  let time := CFAbsoluteTimeGetCurrent w in
  object ← required (Some (DADiskGetID disk)) (CFNumberCreate_Double time);
  mret (describe kDADiskDescriptionAppearanceTimeKey object disk).

(** Mount automatic? *)
Definition mount_automatic (media : io_service_t) (disk : DADisk) : DADisk :=
  let object := IORegistryEntrySearchCFProperty w media kIOServicePlane "autodiskmount" in
  match object with
  | None => set_options (Z.lor (_options disk) kDADiskOptionMountAutomatic) disk
  | Some _ =>
      if is_kCFBooleanTrue object
      then set_options
             (Z.lor (_options disk)
                (Z.lor kDADiskOptionMountAutomatic kDADiskOptionMountAutomaticNoDefer))
             disk
      else disk
  end.

(** Eject upon logout? *)
Definition eject_upon_logout (device : io_service_t) (disk : DADisk) : DADisk :=
  let object :=
    IORegistryEntrySearchCFProperty w device kIOServicePlane "eject-upon-logout" in
  if is_kCFBooleanTrue object
  then set_options (Z.lor (_options disk) kDADiskOptionEjectUponLogout) disk
  else disk.

Definition set_real_unknown (disk : DADisk) : DADisk :=
  let disk := set_userRGID ___GID_UNKNOWN disk in
  set_userRUID ___UID_UNKNOWN disk.

Definition set_user (user : passwd) (disk : DADisk) : DADisk :=
  let disk := set_userEGID (pw_gid user) disk in
  let disk := set_userEUID (pw_uid user) disk in
  let disk := set_userRGID (pw_gid user) disk in
  set_userRUID (pw_uid user) disk.

(** Owner. *)
Definition owner (device : io_service_t) (disk : DADisk) : outcome DADisk :=
  let object := _description disk !! kDADiskDescriptionMediaRemovableKey in
  let disk := if is_kCFBooleanTrue object then set_real_unknown disk else disk in
  let object := _description disk !! kDADiskDescriptionDeviceInternalKey in
  let disk := if is_kCFBooleanFalse object then set_real_unknown disk else disk in
  match IORegistryEntrySearchCFProperty w device kIOServicePlane "owner-uid" with
  | Some object =>
      userUID ← CFNumberGetValue object kCFNumberIntType;
      (* [getpwuid( userUID )]: the [int] is converted to the [uid_t] of the
         parameter *)
      match getpwuid w (to_unsigned 32 userUID) with
      | Some user => mret (set_user user disk)
      | None => mret disk
      end
  | None => mret disk
  end.

(** Owner mode. *)
Definition owner_mode (device : io_service_t) (disk : DADisk) : outcome DADisk :=
  match IORegistryEntrySearchCFProperty w device kIOServicePlane "owner-mode" with
  | Some object =>
      mode ← CFNumberGetValue object kCFNumberIntType;
      mret (set_mode (mode_t_of_int mode) disk)
  | None => mret disk
  end.

(** The body of DADiskCreateFromIOMedia up to its [return disk]. *)
Definition DADiskCreateFromIOMedia_body (media : io_service_t) : outcome DADisk :=
  properties ← required None (IORegistryEntryCreateCFProperties w media);
  disk ← create_disk_object media properties;
  disk ← media_description media properties disk;
  services ← iterate media kIOServicePlane;
  let device :=
    first_entry (fun device => IOObjectConformsTo w device kIOBlockStorageDeviceClass)
      services in
  if device =? 0 then Err (Some (DADiskGetID disk))
  else
    disk ← device_description device disk;
    disk ← bus_description device disk;
    disk ← appearance_time disk;
    let disk := mount_automatic media disk in
    let disk := eject_upon_logout device disk in
    disk ← owner device disk;
    owner_mode device disk.

(** The error label: one line is logged when the service-plane path of the
    media can be obtained, and NULL is returned. *)
Definition DADiskCreateFromIOMediaErr (media : io_service_t) (id : option string)
  : execution (option DADisk) :=
  Returns None
    match IORegistryEntryGetPath w media kIOServicePlane with
    | Some _ => [DALogError "unable to create disk, id = %s." id]
    | None => []
    end.

Definition DADiskCreateFromIOMedia (media : io_service_t) : execution (option DADisk) :=
  match DADiskCreateFromIOMedia_body media with
  | Ret disk => Returns (Some disk) []
  | Err id => DADiskCreateFromIOMediaErr media id
  | Undef => Undefined
  end.

(** *** DADiskCreateFromVolumePath

    DADisk.c, lines 833-894. *)

Definition DADiskCreateFromVolumePath (path : option CFType)
  : execution (option DADisk) :=
  let disk :=
    match path with
    | Some path =>
        match ___CFURLCopyFileSystemRepresentation w path with
        | Some _path =>
            match ___statfs w _path MNT_NOWAIT with
            | Some fs =>
                let disk := __DADiskCreate (f_mntonname fs) in
                let disk := set_bypath (Some path) disk in
                let disk := describe kDADiskDescriptionVolumePathKey path disk in
                let disk :=
                  describe kDADiskDescriptionVolumeMountableKey kCFBooleanTrue disk in
                let disk :=
                  if negb (Z.land (f_flags fs) MNT_LOCAL =? 0)
                  then describe kDADiskDescriptionVolumeNetworkKey kCFBooleanFalse disk
                  else describe kDADiskDescriptionVolumeNetworkKey kCFBooleanTrue disk in
                let disk := set_state (Z.lor (_state disk) kDADiskStateStagedProbe) disk in
                let disk := set_state (Z.lor (_state disk) kDADiskStateStagedPeek) disk in
                let disk := set_state (Z.lor (_state disk) kDADiskStateStagedRepair) disk in
                let disk := set_state (Z.lor (_state disk) kDADiskStateStagedApprove) disk in
                let disk :=
                  set_state (Z.lor (_state disk) kDADiskStateStagedAuthorize) disk in
                let disk := set_state (Z.lor (_state disk) kDADiskStateStagedMount) disk in
                match getpwuid w (f_owner fs) with
                | Some user => Some (set_user user disk)
                | None => Some disk
                end
            | None => None
            end
        | None => None
        end
    | None => None
    end in
  Returns disk [].

End DADisk.

(** ** DADisk.c: the accessors, the comparison and the log line *)

Section Accessors.

Context `{Headers}.

(** DADisk.c, lines 896-969. *)

Definition DADiskGetBypath (disk : DADisk) : option CFType := _bypath disk.

Definition DADiskGetBSDNode (disk : DADisk) : Z := _deviceNode disk.

Definition DADiskGetBSDPath (disk : DADisk) (raw : bool) : option string :=
  if raw then snd (_devicePath disk) else fst (_devicePath disk).

(** The unit is kept as an SInt32 and returned as a UInt32. *)
Definition DADiskGetBSDUnit (disk : DADisk) : Z := to_unsigned 32 (_deviceUnit disk).

Definition DADiskGetClaim (disk : DADisk) : option CFType := _claim disk.

Definition DADiskGetContext (disk : DADisk) : option CFType := _context disk.

Definition DADiskGetContextRe (disk : DADisk) : option CFType := _contextRe disk.

Definition DADiskGetDevice (disk : DADisk) : option CFType := _device disk.

Definition DADiskGetFileSystem (disk : DADisk) : option CFType := _filesystem disk.

Definition DADiskGetIOMedia (disk : DADisk) : io_service_t := _media disk.

Definition DADiskGetMode (disk : DADisk) : Z := _mode disk.

Definition DADiskGetOptions (disk : DADisk) : Z := _options disk.

(** [CFComparisonResult] *)
Inductive CFComparisonResult : Type :=
  kCFCompareLessThan | kCFCompareEqualTo | kCFCompareGreaterThan.

(** DADisk.c, lines 217-227.  [identical] is the outcome of the pointer test
    [object1 == object2], the one thing the function reads that the values
    do not give. *)
Definition DADiskCompareDescription (disk : DADisk) (description : string)
  (value : option CFType) (identical : bool) : CFComparisonResult :=
  let object1 := _description disk !! description in
  let object2 := value in
  if identical then kCFCompareEqualTo
  else
    match object1 with
    | None => kCFCompareLessThan
    | Some object1 =>
        match object2 with
        | None => kCFCompareGreaterThan
        | Some object2 =>
            if CFEqual object1 object2 then kCFCompareEqualTo else kCFCompareLessThan
        end
    end.

End Accessors.

(** *** DADiskLog *)

(** The description keys that DADiskLog reads beyond those of [Headers]
    (DiskArbitration.h), and the helpers it calls: ___CFStringPad and
    ___kCFUUIDNull of DABase, CFUUIDCreateString and CFURLCopyFileSystemPath
    of CoreFoundation. *)
Record LogWorld : Type := {
  kDADiskDescriptionVolumeKindKey : string;
  kDADiskDescriptionVolumeNameKey : string;
  kDADiskDescriptionVolumeUUIDKey : string;
  (* the string after ___CFStringPad( string, pad, length, index ) *)
  ___CFStringPad : string -> string -> Z -> Z -> string;
  ___kCFUUIDNull : CFType;
  CFUUIDCreateString : CFType -> option string;
  CFURLCopyFileSystemPath : CFType -> option string
}.

Section Log.

Context `{Headers}.
Variable lw : LogWorld.

(** [CFStringAppend( string, component )], [component] an object taken from
    the description. *)
Definition CFStringAppend (string_ : string) (component : CFType) : outcome string :=
  match component with
  | CFString s => Ret (string_ +:+ s)
  | _ => Undef
  end.

(** [if ( component )  CFStringAppend( string, component );] *)
Definition append_optional (string_ : string) (component : option CFType)
  : outcome string :=
  match component with
  | Some component => CFStringAppend string_ component
  | None => Ret string_
  end.

(** DADisk.c, lines 1016-1104: the line handed to DALog, if any. *)
Definition DADiskLog (disk : DADisk) : outcome (option string) :=
  if is_kCFBooleanTrue (DADiskGetDescription disk kDADiskDescriptionVolumeMountableKey)
  then
    let string_ := EmptyString in
    match DADiskGetDescription disk kDADiskDescriptionMediaBSDNameKey with
    | Some component =>
        string_ ← CFStringAppend string_ component;
        let string_ := ___CFStringPad lw string_ " " 10 0 in
        let string_ := string_ +:+ " " in
        string_ ← append_optional string_
                    (DADiskGetDescription disk (kDADiskDescriptionVolumeKindKey lw));
        let string_ := ___CFStringPad lw string_ " " 19 0 in
        let string_ := string_ +:+ " " in
        let component :=
          match DADiskGetDescription disk (kDADiskDescriptionVolumeUUIDKey lw) with
          | Some component => component
          | None => ___kCFUUIDNull lw
          end in
        let string_ :=
          match CFUUIDCreateString lw component with
          | Some component => string_ +:+ component
          | None => string_
          end in
        let string_ := ___CFStringPad lw string_ " " 56 0 in
        let string_ := string_ +:+ " " in
        string_ ← append_optional string_
                    (DADiskGetDescription disk (kDADiskDescriptionVolumeNameKey lw));
        let string_ := ___CFStringPad lw string_ " " 80 0 in
        let string_ := string_ +:+ " " in
        let string_ :=
          match DADiskGetDescription disk kDADiskDescriptionVolumePathKey with
          | Some component =>
              match CFURLCopyFileSystemPath lw component with
              | Some component => string_ +:+ component
              | None => string_
              end
          | None => string_ +:+ "[not mounted]"
          end in
        mret (Some string_)
    | None => mret None
    end
  else mret None.

End Log.

(** ** A concrete system

    One instance of the headers and one small registry, on which the
    definitions above can be run: a fixed internal disk [disk2] (entry 1)
    below a block storage device (entry 2) below a bus (entry 3), and one
    mounted volume. *)

Definition sample_headers : Headers := {|
  _kDADiskIDKey := "DADiskID";
  kDADiskDescriptionVolumeMountableKey := "DAVolumeMountable";
  kDADiskDescriptionVolumeNetworkKey := "DAVolumeNetwork";
  kDADiskDescriptionVolumePathKey := "DAVolumePath";
  kDADiskDescriptionMediaBlockSizeKey := "DAMediaBlockSize";
  kDADiskDescriptionMediaBSDMajorKey := "DAMediaBSDMajor";
  kDADiskDescriptionMediaBSDMinorKey := "DAMediaBSDMinor";
  kDADiskDescriptionMediaBSDNameKey := "DAMediaBSDName";
  kDADiskDescriptionMediaBSDUnitKey := "DAMediaBSDUnit";
  kDADiskDescriptionMediaContentKey := "DAMediaContent";
  kDADiskDescriptionMediaEjectableKey := "DAMediaEjectable";
  kDADiskDescriptionMediaIconKey := "DAMediaIcon";
  kDADiskDescriptionMediaKindKey := "DAMediaKind";
  kDADiskDescriptionMediaLeafKey := "DAMediaLeaf";
  kDADiskDescriptionMediaNameKey := "DAMediaName";
  kDADiskDescriptionMediaPathKey := "DAMediaPath";
  kDADiskDescriptionMediaRemovableKey := "DAMediaRemovable";
  kDADiskDescriptionMediaSizeKey := "DAMediaSize";
  kDADiskDescriptionMediaTypeKey := "DAMediaType";
  kDADiskDescriptionMediaWholeKey := "DAMediaWhole";
  kDADiskDescriptionMediaWritableKey := "DAMediaWritable";
  kDADiskDescriptionDeviceGUIDKey := "DADeviceGUID";
  kDADiskDescriptionDeviceInternalKey := "DADeviceInternal";
  kDADiskDescriptionDeviceModelKey := "DADeviceModel";
  kDADiskDescriptionDevicePathKey := "DADevicePath";
  kDADiskDescriptionDeviceProtocolKey := "DADeviceProtocol";
  kDADiskDescriptionDeviceRevisionKey := "DADeviceRevision";
  kDADiskDescriptionDeviceUnitKey := "DADeviceUnit";
  kDADiskDescriptionDeviceVendorKey := "DADeviceVendor";
  kDADiskDescriptionBusNameKey := "DABusName";
  kDADiskDescriptionBusPathKey := "DABusPath";
  kDADiskDescriptionAppearanceTimeKey := "DAAppearanceTime";
  kDADiskOptionEjectUponLogout := 0x00000001;
  kDADiskOptionMountAutomatic := 0x00000010;
  kDADiskOptionMountAutomaticNoDefer := 0x00000020;
  kDADiskStateStagedProbe := 0x00010000;
  kDADiskStateStagedPeek := 0x00020000;
  kDADiskStateStagedRepair := 0x00040000;
  kDADiskStateStagedApprove := 0x00080000;
  kDADiskStateStagedAuthorize := 0x00100000;
  kDADiskStateStagedMount := 0x00200000;
  ___GID_ADMIN := 80;
  ___GID_UNKNOWN := 99;
  ___UID_ROOT := 0;
  ___UID_UNKNOWN := 99;
  kIOBSDNameKey := "BSD Name";
  kIOBSDMajorKey := "BSD Major";
  kIOBSDMinorKey := "BSD Minor";
  kIOBSDUnitKey := "BSD Unit";
  kIOMediaPreferredBlockSizeKey := "Preferred Block Size";
  kIOMediaContentKey := "Content";
  kIOMediaEjectableKey := "Ejectable";
  kIOMediaIconKey := "IOMediaIcon";
  kIOMediaLeafKey := "Leaf";
  kIOMediaRemovableKey := "Removable";
  kIOMediaSizeKey := "Size";
  kIOMediaWholeKey := "Whole";
  kIOMediaWritableKey := "Writable";
  kIOMediaClass := "IOMedia";
  kIOCDMediaClass := "IOCDMedia";
  kIOCDMediaTypeKey := "Type";
  kIODVDMediaClass := "IODVDMedia";
  kIODVDMediaTypeKey := "Type";
  kIOBlockStorageDeviceClass := "IOBlockStorageDevice";
  kIOPropertyMatchKey := "IOPropertyMatch";
  kIOPropertyProtocolCharacteristicsKey := "Protocol Characteristics";
  kIOPropertyPhysicalInterconnectLocationKey := "Physical Interconnect Location";
  kIOPropertyPhysicalInterconnectTypeKey := "Physical Interconnect";
  kIOPropertyInternalKey := "Internal";
  kIOPropertyExternalKey := "External";
  kIOPropertyDeviceCharacteristicsKey := "Device Characteristics";
  kIOPropertyProductNameKey := "Product Name";
  kIOPropertyProductRevisionLevelKey := "Product Revision Level";
  kIOPropertyVendorNameKey := "Vendor Name";
  sizeof_io_name_t := 128;
  _PATH_DEV := "/dev/";
  (* ((dev_t)(((x) << 24) | (y))), [dev_t] a signed 32-bit integer *)
  makedev := fun x y => to_signed 32 (Z.lor (Z.shiftl x 24) y);
  mode_t_of_int := fun mode => mode mod 65536;
  MNT_LOCAL := 0x00001000;
  MNT_NOWAIT := 2;
  host_big_endian := false
|}.

Definition sample_media : io_service_t := 1.
Definition sample_device : io_service_t := 2.
Definition sample_bus : io_service_t := 3.

Definition sample_media_properties : gmap string CFType :=
  list_to_map
    [ ("BSD Name", CFString "disk2");
      ("Preferred Block Size", CFNumber 512);
      ("BSD Major", CFNumber 14);
      ("BSD Minor", CFNumber 2);
      ("BSD Unit", CFNumber 2);
      ("Content", CFString "Apple_HFS");
      ("Ejectable", kCFBooleanFalse);
      ("Leaf", kCFBooleanTrue);
      ("Removable", kCFBooleanFalse);
      ("Size", CFNumber 10000000000);
      ("Whole", kCFBooleanTrue);
      ("Writable", kCFBooleanTrue) ]%string.

Definition sample_device_properties : gmap string CFType :=
  list_to_map
    [ ("Protocol Characteristics",
       CFDictionary
         (list_to_map
            [ ("Physical Interconnect Location", CFString "Internal");
              ("Physical Interconnect", CFString "ATA") ]));
      ("Device Characteristics",
       CFDictionary
         (list_to_map
            [ ("Product Name", CFString "ST3160023AS");
              ("Vendor Name", CFString "Seagate") ])) ]%string.

(** The registry, given the media properties and the hints that a search
    through the parents of an entry finds.  The media has no path in the
    device tree plane; the bus has. *)
Definition sample_world (media_properties : gmap string CFType)
  (hint : io_service_t -> string -> option CFType) : World := {|
  IORegistryEntryCreateCFProperties := fun entry =>
    if entry =? sample_media then Some media_properties
    else if entry =? sample_device then Some sample_device_properties
    else None;
  IORegistryEntrySearchCFProperty := fun entry plane key =>
    if String.eqb key "IOMediaIcon" then Some (CFDictionary ∅) else hint entry key;
  IOObjectConformsTo := fun entry class =>
    (entry =? sample_media) && String.eqb class "IOMedia"
    || (entry =? sample_device) && String.eqb class "IOBlockStorageDevice";
  IORegistryEntryGetName := fun entry => Some "Macintosh HD"%string;
  IORegistryEntryGetNameInPlane := fun entry plane => Some "ata-4"%string;
  IORegistryEntryGetPath := fun entry plane =>
    match plane with
    | kIOServicePlane => Some "IOService:/MacRISC2PE/pci/ata-4/disk"%string
    | kIODeviceTreePlane =>
        if entry =? sample_bus then Some "IODeviceTree:/pci/ata-4"%string else None
    end;
  IORegistryEntryInPlane := fun entry plane => entry =? sample_bus;
  IORegistryEntryCreateIterator := fun entry plane =>
    if entry =? sample_media then Some [sample_device; sample_bus]
    else if entry =? sample_device then Some [sample_bus]
    else Some [];
  IOServiceMatchPropertyTable := fun entry table =>
    match table with
    | Some _ => true
    | None => false
    end;
  ___statfs := fun path flags =>
    if String.eqb path "/Volumes/Data/Documents"
    then Some {| f_mntonname := "/Volumes/Data"; f_flags := 0x00001000; f_owner := 501 |}
    else None;
  getpwuid := fun uid =>
    if uid =? 501 then Some {| pw_uid := 501; pw_gid := 20 |} else None;
  CFStringCreateWithCString := fun cStr encoding => Some (CFString cStr);
  CFURLCreateFromFileSystemRepresentation := fun buffer length isDirectory =>
    Some (CFURL buffer);
  ___CFURLCopyFileSystemRepresentation := fun url =>
    match url with
    | CFURL path => Some path
    | _ => None
    end;
  CFAbsoluteTimeGetCurrent := 0x41B0000000000000;
  CFHashBytes := fun bytes =>
    fold_left (fun h c => (h * 31 + byte_of c) mod 2 ^ 32) (list_ascii_of_string bytes) 0;
  _DASerializeDiskDescription := fun description =>
    Some (CFData (map (fun '(key, _) => Z.of_nat (String.length key))
                    (map_to_list description)))
|}.

Definition no_hint : io_service_t -> string -> option CFType := fun _ _ => None.

Definition hint_on (entry : io_service_t) (key : string) (value : CFType)
  : io_service_t -> string -> option CFType :=
  fun entry' key' =>
    if (entry' =? entry) && String.eqb key' key then Some value else None.

(** The same registry with removable media. *)
Definition removable_world : World :=
  sample_world (<["Removable"%string := kCFBooleanTrue]> sample_media_properties) no_hint.

(** The same registry with an autodiskmount hint that is a number. *)
Definition number_hint_world : World :=
  sample_world sample_media_properties (hint_on sample_media "autodiskmount" (CFNumber 1)).

(** The same registry with a GUID on the device. *)
Definition guid_world : World :=
  sample_world sample_media_properties
    (hint_on sample_device "GUID" (CFNumber 0x0011223344556677)).

(** The same registry with media that do not give their size. *)
Definition sizeless_world : World :=
  sample_world (delete "Size"%string sample_media_properties) no_hint.

(** A disk with two facts in its description. *)
Definition sample_disk : DADisk :=
  @describe "DAMediaRemovable" kCFBooleanFalse
    (@describe "DAMediaWhole" kCFBooleanTrue (@__DADiskCreate sample_headers "/dev/disk2")).

(** Two volumes whose mount points agree on their first 16 bytes. *)
Definition sample_volume_1 : DADisk := @__DADiskCreate sample_headers "/Volumes/Macintosh HD 1".
Definition sample_volume_2 : DADisk := @__DADiskCreate sample_headers "/Volumes/Macintosh HD 2".

(** The disk of the mounted volume of the concrete system. *)
Definition mounted_disk : DADisk :=
  match @DADiskCreateFromVolumePath sample_headers
          (sample_world sample_media_properties no_hint)
          (Some (CFURL "/Volumes/Data/Documents")) with
  | Returns (Some disk) _ => disk
  | _ => @__DADiskCreate sample_headers ""
  end.
(** ** More of the concrete system *)

(** The registry as it is, without hints. *)
Definition plain_world : World := sample_world sample_media_properties no_hint.

(** The same registry with an owner-mode hint of 0644 on the device. *)
Definition mode_world : World :=
  sample_world sample_media_properties
    (hint_on sample_device "owner-mode" (CFNumber 420 (* 0644 *))).

(** The same system, where every path below /Volumes/Data is on the volume
    mounted there. *)
Definition paths_world : World := {|
  IORegistryEntryCreateCFProperties := IORegistryEntryCreateCFProperties plain_world;
  IORegistryEntrySearchCFProperty := IORegistryEntrySearchCFProperty plain_world;
  IOObjectConformsTo := IOObjectConformsTo plain_world;
  IORegistryEntryGetName := IORegistryEntryGetName plain_world;
  IORegistryEntryGetNameInPlane := IORegistryEntryGetNameInPlane plain_world;
  IORegistryEntryGetPath := IORegistryEntryGetPath plain_world;
  IORegistryEntryInPlane := IORegistryEntryInPlane plain_world;
  IORegistryEntryCreateIterator := IORegistryEntryCreateIterator plain_world;
  IOServiceMatchPropertyTable := IOServiceMatchPropertyTable plain_world;
  ___statfs := fun path flags =>
    if String.prefix "/Volumes/Data/" path
    then Some {| f_mntonname := "/Volumes/Data"; f_flags := 0x00001000; f_owner := 501 |}
    else None;
  getpwuid := getpwuid plain_world;
  CFStringCreateWithCString := CFStringCreateWithCString plain_world;
  CFURLCreateFromFileSystemRepresentation :=
    CFURLCreateFromFileSystemRepresentation plain_world;
  ___CFURLCopyFileSystemRepresentation := ___CFURLCopyFileSystemRepresentation plain_world;
  CFAbsoluteTimeGetCurrent := CFAbsoluteTimeGetCurrent plain_world;
  CFHashBytes := CFHashBytes plain_world;
  _DASerializeDiskDescription := _DASerializeDiskDescription plain_world
|}.

(** The pieces DADiskLog needs, with a pad that fills up with spaces. *)
Definition sample_log_world : LogWorld := {|
  kDADiskDescriptionVolumeKindKey := "DAVolumeKind";
  kDADiskDescriptionVolumeNameKey := "DAVolumeName";
  kDADiskDescriptionVolumeUUIDKey := "DAVolumeUUID";
  ___CFStringPad := fun string_ pad length index =>
    string_ +:+ string_of_list_ascii
                  (repeat " "%char (Z.to_nat length - String.length string_));
  ___kCFUUIDNull := CFData (repeat 0 16);
  CFUUIDCreateString := fun uuid => Some "00000000-0000-0000-0000-000000000000"%string;
  CFURLCopyFileSystemPath := fun url =>
    match url with
    | CFURL path => Some path
    | _ => None
    end
|}.

(** The disk of the media of the concrete system. *)
Definition hardware_disk : DADisk :=
  match @DADiskCreateFromIOMedia sample_headers plain_world sample_media with
  | Returns (Some disk) _ => disk
  | _ => @__DADiskCreate sample_headers ""
  end.

(** The disk of the media when the device carries the owner-mode hint. *)
Definition mode_disk : DADisk :=
  match @DADiskCreateFromIOMedia sample_headers mode_world sample_media with
  | Returns (Some disk) _ => disk
  | _ => @__DADiskCreate sample_headers ""
  end.

(** The disks of two paths below /Volumes/Data. *)
Definition documents_disk : DADisk :=
  match @DADiskCreateFromVolumePath sample_headers paths_world
          (Some (CFURL "/Volumes/Data/Documents")) with
  | Returns (Some disk) _ => disk
  | _ => @__DADiskCreate sample_headers ""
  end.

Definition albums_disk : DADisk :=
  match @DADiskCreateFromVolumePath sample_headers paths_world
          (Some (CFURL "/Volumes/Data/Music/Albums")) with
  | Returns (Some disk) _ => disk
  | _ => @__DADiskCreate sample_headers ""
  end.

(** The same registry with the device on an external USB interconnect. *)
Definition external_device_properties : gmap string CFType :=
  list_to_map
    [ ("Protocol Characteristics",
       CFDictionary
         (list_to_map
            [ ("Physical Interconnect Location", CFString "External");
              ("Physical Interconnect", CFString "USB") ])) ]%string.

Definition external_world : World := {|
  IORegistryEntryCreateCFProperties := fun entry =>
    if entry =? sample_device then Some external_device_properties
    else IORegistryEntryCreateCFProperties plain_world entry;
  IORegistryEntrySearchCFProperty := IORegistryEntrySearchCFProperty plain_world;
  IOObjectConformsTo := IOObjectConformsTo plain_world;
  IORegistryEntryGetName := IORegistryEntryGetName plain_world;
  IORegistryEntryGetNameInPlane := IORegistryEntryGetNameInPlane plain_world;
  IORegistryEntryGetPath := IORegistryEntryGetPath plain_world;
  IORegistryEntryInPlane := IORegistryEntryInPlane plain_world;
  IORegistryEntryCreateIterator := IORegistryEntryCreateIterator plain_world;
  IOServiceMatchPropertyTable := IOServiceMatchPropertyTable plain_world;
  ___statfs := ___statfs plain_world;
  getpwuid := getpwuid plain_world;
  CFStringCreateWithCString := CFStringCreateWithCString plain_world;
  CFURLCreateFromFileSystemRepresentation :=
    CFURLCreateFromFileSystemRepresentation plain_world;
  ___CFURLCopyFileSystemRepresentation := ___CFURLCopyFileSystemRepresentation plain_world;
  CFAbsoluteTimeGetCurrent := CFAbsoluteTimeGetCurrent plain_world;
  CFHashBytes := CFHashBytes plain_world;
  _DASerializeDiskDescription := _DASerializeDiskDescription plain_world
|}.

(** The same registry with the owner-uid hint 4294967294 on the device, which
    is -2 as an [int] and the user nobody as a [uid_t]. *)
Definition nobody_world : World := {|
  IORegistryEntryCreateCFProperties := IORegistryEntryCreateCFProperties plain_world;
  IORegistryEntrySearchCFProperty := fun entry plane key =>
    if (entry =? sample_device) && String.eqb key "owner-uid"
    then Some (CFNumber 4294967294)
    else IORegistryEntrySearchCFProperty plain_world entry plane key;
  IOObjectConformsTo := IOObjectConformsTo plain_world;
  IORegistryEntryGetName := IORegistryEntryGetName plain_world;
  IORegistryEntryGetNameInPlane := IORegistryEntryGetNameInPlane plain_world;
  IORegistryEntryGetPath := IORegistryEntryGetPath plain_world;
  IORegistryEntryInPlane := IORegistryEntryInPlane plain_world;
  IORegistryEntryCreateIterator := IORegistryEntryCreateIterator plain_world;
  IOServiceMatchPropertyTable := IOServiceMatchPropertyTable plain_world;
  ___statfs := ___statfs plain_world;
  getpwuid := fun uid =>
    if uid =? 4294967294 then Some {| pw_uid := 4294967294; pw_gid := 4294967294 |}
    else getpwuid plain_world uid;
  CFStringCreateWithCString := CFStringCreateWithCString plain_world;
  CFURLCreateFromFileSystemRepresentation :=
    CFURLCreateFromFileSystemRepresentation plain_world;
  ___CFURLCopyFileSystemRepresentation := ___CFURLCopyFileSystemRepresentation plain_world;
  CFAbsoluteTimeGetCurrent := CFAbsoluteTimeGetCurrent plain_world;
  CFHashBytes := CFHashBytes plain_world;
  _DASerializeDiskDescription := _DASerializeDiskDescription plain_world
|}.


(** The disk that DADiskCreateFromIOMedia returns for the media in a
    registry; on an unexpected outcome, a disk with the empty id. *)
Definition disk_of (w : World) : DADisk :=
  match @DADiskCreateFromIOMedia sample_headers w sample_media with
  | Returns (Some disk) _ => disk
  | _ => @__DADiskCreate sample_headers ""
  end.

Definition removable_disk : DADisk := disk_of removable_world.
Definition external_disk : DADisk := disk_of external_world.
Definition nobody_disk : DADisk := disk_of nobody_world.


(** * Notions used in the statements *)

(** ** What a construction step may change

    [describes keys disk disk']: [disk'] is [disk] but for its device node,
    its unit and the entries of its description under [keys]. *)

Definition facts_erased (disk : DADisk) : DADisk :=
  set_description ∅ (set_deviceNode 0 (set_deviceUnit 0 disk)).

Definition describes (keys : list string) (disk disk' : DADisk) : Prop :=
  facts_erased disk' = facts_erased disk /\
  forall key, key ∉ keys -> _description disk' !! key = _description disk !! key.

(** The keys under which each part of DADiskCreateFromIOMedia stores. *)

Definition object_keys `{Headers} : list string :=
  [ _kDADiskIDKey; kDADiskDescriptionVolumeNetworkKey ].

Definition media_keys `{Headers} : list string :=
  [ kDADiskDescriptionMediaBlockSizeKey;
    kDADiskDescriptionMediaBSDNameKey;
    kDADiskDescriptionMediaBSDMajorKey;
    kDADiskDescriptionMediaBSDMinorKey;
    kDADiskDescriptionMediaBSDUnitKey;
    kDADiskDescriptionMediaContentKey;
    kDADiskDescriptionMediaEjectableKey;
    kDADiskDescriptionMediaIconKey;
    kDADiskDescriptionMediaKindKey;
    kDADiskDescriptionMediaTypeKey;
    kDADiskDescriptionMediaLeafKey;
    kDADiskDescriptionMediaNameKey;
    kDADiskDescriptionMediaPathKey;
    kDADiskDescriptionMediaRemovableKey;
    kDADiskDescriptionMediaSizeKey;
    kDADiskDescriptionMediaWholeKey;
    kDADiskDescriptionMediaWritableKey ].

Definition device_keys `{Headers} : list string :=
  [ kDADiskDescriptionDeviceInternalKey;
    kDADiskDescriptionDeviceProtocolKey;
    kDADiskDescriptionDeviceModelKey;
    kDADiskDescriptionDeviceRevisionKey;
    kDADiskDescriptionDeviceVendorKey;
    kDADiskDescriptionDevicePathKey;
    kDADiskDescriptionDeviceUnitKey ].

Definition bus_keys `{Headers} : list string :=
  [ kDADiskDescriptionBusNameKey; kDADiskDescriptionBusPathKey ].

(** The media properties that DADiskCreateFromIOMedia copies and requires. *)
Definition required_media_properties `{Headers} : list string :=
  [ kIOMediaPreferredBlockSizeKey;
    kIOBSDNameKey;
    kIOBSDMajorKey;
    kIOBSDMinorKey;
    kIOBSDUnitKey;
    kIOMediaContentKey;
    kIOMediaEjectableKey;
    kIOMediaLeafKey;
    kIOMediaRemovableKey;
    kIOMediaSizeKey;
    kIOMediaWholeKey;
    kIOMediaWritableKey ].

(** The registry path of the media: device tree plane, else service plane. *)
Definition media_registry_path (w : World) (media : io_service_t) : option string :=
  match IORegistryEntryGetPath w media kIODeviceTreePlane with
  | Some path => Some path
  | None => IORegistryEntryGetPath w media kIOServicePlane
  end.

(** The parents of an entry, recursively, in the order the iterator yields. *)
Definition parents (w : World) (entry : io_service_t) : list io_service_t :=
  match IORegistryEntryCreateIterator w entry kIOServicePlane with
  | Some services => services
  | None => []
  end.

(** The device object: the first parent that is a block storage device. *)
Definition device_of `{Headers} (w : World) (media : io_service_t) : io_service_t :=
  first_entry (fun device => IOObjectConformsTo w device kIOBlockStorageDeviceClass)
    (parents w media).

(** The bus object: the first parent of the device in the device tree. *)
Definition bus_of (w : World) (device : io_service_t) : io_service_t :=
  first_entry (fun bus => IORegistryEntryInPlane w bus kIODeviceTreePlane)
    (parents w device).

(** A disk as [__DADiskCreate] leaves it, whatever its description, device
    and media: no state, no option, no cached serialization, mode 0755 and
    the administrative identity. *)
Definition pristine `{Headers} (disk : DADisk) : Prop :=
  _state disk = 0 /\
  _options disk = 0 /\
  _serialization disk = None /\
  _mode disk = 493 /\
  _userEGID disk = ___GID_ADMIN /\
  _userEUID disk = ___UID_ROOT /\
  _userRGID disk = ___GID_ADMIN /\
  _userRUID disk = ___UID_ROOT /\
  NulFree (_id disk).

(** A disk without its policy: options, mode and the four identities. *)
Definition policy_erased (disk : DADisk) : DADisk :=
  set_options 0
    (set_mode 0
       (set_userEGID 0 (set_userEUID 0 (set_userRGID 0 (set_userRUID 0 disk))))).

(** The identity that the owner-uid hint of the device resolves to: the
    password entry of the user whose id is the hinted number taken as a
    [uid_t], an unsigned 32-bit integer, when there is a hint and an entry. *)
Definition resolved_owner (w : World) (device : io_service_t) : option passwd :=
  match IORegistryEntrySearchCFProperty w device kIOServicePlane "owner-uid" with
  | Some (CFNumber n) => getpwuid w (n mod 2 ^ 32)
  | _ => None
  end.

(** The six staging flags of the disk state. *)
Definition staging_flags `{Headers} : list Z :=
  [ kDADiskStateStagedProbe;
    kDADiskStateStagedPeek;
    kDADiskStateStagedRepair;
    kDADiskStateStagedApprove;
    kDADiskStateStagedAuthorize;
    kDADiskStateStagedMount ].

(** The three option flags are bits of their own. *)
Definition option_flags_disjoint `{Headers} : Prop :=
  kDADiskOptionMountAutomatic <> 0 /\
  kDADiskOptionMountAutomaticNoDefer <> 0 /\
  kDADiskOptionEjectUponLogout <> 0 /\
  Z.land kDADiskOptionMountAutomatic kDADiskOptionMountAutomaticNoDefer = 0 /\
  Z.land kDADiskOptionMountAutomatic kDADiskOptionEjectUponLogout = 0 /\
  Z.land kDADiskOptionMountAutomaticNoDefer kDADiskOptionEjectUponLogout = 0.

Definition is_absent (object : option CFType) : bool :=
  match object with
  | None => true
  | Some _ => false
  end.

(** What DADiskCreateFromIOMedia cannot do without: each constructor is one
    required fact that the registry does not give, or one registry query,
    among those whose status the code examines, that reports an error. *)
Inductive required_fact_missing `{Headers} (w : World) (media : io_service_t) : Prop :=
  | media_properties_missing :
      IORegistryEntryCreateCFProperties w media = None ->
      required_fact_missing w media
  | media_property_missing (properties : gmap string CFType) (key : string) :
      IORegistryEntryCreateCFProperties w media = Some properties ->
      key ∈ required_media_properties ->
      properties !! key = None ->
      required_fact_missing w media
  | device_node_name_missing (properties : gmap string CFType) (object : CFType) :
      IORegistryEntryCreateCFProperties w media = Some properties ->
      properties !! kIOBSDNameKey = Some object ->
      CFStringGetCString object sizeof_io_name_t = Ret None ->
      required_fact_missing w media
  | device_node_url_missing (properties : gmap string CFType) (object : CFType)
      (name : string) :
      IORegistryEntryCreateCFProperties w media = Some properties ->
      properties !! kIOBSDNameKey = Some object ->
      CFStringGetCString object sizeof_io_name_t = Ret (Some name) ->
      (let path := strcat (strcpy _PATH_DEV) name in
       CFURLCreateFromFileSystemRepresentation w path (strlen path) false = None) ->
      required_fact_missing w media
  | media_icon_missing :
      IORegistryEntrySearchCFProperty w media kIOServicePlane kIOMediaIconKey = None ->
      required_fact_missing w media
  | dvd_type_missing (properties : gmap string CFType) :
      IORegistryEntryCreateCFProperties w media = Some properties ->
      IOObjectConformsTo w media kIODVDMediaClass = true ->
      properties !! kIODVDMediaTypeKey = None ->
      required_fact_missing w media
  | cd_type_missing (properties : gmap string CFType) :
      IORegistryEntryCreateCFProperties w media = Some properties ->
      IOObjectConformsTo w media kIODVDMediaClass = false ->
      IOObjectConformsTo w media kIOCDMediaClass = true ->
      properties !! kIOCDMediaTypeKey = None ->
      required_fact_missing w media
  | media_name_missing :
      IORegistryEntryGetName w media = None ->
      required_fact_missing w media
  | media_name_undecodable (name : string) :
      IORegistryEntryGetName w media = Some name ->
      string_with_fallback w name = None ->
      required_fact_missing w media
  | media_path_missing :
      IORegistryEntryGetPath w media kIODeviceTreePlane = None ->
      IORegistryEntryGetPath w media kIOServicePlane = None ->
      required_fact_missing w media
  | media_path_undecodable (path : string) :
      media_registry_path w media = Some path ->
      string_with_fallback w path = None ->
      required_fact_missing w media
  | device_missing :
      device_of w media = 0 ->
      required_fact_missing w media
  | device_properties_missing :
      IORegistryEntryCreateCFProperties w (device_of w media) = None ->
      required_fact_missing w media
  | device_path_missing :
      IORegistryEntryGetPath w (device_of w media) kIOServicePlane = None ->
      required_fact_missing w media
  | device_path_undecodable (path : string) :
      IORegistryEntryGetPath w (device_of w media) kIOServicePlane = Some path ->
      CFStringCreateWithCString w path kCFStringEncodingUTF8 = None ->
      required_fact_missing w media
  | bus_name_missing :
      bus_of w (device_of w media) <> 0 ->
      IORegistryEntryGetNameInPlane w (bus_of w (device_of w media)) kIODeviceTreePlane
      = None ->
      required_fact_missing w media
  | bus_name_undecodable (name : string) :
      bus_of w (device_of w media) <> 0 ->
      IORegistryEntryGetNameInPlane w (bus_of w (device_of w media)) kIODeviceTreePlane
      = Some name ->
      CFStringCreateWithCString w name kCFStringEncodingUTF8 = None ->
      required_fact_missing w media
  | bus_path_missing :
      bus_of w (device_of w media) <> 0 ->
      IORegistryEntryGetPath w (bus_of w (device_of w media)) kIODeviceTreePlane = None ->
      required_fact_missing w media
  | bus_path_undecodable (path : string) :
      bus_of w (device_of w media) <> 0 ->
      IORegistryEntryGetPath w (bus_of w (device_of w media)) kIODeviceTreePlane
      = Some path ->
      CFStringCreateWithCString w path kCFStringEncodingUTF8 = None ->
      required_fact_missing w media.

(** What the match evaluator asks of one entry of the criteria: the registry
    predicate on the disk's own stored value for the special key, a stored
    value equal to the criteria's for any other key. *)
Definition key_matches `{Headers} (w : World) (disk : DADisk) (key : string)
  (value : CFType) : Prop :=
  (key = kIOPropertyMatchKey /\
   IOServiceMatchPropertyTable w (_media disk) (DADiskGetDescription disk key) = true)
  \/
  (key <> kIOPropertyMatchKey /\ DADiskGetDescription disk key = Some value).

(** The calls of DADisk.c that change a disk after its creation. *)
Inductive DADiskCall : Type :=
  | CallGetSerialization
  | CallSetBypath (bypath : option CFType)
  | CallSetClaim (claim : option CFType)
  | CallSetContext (context : option CFType)
  | CallSetContextRe (context : option CFType)
  | CallSetDescription (description : string) (value : option CFType)
  | CallSetFileSystem (filesystem : option CFType)
  | CallSetOption (option : Z) (value : bool)
  | CallSetOptions (options : Z) (value : bool)
  | CallSetState (state : Z) (value : bool)
  | CallSetUserEGID (userGID : Z)
  | CallSetUserEUID (userUID : Z).

Definition call (w : World) (disk : DADisk) (c : DADiskCall) : DADisk :=
  match c with
  | CallGetSerialization => snd (DADiskGetSerialization w disk)
  | CallSetBypath bypath => DADiskSetBypath disk bypath
  | CallSetClaim claim => DADiskSetClaim disk claim
  | CallSetContext context => DADiskSetContext disk context
  | CallSetContextRe context => DADiskSetContextRe disk context
  | CallSetDescription description value => DADiskSetDescription disk description value
  | CallSetFileSystem filesystem => DADiskSetFileSystem disk filesystem
  | CallSetOption option value => DADiskSetOption disk option value
  | CallSetOptions options value => DADiskSetOptions disk options value
  | CallSetState state value => DADiskSetState disk state value
  | CallSetUserEGID userGID => DADiskSetUserEGID disk userGID
  | CallSetUserEUID userUID => DADiskSetUserEUID disk userUID
  end.

Definition calls (w : World) (disk : DADisk) (cs : list DADiskCall) : DADisk :=
  fold_left (call w) cs disk.

(** The cache is absent or is the encoding of the current description. *)
Definition serialization_current (w : World) (disk : DADisk) : Prop :=
  _serialization disk = None \/
  _serialization disk = _DASerializeDiskDescription w (_description disk).

(** The disks that DADisk.c hands out: those its two constructors return. *)
Inductive created `{Headers} (w : World) (disk : DADisk) : Prop :=
  | created_from_media (media : io_service_t) (log : list DALogEntry) :
      DADiskCreateFromIOMedia w media = Returns (Some disk) log ->
      created w disk
  | created_from_volume (path : option CFType) (log : list DALogEntry) :
      DADiskCreateFromVolumePath w path = Returns (Some disk) log ->
      created w disk.

(** ** Notions used in the further statements *)

(** What no call changes once a disk is created: the identifier, the media,
    the device URL, node, paths and unit, the real identity and the mode. *)
Definition fixed_part (disk : DADisk)
  : string * io_service_t * option CFType * Z * (option string * option string) * Z
    * Z * Z * Z :=
  (_id disk, _media disk, _device disk, _deviceNode disk, _devicePath disk,
   _deviceUnit disk, _userRUID disk, _userRGID disk, _mode disk).

(** A flag word of DADisk.h: an unsigned 32-bit integer. *)
Definition UInt32_range (v : Z) : Prop := 0 <= v < 2 ^ 32.

(** A disk without its description. *)
Definition description_erased (disk : DADisk) : DADisk := set_description ∅ disk.

(** The media properties that DADiskCreateFromIOMedia copies, each with the
    key of the description it is stored under. *)
Definition copied_media_properties `{Headers} : list (string * string) :=
  [ (kIOMediaPreferredBlockSizeKey, kDADiskDescriptionMediaBlockSizeKey);
    (kIOBSDNameKey, kDADiskDescriptionMediaBSDNameKey);
    (kIOBSDMajorKey, kDADiskDescriptionMediaBSDMajorKey);
    (kIOBSDMinorKey, kDADiskDescriptionMediaBSDMinorKey);
    (kIOBSDUnitKey, kDADiskDescriptionMediaBSDUnitKey);
    (kIOMediaContentKey, kDADiskDescriptionMediaContentKey);
    (kIOMediaEjectableKey, kDADiskDescriptionMediaEjectableKey);
    (kIOMediaLeafKey, kDADiskDescriptionMediaLeafKey);
    (kIOMediaRemovableKey, kDADiskDescriptionMediaRemovableKey);
    (kIOMediaSizeKey, kDADiskDescriptionMediaSizeKey);
    (kIOMediaWholeKey, kDADiskDescriptionMediaWholeKey);
    (kIOMediaWritableKey, kDADiskDescriptionMediaWritableKey) ].

(** The keys under which DADiskCreateFromIOMedia stores. *)
Definition hardware_keys `{Headers} : list string :=
  object_keys ++ media_keys ++ device_keys ++ [kDADiskDescriptionDeviceGUIDKey]
    ++ bus_keys ++ [kDADiskDescriptionAppearanceTimeKey].

(** The entry [key] of the dictionary that [properties] holds under [group]
    (the protocol or the device characteristics of a device). *)
Definition sub_property (properties : gmap string CFType) (group key : string)
  : option CFType :=
  match properties !! group with
  | Some (CFDictionary sub) => sub !! key
  | _ => None
  end.

Definition characteristic (w : World) (entry : io_service_t) (group key : string)
  : option CFType :=
  match IORegistryEntryCreateCFProperties w entry with
  | Some properties => sub_property properties group key
  | None => None
  end.

(** Whether the device is internal, given where its protocol
    characteristics locate the physical interconnect. *)
Definition internal_of `{Headers} (location : option CFType) : option CFType :=
  match location with
  | Some (CFString location) =>
      if bool_decide (location = kIOPropertyInternalKey) then Some kCFBooleanTrue
      else if bool_decide (location = kIOPropertyExternalKey) then Some kCFBooleanFalse
      else None
  | _ => None
  end.

(** Where the volume that holds [path] is mounted, as a C string. *)
Definition mount_point `{Headers} (w : World) (path : option CFType) : option string :=
  url ← path;
  _path ← ___CFURLCopyFileSystemRepresentation w url;
  fs ← ___statfs w _path MNT_NOWAIT;
  Some (cstr (f_mntonname fs)).


(** * Running the definitions *)

Example strcmp_equal : strcmp "/dev/disk2" "/dev/disk2" = 0.
Proof. reflexivity. Qed.

Example strcmp_shorter : strcmp "/dev/disk2" "/dev/disk2s1" = -115.
Proof. reflexivity. Qed.

Example strlen_stops_at_NUL : strlen (String "a" (String zero "b")) = 1.
Proof. reflexivity. Qed.

Example OSSwapInt64_run : OSSwapInt64 0x0011223344556677 = 0x7766554433221100.
Proof. reflexivity. Qed.

Example big_endian_run :
  big_endian 8 0x0011223344556677 = [0x00; 0x11; 0x22; 0x33; 0x44; 0x55; 0x66; 0x77].
Proof. reflexivity. Qed.

Example CFEqual_dictionaries :
  CFEqual
    (CFDictionary (<["a"%string := CFNumber 1]> (<["b"%string := kCFBooleanTrue]> ∅)))
    (CFDictionary (<["b"%string := kCFBooleanTrue]> (<["a"%string := CFNumber 1]> ∅)))
  = true.
Proof. vm_compute. reflexivity. Qed.

(** The fixed internal disk of the concrete system: identifier /dev/disk2,
    administrative identity, MountAutomatic alone, no state flag, mode 0755. *)
Example DADiskCreateFromIOMedia_run :
  exists disk,
    @DADiskCreateFromIOMedia sample_headers
      (sample_world sample_media_properties no_hint) sample_media
    = Returns (Some disk) [] /\
    DADiskGetID disk = "/dev/disk2"%string /\
    _devicePath disk = (Some "/dev/disk2"%string, Some "/dev/rdisk2"%string) /\
    _options disk = 0x10 /\
    _state disk = 0 /\
    _mode disk = 493 /\
    (_userEUID disk, _userEGID disk, _userRUID disk, _userRGID disk) = (0, 80, 0, 80) /\
    DADiskGetDescription disk "DADeviceInternal" = Some kCFBooleanTrue /\
    DADiskGetDescription disk "DAMediaBSDName" = Some (CFString "disk2") /\
    DADiskGetDescription disk "DAMediaKind" = Some (CFString "IOMedia") /\
    DADiskGetDescription disk "DAMediaType" = None /\
    DADiskGetDescription disk "DABusName" = Some (CFString "ata-4") /\
    DADiskGetDescription disk "DADiskID"
    = Some (CFData [47; 100; 101; 118; 47; 100; 105; 115; 107; 50; 0]).
Proof. eexists. repeat split; vm_compute; reflexivity. Qed.

(** A volume below /Volumes/Data, owned by user 501: staged, local. *)
Example DADiskCreateFromVolumePath_run :
  exists disk,
    @DADiskCreateFromVolumePath sample_headers
      (sample_world sample_media_properties no_hint)
      (Some (CFURL "/Volumes/Data/Documents"))
    = Returns (Some disk) [] /\
    DADiskGetID disk = "/Volumes/Data"%string /\
    _bypath disk = Some (CFURL "/Volumes/Data/Documents") /\
    _state disk = 0x3f0000 /\
    (_userEUID disk, _userEGID disk, _userRUID disk, _userRGID disk) = (501, 20, 501, 20) /\
    DADiskGetDescription disk "DAVolumeNetwork" = Some kCFBooleanFalse /\
    DADiskGetDescription disk "DAVolumeMountable" = Some kCFBooleanTrue.
Proof. eexists. repeat split; vm_compute; reflexivity. Qed.

(** * Properties *)

(** ** C strings *)

Lemma byte_of_inj (a b : ascii) : byte_of a = byte_of b -> a = b.
Proof.
  unfold byte_of. intros E. apply N2Z.inj in E.
  rewrite <- (ascii_N_embedding a), <- (ascii_N_embedding b). now f_equal.
Qed.

Lemma is_nul_true (c : ascii) : is_nul c = true <-> byte_of c = 0.
Proof. unfold is_nul. apply Z.eqb_eq. Qed.

Lemma is_nul_false (c : ascii) : is_nul c = false <-> byte_of c <> 0.
Proof. unfold is_nul. apply Z.eqb_neq. Qed.

Lemma strcmp_zero (s1 s2 : string) : strcmp s1 s2 = 0 <-> cstr s1 = cstr s2.
Proof.
  revert s2. induction s1 as [|c1 r1 IH]; intros [|c2 r2]; simpl.
  - tauto.
  - destruct (is_nul c2) eqn:E.
    + apply is_nul_true in E. split; [reflexivity | lia].
    + apply is_nul_false in E. split; [lia | discriminate].
  - destruct (is_nul c1) eqn:E.
    + apply is_nul_true in E. split; [reflexivity | lia].
    + apply is_nul_false in E. split; [lia | discriminate].
  - destruct (Z.eqb_spec (byte_of c1) (byte_of c2)) as [E | N].
    + apply byte_of_inj in E. subst c2.
      destruct (is_nul c1); [tauto |].
      rewrite IH. split; [congruence | now inversion 1].
    + split; [lia |]. intros E. exfalso.
      destruct (is_nul c1) eqn:E1, (is_nul c2) eqn:E2; try discriminate.
      * apply is_nul_true in E1, E2. lia.
      * inversion E. congruence.
Qed.

Lemma cstr_NulFree (s : string) : NulFree s -> cstr s = s.
Proof.
  induction s as [|c r IH]; simpl; [reflexivity |].
  intros [-> Hr]. now rewrite IH.
Qed.

Lemma NulFree_cstr (s : string) : NulFree (cstr s).
Proof.
  induction s as [|c r IH]; simpl; [exact I |].
  destruct (is_nul c) eqn:E; simpl; auto.
Qed.

Lemma NulFree_app (s t : string) : NulFree s -> NulFree t -> NulFree (s +:+ t).
Proof.
  induction s as [|c r IH]; simpl; [tauto |].
  intros [Hc Hr] Ht. split; [assumption | now apply IH].
Qed.

Lemma strlen_nonneg (s : string) : 0 <= strlen s.
Proof. induction s as [|c r IH]; simpl; [lia |]. destruct (is_nul c); lia. Qed.

(** Reading [MIN( strlen( s ), n )] characters of a buffer reads the first
    [n] characters of its C string. *)
Lemma strprefix_strlen (n : nat) (s : string) :
  strprefix (Z.to_nat (MIN (strlen s) (Z.of_nat n))) s = strprefix n (cstr s).
Proof.
  revert n. induction s as [|c r IH]; intros n.
  - simpl. destruct (Z.to_nat _), n; reflexivity.
  - simpl. destruct (is_nul c) eqn:E.
    + unfold MIN. destruct (Z.ltb_spec 0 (Z.of_nat n)); destruct n; simpl; try reflexivity; lia.
    + destruct n as [|m].
      * unfold MIN. pose proof (strlen_nonneg r).
        destruct (Z.ltb_spec (1 + strlen r) (Z.of_nat 0)); [lia | reflexivity].
      * simpl strprefix at 2. rewrite <- IH.
        unfold MIN. pose proof (strlen_nonneg r).
        destruct (Z.ltb_spec (1 + strlen r) (Z.of_nat (S m)));
          destruct (Z.ltb_spec (strlen r) (Z.of_nat m)); try lia.
        -- replace (Z.to_nat (1 + strlen r)) with (S (Z.to_nat (strlen r))) by lia.
           reflexivity.
        -- replace (Z.to_nat (Z.of_nat (S m))) with (S (Z.to_nat (Z.of_nat m))) by lia.
           reflexivity.
Qed.

Lemma strprefix_length (n : nat) (s : string) :
  String.length (strprefix n s) = Nat.min n (String.length s).
Proof.
  revert s. induction n as [|n IH]; intros [|c r]; simpl; try reflexivity.
  now rewrite IH.
Qed.

Section Properties.

Context `{Headers}.
Variable w : World.

(** ** Equality and hash *)

Lemma __DADiskEqual_cstr (disk1 disk2 : DADisk) :
  __DADiskEqual disk1 disk2 = true <-> cstr (_id disk1) = cstr (_id disk2).
Proof. unfold __DADiskEqual. rewrite Z.eqb_eq. apply strcmp_zero. Qed.

Lemma __DADiskHash_cstr (disk : DADisk) :
  __DADiskHash w disk = CFHashBytes w (strprefix 16 (cstr (_id disk))).
Proof. unfold __DADiskHash. f_equal. apply (strprefix_strlen 16). Qed.

Lemma __DADiskCreate_id (id : string) : _id (__DADiskCreate id) = cstr id.
Proof. reflexivity. Qed.

(** The identifier of a created disk is a C string. *)
Lemma __DADiskCreate_NulFree (id : string) : NulFree (_id (__DADiskCreate id)).
Proof. rewrite __DADiskCreate_id. apply NulFree_cstr. Qed.

(** C1. Two disks are equal exactly when their identifiers are the same
    string, and the hash of a disk is the hash of the first min(16, length)
    bytes of its identifier, so that two disks whose identifiers agree on
    these bytes have the same hash. *)
Theorem disk_equal_and_hash (A B : DADisk) :
  NulFree (_id A) -> NulFree (_id B) ->
  (__DADiskEqual A B = true <-> _id A = _id B) /\
  __DADiskHash w A = CFHashBytes w (strprefix 16 (_id A)) /\
  String.length (strprefix 16 (_id A)) = Nat.min 16 (String.length (_id A)) /\
  (strprefix 16 (_id A) = strprefix 16 (_id B) ->
   __DADiskHash w A = __DADiskHash w B).
Proof.
  intros HA HB.
  rewrite __DADiskEqual_cstr, !__DADiskHash_cstr, !cstr_NulFree by assumption.
  repeat split; try congruence. apply strprefix_length.
Qed.

End Properties.

(** On the concrete system: two disks that differ only after the 16th byte of
    their identifiers are not equal and have the same hash. *)
Lemma disk_equal_and_hash_witness :
  NulFree (_id sample_volume_1) /\
  NulFree (_id sample_volume_2) /\
  (__DADiskEqual sample_volume_1 sample_volume_2 = true <->
   _id sample_volume_1 = _id sample_volume_2) /\
  __DADiskHash (sample_world sample_media_properties no_hint) sample_volume_1
  = CFHashBytes (sample_world sample_media_properties no_hint)
      (strprefix 16 (_id sample_volume_1)) /\
  String.length (strprefix 16 (_id sample_volume_1))
  = Nat.min 16 (String.length (_id sample_volume_1)) /\
  (strprefix 16 (_id sample_volume_1) = strprefix 16 (_id sample_volume_2) ->
   __DADiskHash (sample_world sample_media_properties no_hint) sample_volume_1
   = __DADiskHash (sample_world sample_media_properties no_hint) sample_volume_2).
Proof.
  assert (H1 : NulFree (_id sample_volume_1)) by (simpl; repeat split).
  assert (H2 : NulFree (_id sample_volume_2)) by (simpl; repeat split).
  split; [exact H1 | split; [exact H2 |]].
  exact (disk_equal_and_hash (sample_world sample_media_properties no_hint)
           sample_volume_1 sample_volume_2 H1 H2).
Defined.

Example disk_not_equal_same_hash :
  __DADiskEqual sample_volume_1 sample_volume_2 = false /\
  __DADiskHash (sample_world sample_media_properties no_hint) sample_volume_1
  = __DADiskHash (sample_world sample_media_properties no_hint) sample_volume_2.
Proof. split; vm_compute; reflexivity. Qed.

(** ** Equality of CoreFoundation values *)

Lemma CFType_depth_lookup (d : gmap string CFType) (key : string) (value : CFType) :
  d !! key = Some value -> (CFType_depth value < CFType_depth (CFDictionary d))%nat.
Proof.
  simpl. intros Hin. apply Nat.lt_succ_r. revert key value Hin.
  apply (map_fold_weak_ind
           (fun depth (d : gmap string CFType) =>
              forall key value, d !! key = Some value ->
                                (CFType_depth value <= depth)%nat)).
  - intros key value. rewrite lookup_empty. discriminate.
  - intros i x m r Hfresh IH key value. rewrite lookup_insert.
    destruct (decide (i = key)) as [-> | Hne].
    + intros E. injection E as ->. lia.
    + intros E. specialize (IH key value E). lia.
Qed.

(** Induction on objects, a dictionary after its values. *)
Lemma CFType_nested_ind (P : CFType -> Prop) :
  (forall b, P (CFBoolean b)) ->
  (forall n, P (CFNumber n)) ->
  (forall bits, P (CFNumberDouble bits)) ->
  (forall s, P (CFString s)) ->
  (forall bytes, P (CFData bytes)) ->
  (forall path, P (CFURL path)) ->
  (forall d, map_Forall (fun _ value => P value) d -> P (CFDictionary d)) ->
  forall object, P object.
Proof.
  intros Hb Hn Hd Hs Hy Hu Hm object.
  remember (CFType_depth object) as depth eqn:Hdepth. revert object Hdepth.
  induction depth as [depth IH] using lt_wf_ind. intros object ->.
  destruct object; auto.
  apply Hm. intros key value Hin.
  apply (IH (CFType_depth value)); [| reflexivity].
  eapply CFType_depth_lookup, Hin.
Qed.

Lemma map_fold_andb {A : Type} (g : string -> A -> bool) (m : gmap string A) :
  map_fold (fun key value acc => acc && g key value) true m = true <->
  map_Forall (fun key value => g key value = true) m.
Proof.
  apply (map_fold_weak_ind
           (fun acc (m : gmap string A) =>
              acc = true <-> map_Forall (fun key value => g key value = true) m)).
  - split; [intros _; apply map_Forall_empty | reflexivity].
  - intros i x m' r Hfresh IH.
    rewrite map_Forall_insert by exact Hfresh.
    rewrite andb_true_iff. tauto.
Qed.

(** [CFEqual] holds of two objects exactly when they are the same value. *)
Lemma CFEqual_eq (a b : CFType) : CFEqual a b = true <-> a = b.
Proof.
  revert b. induction a as [x | x | x | x | x | x | x IH] using CFType_nested_ind;
    intros [y | y | y | y | y | y | y]; simpl;
    try (split; [discriminate | intros E; discriminate E]);
    try (rewrite bool_decide_eq_true;
         split; [intros -> | intros E; injection E as ->]; reflexivity).
  rewrite andb_true_iff, bool_decide_eq_true.
  rewrite (map_fold_andb
             (fun key value =>
                match y !! key with
                | Some w => CFEqual value w
                | None => false
                end)).
  split.
  - intros [Hdom Hall]. f_equal. apply map_eq. intros key.
    destruct (x !! key) as [v|] eqn:Hx.
    + specialize (Hall key v Hx). simpl in Hall.
      destruct (y !! key) as [v'|]; [| discriminate].
      apply (IH key v Hx) in Hall. congruence.
    + apply not_elem_of_dom in Hx. rewrite Hdom in Hx.
      apply not_elem_of_dom in Hx. congruence.
  - intros E. injection E as <-. split; [reflexivity |].
    intros key v Hx. simpl. rewrite Hx. apply (IH key v Hx). reflexivity.
Qed.

Lemma CFEqual_neq (a b : CFType) : CFEqual a b = false <-> a <> b.
Proof.
  rewrite <- CFEqual_eq. destruct (CFEqual a b); split; congruence.
Qed.

(** ** Byte order *)

Lemma low_byte_bits (a b : Z) :
  (forall n, 0 <= n < 8 -> Z.testbit a n = Z.testbit b n) ->
  Z.land a 0xff = Z.land b 0xff.
Proof.
  intros Hbits. apply Z.bits_inj'. intros n Hn.
  rewrite !Z.land_spec.
  destruct (Z.ltb_spec n 8).
  - rewrite Hbits by lia. reflexivity.
  - change 0xff with (Z.ones 8). rewrite Z.ones_spec_high by lia.
    now rewrite !andb_false_r.
Qed.

(** Swapping moves byte [7 - i] to byte [i]. *)
Lemma OSSwapInt64_byte (v : Z) (i : nat) :
  (i < 8)%nat -> byte_at (OSSwapInt64 v) i = byte_at v (7 - i).
Proof.
  intros Hi. unfold byte_at. apply low_byte_bits. intros n Hn.
  assert (Hcases : n = 0 \/ n = 1 \/ n = 2 \/ n = 3 \/
                   n = 4 \/ n = 5 \/ n = 6 \/ n = 7) by lia.
  destruct i as [|[|[|[|[|[|[|[|i]]]]]]]]; [.. | lia].
  all: unfold OSSwapInt64.
  all: repeat (destruct Hcases as [-> | Hcases]); try subst n.
  all: repeat first
         [ rewrite Z.lor_spec | rewrite Z.land_spec
         | rewrite Z.shiftr_spec by lia | rewrite Z.shiftl_spec by lia ].
  all: pose proof (Z.testbit_neg_r v) as Hneg.
  all: generalize dependent (Z.testbit v); intros bit Hneg.
  all: cbn.
  all: rewrite ?Hneg by lia.
  all: rewrite ?andb_false_r, ?andb_true_r, ?orb_false_r, ?orb_false_l; reflexivity.
Qed.

Lemma little_endian_OSSwapInt64 (v : Z) :
  little_endian 8 (OSSwapInt64 v) = big_endian 8 v.
Proof.
  unfold big_endian, little_endian. cbn [seq map rev app].
  rewrite !OSSwapInt64_byte by lia. reflexivity.
Qed.

(** Whatever the byte order of the host, the memory image of the swapped
    value is the value most significant byte first. *)
Lemma object_representation_OSSwapHostToBigInt64 `{Headers} (v : Z) :
  object_representation 8 (OSSwapHostToBigInt64 v) = big_endian 8 v.
Proof.
  unfold object_representation, OSSwapHostToBigInt64.
  destruct host_big_endian; [reflexivity | apply little_endian_OSSwapInt64].
Qed.

Lemma byte_at_div (v : Z) (i : nat) :
  byte_at v i = (v / 2 ^ (8 * Z.of_nat i)) mod 256.
Proof.
  unfold byte_at. change 0xff with (Z.ones 8).
  rewrite Z.land_ones, Z.shiftr_div_pow2 by lia. reflexivity.
Qed.

Lemma little_endian_value (v : Z) (size first : nat) :
  fold_right (fun byte acc => acc * 256 + byte) 0 (map (byte_at v) (seq first size))
  = (v / 2 ^ (8 * Z.of_nat first)) mod 2 ^ (8 * Z.of_nat size).
Proof.
  revert first. induction size as [|size IH]; intros first.
  - simpl. now rewrite Z.mod_1_r.
  - cbn [seq map fold_right]. rewrite IH, byte_at_div.
    replace (8 * Z.of_nat (S size)) with (8 + 8 * Z.of_nat size) by lia.
    rewrite Z.pow_add_r by lia. change (2 ^ 8) with 256.
    rewrite Z.rem_mul_r by lia.
    replace (8 * Z.of_nat (S first)) with (8 * Z.of_nat first + 8) by lia.
    rewrite Z.pow_add_r by lia. change (2 ^ 8) with 256.
    rewrite <- Z.div_div by lia. lia.
Qed.

(** The bytes of [big_endian] denote the value, reduced to their width. *)
Lemma of_big_endian_value (size : nat) (v : Z) :
  of_big_endian (big_endian size v) = v mod 2 ^ (8 * Z.of_nat size).
Proof.
  unfold of_big_endian, big_endian, little_endian.
  rewrite <- fold_left_rev_right, rev_involutive.
  rewrite little_endian_value. change (2 ^ (8 * Z.of_nat 0)) with 1.
  now rewrite Z.div_1_r.
Qed.

(** ** Stepping through the outcome monad *)

Lemma bind_Ret {A B : Type} (m : outcome A) (f : A -> outcome B) (b : B) :
  m ≫= f = Ret b -> exists a, m = Ret a /\ f a = Ret b.
Proof. destruct m as [a | |]; simpl; [eauto | discriminate | discriminate]. Qed.

Lemma required_Ret {A : Type} (id : option string) (object : option A) (a : A) :
  required id object = Ret a -> object = Some a.
Proof. destruct object; simpl; congruence. Qed.

Lemma mret_Ret {A : Type} (a b : A) : mret a = Ret b -> a = b.
Proof. unfold mret, outcome_ret. congruence. Qed.

Ltac step_ret :=
  match goal with
  | H : _ ≫= _ = Ret _ |- _ =>
      apply bind_Ret in H; destruct H as (? & ? & H)
  | H : required _ _ = Ret _ |- _ => apply required_Ret in H
  | H : mret _ = Ret _ |- _ => apply mret_Ret in H; subst
  | H : Ret _ = Ret _ |- _ => injection H as H; subst
  | H : Err _ = Ret _ |- _ => discriminate H
  | H : Undef = Ret _ |- _ => discriminate H
  | H : (let '(_, _) := ?p in _) = Ret _ |- _ => destruct p
  | H : (if ?c then _ else _) = Ret _ |- _ => destruct c eqn:?
  | H : match ?x with _ => _ end = Ret _ |- _ => destruct x eqn:?
  end.

Ltac steps_ret := repeat step_ret.

Lemma describes_refl (keys : list string) (disk : DADisk) : describes keys disk disk.
Proof. split; auto. Qed.

Lemma describes_trans (keys : list string) (d1 d2 d3 : DADisk) :
  describes keys d1 d2 -> describes keys d2 d3 -> describes keys d1 d3.
Proof.
  intros [E1 L1] [E2 L2]. split; [congruence |].
  intros key Hk. rewrite L2, L1; auto.
Qed.

Lemma describes_mono (keys keys' : list string) (d1 d2 : DADisk) :
  keys ⊆ keys' -> describes keys d1 d2 -> describes keys' d1 d2.
Proof. intros Hsub [E L]. split; [exact E |]. intros key Hk. apply L. set_solver. Qed.

Lemma describes_app_l (keys keys' : list string) (d1 d2 : DADisk) :
  describes keys d1 d2 -> describes (keys ++ keys') d1 d2.
Proof. apply describes_mono. set_solver. Qed.

Lemma describes_app_r (keys keys' : list string) (d1 d2 : DADisk) :
  describes keys' d1 d2 -> describes (keys ++ keys') d1 d2.
Proof. apply describes_mono. set_solver. Qed.

(** Closes [key ∈ [k1; ...; kn]] for a [key] that is one of the listed terms. *)
Ltac in_list :=
  solve [ repeat first [ apply list_elem_of_here | apply list_elem_of_further ] ].

Section Frames.

Context `{Headers}.
Variable w : World.

Lemma describes_describe (keys : list string) (key : string) (value : CFType)
  (disk0 disk : DADisk) :
  key ∈ keys -> describes keys disk0 disk ->
  describes keys disk0 (describe key value disk).
Proof.
  intros Hin [E L]. split; [exact E |].
  intros key' Hk. simpl. rewrite lookup_insert_ne by congruence. auto.
Qed.

Lemma describes_set_deviceNode (keys : list string) (node : Z) (disk0 disk : DADisk) :
  describes keys disk0 disk -> describes keys disk0 (set_deviceNode node disk).
Proof. intros [E L]. split; [exact E | exact L]. Qed.

Lemma describes_set_deviceUnit (keys : list string) (unit : Z) (disk0 disk : DADisk) :
  describes keys disk0 disk -> describes keys disk0 (set_deviceUnit unit disk).
Proof. intros [E L]. split; [exact E | exact L]. Qed.

Lemma describes_describe_optional (keys : list string) (key : string)
  (object : option CFType) (disk0 disk : DADisk) :
  key ∈ keys -> describes keys disk0 disk ->
  describes keys disk0 (describe_optional key object disk).
Proof. destruct object; simpl; [apply describes_describe | auto]. Qed.

Lemma describe_required_Ret (properties : gmap string CFType) (from to : string)
  (disk disk' : DADisk) (object : CFType) :
  describe_required properties from to disk = Ret (object, disk') ->
  properties !! from = Some object /\ disk' = describe to object disk.
Proof. unfold describe_required. intros E. steps_ret. injection E as <- <-. auto. Qed.

Lemma describes_pristine (keys : list string) (disk disk' : DADisk) :
  describes keys disk disk' -> pristine disk -> pristine disk'.
Proof.
  intros [E _]. unfold pristine.
  pose proof (f_equal _state E). pose proof (f_equal _options E).
  pose proof (f_equal _serialization E). pose proof (f_equal _mode E).
  pose proof (f_equal _userEGID E). pose proof (f_equal _userEUID E).
  pose proof (f_equal _userRGID E). pose proof (f_equal _userRUID E).
  pose proof (f_equal _id E). simpl in *. intuition congruence.
Qed.

Lemma __DADiskCreate_pristine (id : string) : pristine (__DADiskCreate id).
Proof. unfold pristine. simpl. repeat split. apply NulFree_cstr. Qed.

End Frames.

(** Closes [describes keys disk disk'] when [disk'] is [disk] under
    assignments to the description, the device node and the unit. *)
Ltac describes_now :=
  repeat match goal with
    | |- describes _ ?d ?d => apply describes_refl
    | |- describes _ _ (set_deviceNode _ _) => apply describes_set_deviceNode
    | |- describes _ _ (set_deviceUnit _ _) => apply describes_set_deviceUnit
    | |- describes _ _ (describe _ _ _) => apply describes_describe; [in_list |]
    | |- describes _ _ (describe_optional _ _ _) =>
        apply describes_describe_optional; [in_list |]
    end.

Section Phases.

Context `{Headers}.
Variable w : World.

(** *** The disk object as created *)

Lemma create_disk_object_Ret (media : io_service_t) (properties : gmap string CFType)
  (disk : DADisk) :
  create_disk_object w media properties = Ret disk ->
  (exists object name,
     properties !! kIOBSDNameKey = Some object /\
     CFStringGetCString object sizeof_io_name_t = Ret (Some name) /\
     _id disk = strcat (strcpy _PATH_DEV) name /\
     is_Some (CFURLCreateFromFileSystemRepresentation w
                (strcat (strcpy _PATH_DEV) name)
                (strlen (strcat (strcpy _PATH_DEV) name)) false)) /\
  pristine disk /\
  (forall key, key ∉ object_keys -> _description disk !! key = None).
Proof.
  unfold create_disk_object. intros E. steps_ret. split; [| split].
  - eexists _, _. split; [eassumption |]. split; [eassumption |].
    split; [| eauto].
    simpl. unfold strdup, strcat. apply cstr_NulFree.
    apply NulFree_app; apply NulFree_cstr.
  - unfold pristine. simpl. repeat split. apply NulFree_cstr.
  - intros key Hk. unfold object_keys in Hk. simpl.
    rewrite !lookup_insert_ne by (intros Heq; apply Hk; rewrite <- Heq; in_list).
    apply lookup_empty.
Qed.

(** *** The media *)

Lemma media_description_Ret (media : io_service_t) (properties : gmap string CFType)
  (disk disk' : DADisk) :
  media_description w media properties disk = Ret disk' ->
  describes media_keys disk disk' /\
  (forall key, key ∈ required_media_properties -> is_Some (properties !! key)) /\
  is_Some (IORegistryEntrySearchCFProperty w media kIOServicePlane kIOMediaIconKey) /\
  (IOObjectConformsTo w media kIODVDMediaClass = true ->
   is_Some (properties !! kIODVDMediaTypeKey)) /\
  (IOObjectConformsTo w media kIODVDMediaClass = false ->
   IOObjectConformsTo w media kIOCDMediaClass = true ->
   is_Some (properties !! kIOCDMediaTypeKey)) /\
  (exists name, IORegistryEntryGetName w media = Some name /\
                is_Some (string_with_fallback w name)) /\
  (exists path, media_registry_path w media = Some path /\
                is_Some (string_with_fallback w path)).
Proof.
  unfold media_description, media_bsd_node, media_bsd_unit, media_icon, media_kind,
    media_name, media_path, describe_required.
  intros E. steps_ret.
  all: (split; [unfold media_keys; describes_now |]).
  all: (split;
        [ intros key Hin; unfold required_media_properties in Hin;
          repeat (apply elem_of_cons in Hin as [-> | Hin]); eauto;
          by apply elem_of_nil in Hin |]).
  all: repeat split; eauto; try congruence.
Qed.

(** *** The device *)

Lemma device_protocol_Ret (properties : gmap string CFType) (disk disk' : DADisk) :
  device_protocol properties disk = Ret disk' -> describes device_keys disk disk'.
Proof.
  unfold device_protocol, device_internal. intros E.
  steps_ret; unfold device_keys; describes_now.
Qed.

Lemma device_model_Ret (properties : gmap string CFType) (disk disk' : DADisk) :
  device_model properties disk = Ret disk' -> describes device_keys disk disk'.
Proof.
  unfold device_model. intros E. steps_ret; unfold device_keys; describes_now.
Qed.

Lemma device_path_Ret (device : io_service_t) (disk disk' : DADisk) :
  device_path w device disk = Ret disk' ->
  describes device_keys disk disk' /\
  exists path, IORegistryEntryGetPath w device kIOServicePlane = Some path /\
               is_Some (CFStringCreateWithCString w path kCFStringEncodingUTF8).
Proof.
  unfold device_path. intros E. steps_ret.
  split; [unfold device_keys; describes_now | eauto].
Qed.

Lemma device_unit_describes (device : io_service_t) (disk : DADisk) :
  describes device_keys disk (device_unit w device disk).
Proof. unfold device_unit, device_keys. describes_now. Qed.

Lemma to_unsigned_to_signed_64 (n : Z) : to_unsigned 64 (to_signed 64 n) = n mod 2 ^ 64.
Proof.
  unfold to_unsigned, to_signed.
  rewrite Zminus_mod_idemp_l. f_equal. lia.
Qed.

Lemma to_unsigned_to_signed_32 (n : Z) : to_unsigned 32 (to_signed 32 n) = n mod 2 ^ 32.
Proof.
  unfold to_unsigned, to_signed.
  rewrite Zminus_mod_idemp_l. f_equal. lia.
Qed.

Lemma device_guid_Ret (device : io_service_t) (disk disk' : DADisk) :
  device_guid w device disk = Ret disk' ->
  describes [kDADiskDescriptionDeviceGUIDKey] disk disk' /\
  match IORegistryEntrySearchCFProperty w device kIOServicePlane "GUID" with
  | Some object =>
      exists n, object = CFNumber n /\
                _description disk' !! kDADiskDescriptionDeviceGUIDKey
                = Some (CFData (big_endian 8 (n mod 2 ^ 64)))
  | None =>
      _description disk' !! kDADiskDescriptionDeviceGUIDKey
      = _description disk !! kDADiskDescriptionDeviceGUIDKey
  end.
Proof.
  unfold device_guid. intros E.
  destruct (IORegistryEntrySearchCFProperty w device kIOServicePlane "GUID")
    as [object|]; steps_ret.
  - split; [describes_now |].
    destruct object; try discriminate. exists n. split; [reflexivity |].
    simpl in *. steps_ret.
    rewrite to_unsigned_to_signed_64, object_representation_OSSwapHostToBigInt64 in *.
    unfold CFDataCreate in *. steps_ret.
    match goal with Hdata : Some _ = Some _ |- _ => injection Hdata as <- end.
    rewrite lookup_insert_eq. reflexivity.
  - split; [describes_now | reflexivity].
Qed.

Lemma device_description_Ret (device : io_service_t) (disk disk' : DADisk) :
  device_description w device disk = Ret disk' ->
  (exists disk1, describes device_keys disk disk1 /\
                 device_guid w device disk1 = Ret disk') /\
  is_Some (IORegistryEntryCreateCFProperties w device) /\
  exists path, IORegistryEntryGetPath w device kIOServicePlane = Some path /\
               is_Some (CFStringCreateWithCString w path kCFStringEncodingUTF8).
Proof.
  unfold device_description. intros E. steps_ret.
  match goal with Hp : device_protocol _ _ = _ |- _ => apply device_protocol_Ret in Hp end.
  match goal with Hm : device_model _ _ = _ |- _ => apply device_model_Ret in Hm end.
  match goal with Hd : device_path _ _ _ = _ |- _ =>
    apply device_path_Ret in Hd; destruct Hd as [Hd Hpath] end.
  split; [| split; [eauto | exact Hpath]].
  eexists. split; [| exact E].
  eauto using describes_trans, device_unit_describes.
Qed.

(** *** The bus and the appearance time *)

Lemma bus_description_Ret (device : io_service_t) (disk disk' : DADisk) :
  bus_description w device disk = Ret disk' ->
  describes bus_keys disk disk' /\
  (bus_of w device <> 0 ->
   exists name path,
     IORegistryEntryGetNameInPlane w (bus_of w device) kIODeviceTreePlane = Some name /\
     is_Some (CFStringCreateWithCString w name kCFStringEncodingUTF8) /\
     IORegistryEntryGetPath w (bus_of w device) kIODeviceTreePlane = Some path /\
     is_Some (CFStringCreateWithCString w path kCFStringEncodingUTF8)).
Proof.
  unfold bus_description, bus_of, parents, iterate. intros E.
  apply bind_Ret in E as (services & Hs & E).
  destruct (IORegistryEntryCreateIterator w device kIOServicePlane) as [services'|];
    [injection Hs as -> | discriminate].
  steps_ret.
  - split; [describes_now |]. intros Hbus. apply Z.eqb_eq in Heqb. contradiction.
  - split; [unfold bus_keys; describes_now |]. intros _. eauto 10.
Qed.

Lemma appearance_time_Ret (disk disk' : DADisk) :
  appearance_time w disk = Ret disk' ->
  describes [kDADiskDescriptionAppearanceTimeKey] disk disk'.
Proof. unfold appearance_time. intros E. steps_ret. describes_now. Qed.

End Phases.

Section Policy.

Context `{Headers}.
Variable w : World.

Lemma mount_automatic_options (media : io_service_t) (disk : DADisk) :
  set_options 0 (mount_automatic w media disk) = set_options 0 disk.
Proof.
  unfold mount_automatic.
  destruct (IORegistryEntrySearchCFProperty w media kIOServicePlane "autodiskmount");
    [destruct (is_kCFBooleanTrue _) |]; reflexivity.
Qed.

Lemma eject_upon_logout_options (device : io_service_t) (disk : DADisk) :
  set_options 0 (eject_upon_logout w device disk) = set_options 0 disk.
Proof. unfold eject_upon_logout. destruct (is_kCFBooleanTrue _); reflexivity. Qed.

(** The two hints leave all but the options as it was. *)
Lemma hints_options (media device : io_service_t) (disk : DADisk) :
  set_options 0 (eject_upon_logout w device (mount_automatic w media disk))
  = set_options 0 disk.
Proof. now rewrite eject_upon_logout_options, mount_automatic_options. Qed.

Lemma owner_mode_Ret (device : io_service_t) (disk disk' : DADisk) :
  owner_mode w device disk = Ret disk' ->
  set_mode 0 disk' = set_mode 0 disk.
Proof. unfold owner_mode. intros E. steps_ret; reflexivity. Qed.

Lemma is_kCFBooleanTrue_spec (object : option CFType) :
  is_kCFBooleanTrue object = true <-> object = Some kCFBooleanTrue.
Proof.
  unfold is_kCFBooleanTrue, kCFBooleanTrue.
  destruct object as [[[|] | | | | | |]|]; split; congruence.
Qed.

Lemma is_kCFBooleanFalse_spec (object : option CFType) :
  is_kCFBooleanFalse object = true <-> object = Some kCFBooleanFalse.
Proof.
  unfold is_kCFBooleanFalse, kCFBooleanFalse.
  destruct object as [[[|] | | | | | |]|]; split; congruence.
Qed.

Lemma owner_Ret (device : io_service_t) (disk disk' : DADisk) :
  owner w device disk = Ret disk' ->
  let unknown :=
    is_kCFBooleanTrue (_description disk !! kDADiskDescriptionMediaRemovableKey)
    || is_kCFBooleanFalse (_description disk !! kDADiskDescriptionDeviceInternalKey) in
  policy_erased disk' = policy_erased disk /\
  _options disk' = _options disk /\
  _mode disk' = _mode disk /\
  match resolved_owner w device with
  | Some user =>
      _userEUID disk' = pw_uid user /\ _userEGID disk' = pw_gid user /\
      _userRUID disk' = pw_uid user /\ _userRGID disk' = pw_gid user
  | None =>
      _userEUID disk' = _userEUID disk /\ _userEGID disk' = _userEGID disk /\
      _userRUID disk' = (if unknown then ___UID_UNKNOWN else _userRUID disk) /\
      _userRGID disk' = (if unknown then ___GID_UNKNOWN else _userRGID disk)
  end.
Proof.
  unfold owner, resolved_owner. intros E.
  destruct (is_kCFBooleanTrue _), (is_kCFBooleanFalse _);
    destruct (IORegistryEntrySearchCFProperty w device kIOServicePlane "owner-uid")
      as [[? | n | ? | ? | ? | ? | ?]|];
    simpl in *; steps_ret;
    rewrite ?to_unsigned_to_signed_32 in *;
    repeat match goal with
      | Hu : getpwuid _ _ = _ |- _ => rewrite Hu; clear Hu
      end;
    simpl; repeat split; reflexivity.
Qed.

(** The steps of a successful DADiskCreateFromIOMedia, in order. *)
Lemma DADiskCreateFromIOMedia_body_Ret (media : io_service_t) (disk : DADisk) :
  DADiskCreateFromIOMedia_body w media = Ret disk ->
  exists properties disk0 disk1 disk2 disk3 disk4 disk5,
    IORegistryEntryCreateCFProperties w media = Some properties /\
    create_disk_object w media properties = Ret disk0 /\
    media_description w media properties disk0 = Ret disk1 /\
    device_of w media <> 0 /\
    device_description w (device_of w media) disk1 = Ret disk2 /\
    bus_description w (device_of w media) disk2 = Ret disk3 /\
    appearance_time w disk3 = Ret disk4 /\
    owner w (device_of w media)
      (eject_upon_logout w (device_of w media) (mount_automatic w media disk4))
    = Ret disk5 /\
    owner_mode w (device_of w media) disk5 = Ret disk.
Proof.
  unfold DADiskCreateFromIOMedia_body, device_of, parents, iterate. intros E.
  apply bind_Ret in E as (properties & Hp & E). apply required_Ret in Hp.
  apply bind_Ret in E as (disk0 & H0 & E).
  apply bind_Ret in E as (disk1 & H1 & E).
  apply bind_Ret in E as (services & Hs & E).
  destruct (IORegistryEntryCreateIterator w media kIOServicePlane) as [services'|];
    [injection Hs as -> | discriminate].
  destruct (Z.eqb_spec
              (first_entry
                 (fun device => IOObjectConformsTo w device kIOBlockStorageDeviceClass)
                 services) 0) as [|Hdevice]; [discriminate |].
  apply bind_Ret in E as (disk2 & H2 & E).
  apply bind_Ret in E as (disk3 & H3 & E).
  apply bind_Ret in E as (disk4 & H4 & E).
  apply bind_Ret in E as (disk5 & H5 & E).
  exists properties, disk0, disk1, disk2, disk3, disk4, disk5. auto 10.
Qed.

Lemma DADiskCreateFromIOMedia_Some (media : io_service_t) (disk : DADisk)
  (log : list DALogEntry) :
  DADiskCreateFromIOMedia w media = Returns (Some disk) log ->
  DADiskCreateFromIOMedia_body w media = Ret disk /\ log = [].
Proof.
  unfold DADiskCreateFromIOMedia, DADiskCreateFromIOMediaErr.
  destruct (DADiskCreateFromIOMedia_body w media); intros E;
    [injection E as <- <- | discriminate | discriminate]; auto.
Qed.

(** Up to the appearance time nothing but facts is recorded: the disk is
    still as created. *)
Lemma facts_pristine (media : io_service_t) (properties : gmap string CFType)
  (disk0 disk1 disk2 disk3 disk4 : DADisk) :
  create_disk_object w media properties = Ret disk0 ->
  media_description w media properties disk0 = Ret disk1 ->
  device_description w (device_of w media) disk1 = Ret disk2 ->
  bus_description w (device_of w media) disk2 = Ret disk3 ->
  appearance_time w disk3 = Ret disk4 ->
  pristine disk4.
Proof.
  intros H0 H1 H2 H3 H4.
  apply create_disk_object_Ret in H0 as (_ & P0 & _).
  apply media_description_Ret in H1 as (D1 & _).
  apply device_description_Ret in H2 as ((d & D2 & G) & _).
  apply device_guid_Ret in G as (G & _).
  apply bus_description_Ret in H3 as (D3 & _).
  apply appearance_time_Ret in H4.
  eauto 10 using describes_pristine.
Qed.

End Policy.

(** ** Flags *)

Lemma land_lor_flag (s flag : Z) : flag <> 0 -> Z.land (Z.lor s flag) flag <> 0.
Proof.
  intros Hf E. rewrite Z.land_lor_distr_l, Z.land_diag in E.
  apply Z.lor_eq_0_iff in E as [_ E]. contradiction.
Qed.

Lemma land_lor_keep (s flag other : Z) :
  Z.land s flag <> 0 -> Z.land (Z.lor s other) flag <> 0.
Proof.
  intros Hs E. rewrite Z.land_lor_distr_l in E.
  apply Z.lor_eq_0_iff in E as [E _]. contradiction.
Qed.

Section Staging.

Context `{Headers}.
Variable w : World.

Lemma DADiskGetState_true (disk : DADisk) (flag : Z) :
  DADiskGetState disk flag = true <-> Z.land (_state disk) flag <> 0.
Proof.
  unfold DADiskGetState. destruct (Z.eqb_spec (Z.land (_state disk) flag) 0) as [E | N];
    simpl; split; congruence.
Qed.

Lemma DADiskCreateFromIOMedia_state (media : io_service_t) (disk : DADisk) :
  DADiskCreateFromIOMedia_body w media = Ret disk -> _state disk = 0.
Proof.
  intros E.
  apply DADiskCreateFromIOMedia_body_Ret in E
    as (properties & d0 & d1 & d2 & d3 & d4 & d5 & _ & H0 & H1 & _ & H2 & H3 & H4 & H5 & H6).
  pose proof (facts_pristine w _ _ _ _ _ _ _ H0 H1 H2 H3 H4) as (Hstate & _).
  apply owner_Ret in H5 as (P5 & _). apply owner_mode_Ret in H6.
  pose proof (f_equal _state (hints_options w media (device_of w media) d4)) as Hh.
  apply (f_equal _state) in P5, H6. simpl in P5, H6, Hh. congruence.
Qed.

(** C8. When the staging flags are flags (not 0): every disk that
    DADiskCreateFromVolumePath returns has the six of them set, and every
    disk that DADiskCreateFromIOMedia returns has them clear. *)
Theorem staging_flags_at_creation :
  (forall flag, flag ∈ staging_flags -> flag <> 0) ->
  (forall path disk log,
     DADiskCreateFromVolumePath w path = Returns (Some disk) log ->
     forall flag, flag ∈ staging_flags -> DADiskGetState disk flag = true) /\
  (forall media disk log,
     DADiskCreateFromIOMedia w media = Returns (Some disk) log ->
     forall flag, flag ∈ staging_flags -> DADiskGetState disk flag = false).
Proof.
  intros Hflags. split.
  - intros path disk log E flag Hin. apply DADiskGetState_true.
    pose proof (Hflags flag Hin) as Hflag.
    unfold DADiskCreateFromVolumePath in E.
    destruct path as [path|]; [| discriminate].
    destruct (___CFURLCopyFileSystemRepresentation w path) as [_path|]; [| discriminate].
    destruct (___statfs w _path MNT_NOWAIT) as [fs|]; [| discriminate].
    assert (Hstate : _state disk =
      Z.lor (Z.lor (Z.lor (Z.lor (Z.lor (Z.lor 0 kDADiskStateStagedProbe)
        kDADiskStateStagedPeek) kDADiskStateStagedRepair) kDADiskStateStagedApprove)
        kDADiskStateStagedAuthorize) kDADiskStateStagedMount).
    { destruct (getpwuid w (f_owner fs)), (negb _);
        injection E as <- _; reflexivity. }
    rewrite Hstate. unfold staging_flags in Hin.
    repeat (apply elem_of_cons in Hin as [-> | Hin]);
      [ .. | by apply elem_of_nil in Hin ];
      repeat first [ apply land_lor_flag; assumption | apply land_lor_keep ].
  - intros media disk log E flag _.
    apply DADiskCreateFromIOMedia_Some in E as [E _].
    apply DADiskCreateFromIOMedia_state in E.
    unfold DADiskGetState. rewrite E. reflexivity.
Qed.

End Staging.

(** On the concrete system: the volume disk is staged, the hardware disk is not. *)
Lemma staging_flags_at_creation_witness :
  (forall flag, flag ∈ @staging_flags sample_headers -> flag <> 0) /\
  (exists disk,
     @DADiskCreateFromVolumePath sample_headers
       (sample_world sample_media_properties no_hint)
       (Some (CFURL "/Volumes/Data/Documents")) = Returns (Some disk) [] /\
     DADiskGetState disk (@kDADiskStateStagedMount sample_headers) = true) /\
  (exists disk,
     @DADiskCreateFromIOMedia sample_headers
       (sample_world sample_media_properties no_hint) sample_media
     = Returns (Some disk) [] /\
     DADiskGetState disk (@kDADiskStateStagedProbe sample_headers) = false).
Proof.
  assert (Hflags : forall flag, flag ∈ @staging_flags sample_headers -> flag <> 0).
  { intros flag Hin. unfold staging_flags in Hin.
    repeat (apply elem_of_cons in Hin as [-> | Hin]); try discriminate.
    by apply elem_of_nil in Hin. }
  destruct (@staging_flags_at_creation sample_headers
              (sample_world sample_media_properties no_hint) Hflags)
    as [Hvolume Hhardware].
  split; [exact Hflags | split].
  - eexists. split; [vm_compute; reflexivity |].
    eapply (Hvolume (Some (CFURL "/Volumes/Data/Documents")) _ []).
    + vm_compute. reflexivity.
    + unfold staging_flags. in_list.
  - eexists. split; [vm_compute; reflexivity |].
    eapply (Hhardware sample_media _ []).
    + vm_compute. reflexivity.
    + unfold staging_flags. in_list.
Defined.

(** ** Options *)

Section Options.

Context `{Headers}.
Variable w : World.

Lemma DADiskGetOption_spec (disk : DADisk) (flag : Z) :
  DADiskGetOption disk flag = negb (Z.land (_options disk) flag =? 0).
Proof. reflexivity. Qed.

(** The options of a hardware disk are those that the two hints set. *)
Lemma DADiskCreateFromIOMedia_options (media : io_service_t) (disk : DADisk) :
  DADiskCreateFromIOMedia_body w media = Ret disk ->
  _options disk =
  _options
    (eject_upon_logout w (device_of w media)
       (mount_automatic w media (set_options 0 disk))).
Proof.
  intros E.
  apply DADiskCreateFromIOMedia_body_Ret in E
    as (properties & d0 & d1 & d2 & d3 & d4 & d5 & _ & H0 & H1 & _ & H2 & H3 & H4 & H5 & H6).
  pose proof (facts_pristine w _ _ _ _ _ _ _ H0 H1 H2 H3 H4) as (_ & Hoptions & _).
  apply owner_Ret in H5 as (_ & O5 & _). apply owner_mode_Ret in H6.
  apply (f_equal _options) in H6. simpl in H6. rewrite H6, O5.
  unfold eject_upon_logout, mount_automatic.
  destruct (IORegistryEntrySearchCFProperty w media kIOServicePlane "autodiskmount");
    [destruct (is_kCFBooleanTrue (Some _)) |];
    destruct (is_kCFBooleanTrue _); simpl; rewrite ?Hoptions; reflexivity.
Qed.

(** C6, as the code has it. When the three option flags are bits of their
    own, a disk that DADiskCreateFromIOMedia returns has MountAutomatic set
    exactly when the autodiskmount hint is absent or is the boolean true,
    MountAutomaticNoDefer set exactly when that hint is the boolean true,
    and EjectUponLogout set exactly when the eject-upon-logout hint is the
    boolean true. *)
Theorem mount_options_at_creation (media : io_service_t) (disk : DADisk)
  (log : list DALogEntry) :
  option_flags_disjoint ->
  DADiskCreateFromIOMedia w media = Returns (Some disk) log ->
  let automount :=
    IORegistryEntrySearchCFProperty w media kIOServicePlane "autodiskmount" in
  let eject :=
    IORegistryEntrySearchCFProperty w (device_of w media) kIOServicePlane
      "eject-upon-logout" in
  DADiskGetOption disk kDADiskOptionMountAutomatic
  = is_absent automount || is_kCFBooleanTrue automount /\
  DADiskGetOption disk kDADiskOptionMountAutomaticNoDefer
  = is_kCFBooleanTrue automount /\
  DADiskGetOption disk kDADiskOptionEjectUponLogout = is_kCFBooleanTrue eject.
Proof.
  intros (HA & HN & HE & HAN & HAE & HNE) E automount eject.
  apply DADiskCreateFromIOMedia_Some in E as [E _].
  apply DADiskCreateFromIOMedia_options in E.
  rewrite !DADiskGetOption_spec, E. clear E.
  unfold eject_upon_logout, mount_automatic. fold automount. fold eject.
  assert (HNA : Z.land kDADiskOptionMountAutomaticNoDefer kDADiskOptionMountAutomatic = 0)
    by (rewrite Z.land_comm; exact HAN).
  assert (HEA : Z.land kDADiskOptionEjectUponLogout kDADiskOptionMountAutomatic = 0)
    by (rewrite Z.land_comm; exact HAE).
  assert (HEN : Z.land kDADiskOptionEjectUponLogout kDADiskOptionMountAutomaticNoDefer = 0)
    by (rewrite Z.land_comm; exact HNE).
  destruct automount as [object|] eqn:Hauto;
    [destruct (is_kCFBooleanTrue (Some object)) |];
    destruct (is_kCFBooleanTrue eject); simpl;
    rewrite ?Z.land_lor_distr_l, ?Z.land_diag, ?Z.land_0_l,
      ?HAN, ?HAE, ?HNE, ?HNA, ?HEA, ?HEN, ?Z.lor_0_r, ?Z.lor_0_l;
    repeat split;
    repeat match goal with
      | |- negb (?x =? 0) = true =>
          destruct (Z.eqb_spec x 0); [contradiction | reflexivity]
      | |- negb (0 =? 0) = false => reflexivity
      end.
Qed.

End Options.

(** On the concrete system, without hints: MountAutomatic alone is set. *)
Lemma mount_options_at_creation_witness :
  @option_flags_disjoint sample_headers /\
  exists disk,
    @DADiskCreateFromIOMedia sample_headers
      (sample_world sample_media_properties no_hint) sample_media
    = Returns (Some disk) [] /\
    DADiskGetOption disk (@kDADiskOptionMountAutomatic sample_headers) = true /\
    DADiskGetOption disk (@kDADiskOptionMountAutomaticNoDefer sample_headers) = false /\
    DADiskGetOption disk (@kDADiskOptionEjectUponLogout sample_headers) = false.
Proof.
  assert (Hflags : @option_flags_disjoint sample_headers).
  { unfold option_flags_disjoint. simpl. repeat split; discriminate. }
  split; [exact Hflags |].
  eexists. split; [vm_compute; reflexivity |].
  refine (@mount_options_at_creation sample_headers
            (sample_world sample_media_properties no_hint) sample_media _ [] Hflags _).
  vm_compute. reflexivity.
Defined.

(** C6, as the specification words it, fails: an autodiskmount hint that is
    present and is not the boolean false (here the number 1) leaves
    MountAutomatic clear. *)
Lemma mount_automatic_counterexample :
  IORegistryEntrySearchCFProperty number_hint_world sample_media kIOServicePlane
    "autodiskmount" = Some (CFNumber 1) /\
  Some (CFNumber 1) <> Some kCFBooleanFalse /\
  exists disk,
    @DADiskCreateFromIOMedia sample_headers number_hint_world sample_media
    = Returns (Some disk) [] /\
    DADiskGetOption disk (@kDADiskOptionMountAutomatic sample_headers) = false /\
    DADiskGetOption disk (@kDADiskOptionMountAutomaticNoDefer sample_headers) = false.
Proof.
  split; [reflexivity | split; [discriminate |]].
  eexists. split; [vm_compute; reflexivity |]. split; vm_compute; reflexivity.
Qed.

(** ** Keys *)

Lemma NoDup_lookup_ne {A : Type} (l : list A) (i j : nat) (x y : A) :
  NoDup l -> l !! i = Some x -> l !! j = Some y -> i <> j -> x <> y.
Proof.
  intros HND Hi Hj Hne Heq. subst y. apply Hne. eapply NoDup_lookup; eauto.
Qed.

(** Closes [key <> key'] for two keys at different places of a list known
    to be free of duplicates, the first at place [i]. *)
Ltac apart_from i j fuel :=
  lazymatch fuel with
  | O => fail
  | S ?fuel' =>
      first
        [ eapply (NoDup_lookup_ne _ i j);
          [ eassumption | reflexivity | reflexivity | discriminate ]
        | apart_from i (S j) fuel' ]
  end.

Lemma not_elem_of_keys (key : string) (keys all : list string) :
  (forall key', key' ∈ all -> key <> key') -> keys ⊆ all -> key ∉ keys.
Proof. intros Hne Hsub Hin. exact (Hne key (Hsub key Hin) eq_refl). Qed.

Section Removable.

Context `{Headers}.
Variable w : World.

(** The removable fact of a returned disk is the Removable property of the
    media, as the registry gives it. *)
Lemma media_removable_described (media : io_service_t) (disk : DADisk)
  (log : list DALogEntry) :
  NoDup description_keys ->
  DADiskCreateFromIOMedia w media = Returns (Some disk) log ->
  exists properties,
    IORegistryEntryCreateCFProperties w media = Some properties /\
    DADiskGetDescription disk kDADiskDescriptionMediaRemovableKey
    = properties !! kIOMediaRemovableKey.
Proof.
  intros HND E. apply DADiskCreateFromIOMedia_Some in E as [E _].
  apply DADiskCreateFromIOMedia_body_Ret in E
    as (properties & d0 & d1 & d2 & d3 & d4 & d5 & Hp & H0 & H1 & _ & H2 & H3 & H4 & H5 & H6).
  exists properties. split; [exact Hp |].
  assert (Hne : forall key, key ∈ [ kDADiskDescriptionMediaSizeKey;
                                    kDADiskDescriptionMediaWholeKey;
                                    kDADiskDescriptionMediaWritableKey ]
                                   ++ device_keys
                                   ++ [kDADiskDescriptionDeviceGUIDKey]
                                   ++ bus_keys
                                   ++ [kDADiskDescriptionAppearanceTimeKey] ->
                            kDADiskDescriptionMediaRemovableKey <> key).
  { intros key Hin. unfold device_keys, bus_keys in Hin. simpl in Hin.
    repeat (apply elem_of_cons in Hin as [-> | Hin]);
      [ .. | by apply elem_of_nil in Hin ];
      apart_from 16%nat 0%nat 32%nat. }
  assert (H1' : _description d1 !! kDADiskDescriptionMediaRemovableKey
                = properties !! kIOMediaRemovableKey).
  { clear H0 H2 H3 H4 H5 H6.
    unfold media_description, media_bsd_node, media_bsd_unit, media_icon, media_kind,
      media_name, media_path, describe_required in H1.
    steps_ret; simpl;
      (rewrite !lookup_insert_ne by (intros Heq; symmetry in Heq; revert Heq; apply Hne;
                                     rewrite !elem_of_app; left; in_list));
      rewrite lookup_insert_eq; congruence. }
  apply device_description_Ret in H2 as ((d1' & (_ & L2) & G) & _).
  apply device_guid_Ret in G as ((_ & LG) & _).
  apply bus_description_Ret in H3 as ((_ & L3) & _).
  apply appearance_time_Ret in H4 as (_ & L4).
  apply owner_Ret in H5 as (P5 & _). apply owner_mode_Ret in H6.
  pose proof (f_equal _description (hints_options w media (device_of w media) d4)) as Lh.
  apply (f_equal _description) in P5, H6. simpl in P5, H6, Lh.
  unfold DADiskGetDescription.
  rewrite H6, P5, Lh, L4, L3, LG, L2; [exact H1' | ..];
    (eapply not_elem_of_keys; [exact Hne | intros ? ?; rewrite !elem_of_app; tauto]).
Qed.

End Removable.

(** ** Ownership *)

Section Ownership.

Context `{Headers}.
Variable w : World.

(** C3. The ownership of a disk that DADiskCreateFromIOMedia returns.  When
    the device ancestry has an owner-uid hint and the password database has
    an entry for the hinted number taken as a user id, an unsigned 32-bit
    integer, the four identities are that user's, whatever the media and the
    device are.  Otherwise the effective identity is root/admin, and the real
    identity is the unknown one when the media is described as removable (the
    true boolean) or the device as not internal (the false boolean), and
    root/admin when neither holds. *)
Theorem ownership_cascade (media : io_service_t) (disk : DADisk)
  (log : list DALogEntry) :
  DADiskCreateFromIOMedia w media = Returns (Some disk) log ->
  let removable :=
    DADiskGetDescription disk kDADiskDescriptionMediaRemovableKey = Some kCFBooleanTrue in
  let external :=
    DADiskGetDescription disk kDADiskDescriptionDeviceInternalKey = Some kCFBooleanFalse in
  match resolved_owner w (device_of w media) with
  | Some user =>
      DADiskGetUserEUID disk = pw_uid user /\ DADiskGetUserEGID disk = pw_gid user /\
      DADiskGetUserRUID disk = pw_uid user /\ DADiskGetUserRGID disk = pw_gid user
  | None =>
      DADiskGetUserEUID disk = ___UID_ROOT /\ DADiskGetUserEGID disk = ___GID_ADMIN /\
      (removable \/ external ->
       DADiskGetUserRUID disk = ___UID_UNKNOWN /\
       DADiskGetUserRGID disk = ___GID_UNKNOWN) /\
      (~ removable -> ~ external ->
       DADiskGetUserRUID disk = ___UID_ROOT /\ DADiskGetUserRGID disk = ___GID_ADMIN)
  end.
Proof.
  intros E. apply DADiskCreateFromIOMedia_Some in E as [E _].
  apply DADiskCreateFromIOMedia_body_Ret in E
    as (properties & d0 & d1 & d2 & d3 & d4 & d5 & _ & H0 & H1 & _ & H2 & H3 & H4 & H5 & H6).
  pose proof (facts_pristine w _ _ _ _ _ _ _ H0 H1 H2 H3 H4)
    as (_ & _ & _ & _ & HEG & HEU & HRG & HRU & _).
  apply owner_Ret in H5 as (P5 & _ & _ & Hown). apply owner_mode_Ret in H6.
  pose proof (f_equal _description P5) as Hd5.
  pose proof (hints_options w media (device_of w media) d4) as Ph.
  pose proof (f_equal _userEGID Ph) as HeEG. pose proof (f_equal _userEUID Ph) as HeEU.
  pose proof (f_equal _userRGID Ph) as HeRG. pose proof (f_equal _userRUID Ph) as HeRU.
  pose proof (f_equal _description H6) as Hd6.
  pose proof (f_equal _userEGID H6) as H6EG. pose proof (f_equal _userEUID H6) as H6EU.
  pose proof (f_equal _userRGID H6) as H6RG. pose proof (f_equal _userRUID H6) as H6RU.
  unfold DADiskGetDescription, DADiskGetUserEUID, DADiskGetUserEGID,
    DADiskGetUserRUID, DADiskGetUserRGID.
  simpl in *.
  rewrite Hd6, Hd5, H6EG, H6EU, H6RG, H6RU.
  rewrite HeEG, HeEU, HeRG, HeRU, HEG, HEU, HRG, HRU in Hown.
  destruct (resolved_owner w (device_of w media)); [exact Hown |].
  destruct Hown as (HE & HG & HR & HRG').
  split; [exact HE |]. split; [exact HG |].
  rewrite <- is_kCFBooleanTrue_spec, <- is_kCFBooleanFalse_spec.
  destruct (is_kCFBooleanTrue _), (is_kCFBooleanFalse _); simpl in HR, HRG';
    (split; [intros [Hc | Hc]; try discriminate Hc; auto
            | intros Hr He; try (exfalso; apply Hr; reflexivity);
              try (exfalso; apply He; reflexivity); auto]).
Qed.

End Ownership.

Lemma removable_disk_created :
  @DADiskCreateFromIOMedia sample_headers removable_world sample_media
  = Returns (Some removable_disk) [].
Proof. vm_compute. reflexivity. Qed.

Lemma external_disk_created :
  @DADiskCreateFromIOMedia sample_headers external_world sample_media
  = Returns (Some external_disk) [].
Proof. vm_compute. reflexivity. Qed.

Lemma nobody_disk_created :
  @DADiskCreateFromIOMedia sample_headers nobody_world sample_media
  = Returns (Some nobody_disk) [].
Proof. vm_compute. reflexivity. Qed.

Lemma hardware_disk_created :
  @DADiskCreateFromIOMedia sample_headers plain_world sample_media
  = Returns (Some hardware_disk) [].
Proof. vm_compute. reflexivity. Qed.

(** On the concrete system.  With removable media and no owner hint the real
    identity is unknown and the effective one root/admin; so it is with fixed
    media on an external device; with fixed media on an internal device all
    is root/admin; and with the owner-uid hint 4294967294, the [int] -2, the
    four identities are those of the user 4294967294. *)
Lemma ownership_cascade_witness :
  (@DADiskCreateFromIOMedia sample_headers removable_world sample_media
   = Returns (Some removable_disk) [] /\
   DADiskGetDescription removable_disk "DAMediaRemovable" = Some kCFBooleanTrue /\
   DADiskGetUserEUID removable_disk = 0 /\ DADiskGetUserEGID removable_disk = 80 /\
   DADiskGetUserRUID removable_disk = 99 /\ DADiskGetUserRGID removable_disk = 99) /\
  (@DADiskCreateFromIOMedia sample_headers external_world sample_media
   = Returns (Some external_disk) [] /\
   DADiskGetDescription external_disk "DAMediaRemovable" = Some kCFBooleanFalse /\
   DADiskGetDescription external_disk "DADeviceInternal" = Some kCFBooleanFalse /\
   DADiskGetUserEUID external_disk = 0 /\ DADiskGetUserEGID external_disk = 80 /\
   DADiskGetUserRUID external_disk = 99 /\ DADiskGetUserRGID external_disk = 99) /\
  (@DADiskCreateFromIOMedia sample_headers plain_world sample_media
   = Returns (Some hardware_disk) [] /\
   DADiskGetDescription hardware_disk "DAMediaRemovable" = Some kCFBooleanFalse /\
   DADiskGetDescription hardware_disk "DADeviceInternal" = Some kCFBooleanTrue /\
   DADiskGetUserEUID hardware_disk = 0 /\ DADiskGetUserEGID hardware_disk = 80 /\
   DADiskGetUserRUID hardware_disk = 0 /\ DADiskGetUserRGID hardware_disk = 80) /\
  (@DADiskCreateFromIOMedia sample_headers nobody_world sample_media
   = Returns (Some nobody_disk) [] /\
   IORegistryEntrySearchCFProperty nobody_world sample_device kIOServicePlane "owner-uid"
   = Some (CFNumber 4294967294) /\
   CFNumberGetValue (CFNumber 4294967294) kCFNumberIntType = Ret (-2) /\
   DADiskGetUserEUID nobody_disk = 4294967294 /\
   DADiskGetUserEGID nobody_disk = 4294967294 /\
   DADiskGetUserRUID nobody_disk = 4294967294 /\
   DADiskGetUserRGID nobody_disk = 4294967294).
Proof.
  assert (Hremovable :
            DADiskGetDescription removable_disk "DAMediaRemovable" = Some kCFBooleanTrue)
    by (vm_compute; reflexivity).
  assert (Hfixed :
            DADiskGetDescription external_disk "DAMediaRemovable" = Some kCFBooleanFalse)
    by (vm_compute; reflexivity).
  assert (Hexternal :
            DADiskGetDescription external_disk "DADeviceInternal" = Some kCFBooleanFalse)
    by (vm_compute; reflexivity).
  assert (Hfixed' :
            DADiskGetDescription hardware_disk "DAMediaRemovable" = Some kCFBooleanFalse)
    by (vm_compute; reflexivity).
  assert (Hinternal :
            DADiskGetDescription hardware_disk "DADeviceInternal" = Some kCFBooleanTrue)
    by (vm_compute; reflexivity).
  split; [| split; [| split]].
  - split; [exact removable_disk_created |]. split; [exact Hremovable |].
    pose proof (@ownership_cascade sample_headers removable_world sample_media
                  removable_disk [] removable_disk_created) as O.
    cbv zeta in O.
    change (resolved_owner removable_world
              (@device_of sample_headers removable_world sample_media))
      with (@None passwd) in O.
    destruct O as (HE & HG & Hunknown & _).
    destruct (Hunknown (or_introl Hremovable)) as [HR HRG].
    split; [exact HE |]. split; [exact HG |]. split; [exact HR | exact HRG].
  - split; [exact external_disk_created |]. split; [exact Hfixed |].
    split; [exact Hexternal |].
    pose proof (@ownership_cascade sample_headers external_world sample_media
                  external_disk [] external_disk_created) as O.
    cbv zeta in O.
    change (resolved_owner external_world
              (@device_of sample_headers external_world sample_media))
      with (@None passwd) in O.
    destruct O as (HE & HG & Hunknown & _).
    destruct (Hunknown (or_intror Hexternal)) as [HR HRG].
    split; [exact HE |]. split; [exact HG |]. split; [exact HR | exact HRG].
  - split; [exact hardware_disk_created |]. split; [exact Hfixed' |].
    split; [exact Hinternal |].
    pose proof (@ownership_cascade sample_headers plain_world sample_media
                  hardware_disk [] hardware_disk_created) as O.
    cbv zeta in O.
    change (resolved_owner plain_world
              (@device_of sample_headers plain_world sample_media))
      with (@None passwd) in O.
    destruct O as (HE & HG & _ & Hknown).
    destruct Hknown as [HR HRG].
    + intros Hc. change (@kDADiskDescriptionMediaRemovableKey sample_headers)
        with "DAMediaRemovable"%string in Hc. rewrite Hfixed' in Hc. discriminate Hc.
    + intros Hc. change (@kDADiskDescriptionDeviceInternalKey sample_headers)
        with "DADeviceInternal"%string in Hc. rewrite Hinternal in Hc. discriminate Hc.
    + split; [exact HE |]. split; [exact HG |]. split; [exact HR | exact HRG].
  - split; [exact nobody_disk_created |]. split; [reflexivity |].
    split; [reflexivity |].
    pose proof (@ownership_cascade sample_headers nobody_world sample_media
                  nobody_disk [] nobody_disk_created) as O.
    cbv zeta in O.
    change (resolved_owner nobody_world
              (@device_of sample_headers nobody_world sample_media))
      with (Some {| pw_uid := 4294967294; pw_gid := 4294967294 |}) in O.
    exact O.
Defined.

(** ** The device GUID *)

Section DeviceGUID.

Context `{Headers}.
Variable w : World.

(** No other part of the construction stores under the GUID key. *)
Lemma GUID_key_apart (key : string) :
  NoDup description_keys ->
  key ∈ object_keys ++ media_keys ++ device_keys ++ bus_keys
        ++ [kDADiskDescriptionAppearanceTimeKey] ->
  kDADiskDescriptionDeviceGUIDKey <> key.
Proof.
  intros HND Hin.
  unfold object_keys, media_keys, device_keys, bus_keys in Hin. simpl in Hin.
  repeat (apply elem_of_cons in Hin as [-> | Hin]);
    [ .. | by apply elem_of_nil in Hin ];
    apart_from 21%nat 0%nat 32%nat.
Qed.

(** C9. When the description keys are pairwise distinct, a disk that
    DADiskCreateFromIOMedia returns for a device whose ancestry carries a
    GUID number [n] describes the device GUID as a blob of exactly 8 bytes,
    the 64-bit value of [n] most significant byte first, which is the memory
    image of that value swapped from host to big-endian order; without a GUID
    in the ancestry the description has no device GUID entry. *)
Theorem device_guid_big_endian (media : io_service_t) (disk : DADisk)
  (log : list DALogEntry) :
  NoDup description_keys ->
  DADiskCreateFromIOMedia w media = Returns (Some disk) log ->
  match IORegistryEntrySearchCFProperty w (device_of w media) kIOServicePlane "GUID" with
  | Some object =>
      exists n bytes,
        object = CFNumber n /\
        DADiskGetDescription disk kDADiskDescriptionDeviceGUIDKey = Some (CFData bytes) /\
        length bytes = 8%nat /\
        bytes = big_endian 8 (n mod 2 ^ 64) /\
        bytes = object_representation 8 (OSSwapHostToBigInt64 (n mod 2 ^ 64)) /\
        of_big_endian bytes = n mod 2 ^ 64
  | None => DADiskGetDescription disk kDADiskDescriptionDeviceGUIDKey = None
  end.
Proof.
  intros HND E. apply DADiskCreateFromIOMedia_Some in E as [E _].
  apply DADiskCreateFromIOMedia_body_Ret in E
    as (properties & d0 & d1 & d2 & d3 & d4 & d5 & _ & H0 & H1 & _ & H2 & H3 & H4 & H5 & H6).
  pose proof (fun key => GUID_key_apart key HND) as Hne.
  apply create_disk_object_Ret in H0 as (_ & _ & L0).
  apply media_description_Ret in H1 as ((_ & L1) & _).
  apply device_description_Ret in H2 as ((d1' & (_ & L2) & G) & _).
  apply device_guid_Ret in G as (_ & G).
  apply bus_description_Ret in H3 as ((_ & L3) & _).
  apply appearance_time_Ret in H4 as (_ & L4).
  apply owner_Ret in H5 as (P5 & _). apply owner_mode_Ret in H6.
  pose proof (f_equal _description (hints_options w media (device_of w media) d4)) as Lh.
  apply (f_equal _description) in P5, H6. simpl in P5, H6, Lh.
  assert (Hbefore : _description d1' !! kDADiskDescriptionDeviceGUIDKey = None).
  { rewrite L2, L1, L0; [reflexivity | ..];
      (eapply not_elem_of_keys; [exact Hne | intros ? ?; rewrite !elem_of_app; tauto]). }
  assert (Hafter : _description disk !! kDADiskDescriptionDeviceGUIDKey
                   = _description d2 !! kDADiskDescriptionDeviceGUIDKey).
  { rewrite H6, P5, Lh, L4, L3; [reflexivity | ..];
      (eapply not_elem_of_keys; [exact Hne | intros ? ?; rewrite !elem_of_app; tauto]). }
  unfold DADiskGetDescription. rewrite Hafter.
  destruct (IORegistryEntrySearchCFProperty w (device_of w media) kIOServicePlane "GUID").
  - destruct G as (n & -> & G). exists n, (big_endian 8 (n mod 2 ^ 64)).
    repeat split; [exact G | ..].
    + symmetry. apply object_representation_OSSwapHostToBigInt64.
    + rewrite of_big_endian_value. change (2 ^ (8 * Z.of_nat 8)) with (2 ^ 64).
      apply Z.mod_mod. lia.
  - congruence.
Qed.

End DeviceGUID.

(** On the concrete system, with the GUID 0x0011223344556677 on the device. *)
Lemma device_guid_big_endian_witness :
  NoDup (@description_keys sample_headers) /\
  exists disk,
    @DADiskCreateFromIOMedia sample_headers guid_world sample_media
    = Returns (Some disk) [] /\
    DADiskGetDescription disk (@kDADiskDescriptionDeviceGUIDKey sample_headers)
    = Some (CFData [0x00; 0x11; 0x22; 0x33; 0x44; 0x55; 0x66; 0x77]).
Proof.
  assert (HND : NoDup (@description_keys sample_headers)).
  { apply (@bool_decide_unpack _ (NoDup_dec _)). vm_compute. exact I. }
  split; [exact HND |].
  eexists. split; [vm_compute; reflexivity |].
  pose proof (@device_guid_big_endian sample_headers guid_world sample_media _ [] HND
                ltac:(vm_compute; reflexivity)) as G.
  cbv beta iota zeta in G.
  change (IORegistryEntrySearchCFProperty guid_world
            (@device_of sample_headers guid_world sample_media) kIOServicePlane "GUID")
    with (Some (CFNumber 0x0011223344556677)) in G.
  destruct G as (n & bytes & Hn & Hd & _ & Hb & _).
  injection Hn as <-. rewrite Hd, Hb. reflexivity.
Defined.

(** ** Required facts *)

Section Required.

Context `{Headers}.
Variable w : World.

(** A construction that reaches its [return disk] found every fact. *)
Lemma required_facts_present (media : io_service_t) (disk : DADisk) :
  DADiskCreateFromIOMedia_body w media = Ret disk ->
  ~ required_fact_missing w media.
Proof.
  intros E Hmissing.
  apply DADiskCreateFromIOMedia_body_Ret in E
    as (properties & d0 & d1 & d2 & d3 & d4 & d5 & Hp & H0 & H1 & Hdevice & H2 & H3 & _).
  apply create_disk_object_Ret in H0
    as ((object & name & Hname & Hcstring & _ & Hurl) & _).
  apply media_description_Ret in H1
    as (_ & Hprops & Hicon & Hdvd & Hcd & (mname & Hmname & Hmstring)
        & (mpath & Hmpath & Hmpstring)).
  apply device_description_Ret in H2 as (_ & Hdprops & (dpath & Hdpath & Hdstring)).
  apply bus_description_Ret in H3 as (_ & Hbus).
  destruct Hmissing
    as [ Hn | properties' key Hp' Hkey Hn | properties' object' Hp' Hname' Hn
       | properties' object' name' Hp' Hname' Hcstring' Hn | Hn
       | properties' Hp' Hconf Hn | properties' Hp' Hconf Hconf' Hn
       | Hn | name' Hname' Hn | Hn Hn' | path' Hpath' Hn | Hn | Hn | Hn
       | path' Hpath' Hn | Hb Hn | name' Hb Hname' Hn | Hb Hn | path' Hb Hpath' Hn ].
  - congruence.
  - assert (properties' = properties) as -> by congruence.
    destruct (Hprops key Hkey) as [? ?]. congruence.
  - assert (properties' = properties) as -> by congruence.
    assert (object' = object) as -> by congruence. congruence.
  - assert (properties' = properties) as -> by congruence.
    assert (object' = object) as -> by congruence.
    assert (name' = name) as -> by congruence.
    simpl in Hn. rewrite Hn in Hurl. by destruct Hurl.
  - rewrite Hn in Hicon. by destruct Hicon.
  - assert (properties' = properties) as -> by congruence.
    destruct (Hdvd Hconf). congruence.
  - assert (properties' = properties) as -> by congruence.
    destruct (Hcd Hconf Hconf'). congruence.
  - congruence.
  - assert (name' = mname) as -> by congruence.
    rewrite Hn in Hmstring. by destruct Hmstring.
  - unfold media_registry_path in Hmpath. rewrite Hn, Hn' in Hmpath. discriminate.
  - assert (path' = mpath) as -> by congruence.
    rewrite Hn in Hmpstring. by destruct Hmpstring.
  - contradiction.
  - rewrite Hn in Hdprops. by destruct Hdprops.
  - congruence.
  - assert (path' = dpath) as -> by congruence.
    rewrite Hn in Hdstring. by destruct Hdstring.
  - destruct (Hbus Hb) as (bname & bpath & Hbname & _). congruence.
  - destruct (Hbus Hb) as (bname & bpath & Hbname & Hs & _).
    assert (name' = bname) as -> by congruence. rewrite Hn in Hs. by destruct Hs.
  - destruct (Hbus Hb) as (bname & bpath & _ & _ & Hbpath & _). congruence.
  - destruct (Hbus Hb) as (bname & bpath & _ & _ & Hbpath & Hs).
    assert (path' = bpath) as -> by congruence. rewrite Hn in Hs. by destruct Hs.
Qed.

(** C5, as the code has it. When a required fact is missing, or one of the
    registry queries whose status is examined reports an error with no
    fallback left, DADiskCreateFromIOMedia does not return a disk: wherever
    its behaviour is defined it returns NULL. *)
Theorem construction_aborts (media : io_service_t) :
  required_fact_missing w media ->
  (forall disk log, DADiskCreateFromIOMedia w media <> Returns (Some disk) log) /\
  (DADiskCreateFromIOMedia w media <> Undefined ->
   exists log, DADiskCreateFromIOMedia w media = Returns None log).
Proof.
  intros Hmissing.
  assert (Hno : forall disk, DADiskCreateFromIOMedia_body w media <> Ret disk).
  { intros disk E. exact (required_facts_present media disk E Hmissing). }
  unfold DADiskCreateFromIOMedia, DADiskCreateFromIOMediaErr.
  destruct (DADiskCreateFromIOMedia_body w media) as [disk | id |].
  - destruct (Hno disk eq_refl).
  - split; [discriminate | eauto].
  - split; [discriminate | congruence].
Qed.

End Required.

(** On the concrete system without the media size: no disk, NULL, one line
    logged. *)
Lemma construction_aborts_witness :
  @required_fact_missing sample_headers sizeless_world sample_media /\
  (forall disk log,
     @DADiskCreateFromIOMedia sample_headers sizeless_world sample_media
     <> Returns (Some disk) log) /\
  (@DADiskCreateFromIOMedia sample_headers sizeless_world sample_media <> Undefined ->
   exists log,
     @DADiskCreateFromIOMedia sample_headers sizeless_world sample_media
     = Returns None log).
Proof.
  assert (Hmissing : @required_fact_missing sample_headers sizeless_world sample_media).
  { apply (@media_property_missing sample_headers sizeless_world sample_media
             (delete "Size"%string sample_media_properties) "Size"%string).
    - reflexivity.
    - unfold required_media_properties. simpl. in_list.
    - vm_compute. reflexivity. }
  split; [exact Hmissing |].
  exact (@construction_aborts sample_headers sizeless_world sample_media Hmissing).
Defined.

Example construction_aborts_run :
  @DADiskCreateFromIOMedia sample_headers sizeless_world sample_media
  = Returns None [DALogError "unable to create disk, id = %s." (Some "/dev/disk2"%string)].
Proof. vm_compute. reflexivity. Qed.

(** C5, as the specification words it, fails: the query for the path of the
    media in the device tree plane reports an error, and the construction
    goes on with the path in the service plane and returns a disk. *)
Lemma registry_query_error_counterexample :
  IORegistryEntryGetPath (sample_world sample_media_properties no_hint)
    sample_media kIODeviceTreePlane = None /\
  exists disk,
    @DADiskCreateFromIOMedia sample_headers
      (sample_world sample_media_properties no_hint) sample_media
    = Returns (Some disk) [] /\
    DADiskGetDescription disk (@kDADiskDescriptionMediaPathKey sample_headers)
    = Some (CFString "IOService:/MacRISC2PE/pci/ata-4/disk").
Proof.
  split; [reflexivity |].
  eexists. split; vm_compute; reflexivity.
Qed.

(** ** Volume paths *)

Section VolumePath.

Context `{Headers}.
Variable w : World.

(** C7. DADiskCreateFromVolumePath returns NULL, and logs nothing, when the
    path is absent, when it has no file system representation and when its
    mount statistics cannot be had; a disk it returns comes from a
    successful mount-statistics query and bears the mount point as its
    identifier.  The call never logs an error. *)
Theorem volume_path_null_or_mounted (path : option CFType) :
  (path = None -> DADiskCreateFromVolumePath w path = Returns None []) /\
  (forall url,
     path = Some url ->
     ___CFURLCopyFileSystemRepresentation w url = None ->
     DADiskCreateFromVolumePath w path = Returns None []) /\
  (forall url _path,
     path = Some url ->
     ___CFURLCopyFileSystemRepresentation w url = Some _path ->
     ___statfs w _path MNT_NOWAIT = None ->
     DADiskCreateFromVolumePath w path = Returns None []) /\
  (forall disk log,
     DADiskCreateFromVolumePath w path = Returns (Some disk) log ->
     log = [] /\
     exists url _path fs,
       path = Some url /\
       ___CFURLCopyFileSystemRepresentation w url = Some _path /\
       ___statfs w _path MNT_NOWAIT = Some fs /\
       DADiskGetID disk = cstr (f_mntonname fs)) /\
  exists disk, DADiskCreateFromVolumePath w path = Returns disk [].
Proof.
  unfold DADiskCreateFromVolumePath. repeat split.
  - intros ->. reflexivity.
  - intros url -> ->. reflexivity.
  - intros url _path -> -> ->. reflexivity.
  - congruence.
  - destruct path as [url|]; [| discriminate].
    destruct (___CFURLCopyFileSystemRepresentation w url) as [_path|] eqn:Hrep;
      [| discriminate].
    destruct (___statfs w _path MNT_NOWAIT) as [fs|] eqn:Hfs; [| discriminate].
    exists url, _path, fs. repeat split; try assumption.
    destruct (getpwuid w (f_owner fs)), (negb _);
      match goal with E : Returns _ _ = Returns _ _ |- _ => injection E as <- _ end;
      reflexivity.
  - eauto.
Qed.

End VolumePath.

(** On the concrete system: a path below a mount point gives the disk of the
    mount point, a path that is no mount gives NULL. *)
Lemma volume_path_null_or_mounted_witness :
  (exists disk,
     @DADiskCreateFromVolumePath sample_headers
       (sample_world sample_media_properties no_hint)
       (Some (CFURL "/Volumes/Data/Documents")) = Returns (Some disk) [] /\
     DADiskGetID disk = "/Volumes/Data"%string) /\
  @DADiskCreateFromVolumePath sample_headers
    (sample_world sample_media_properties no_hint) (Some (CFURL "/Volumes/Gone"))
  = Returns None [].
Proof.
  split.
  - eexists. split; [vm_compute; reflexivity |].
    destruct (@volume_path_null_or_mounted sample_headers
                (sample_world sample_media_properties no_hint)
                (Some (CFURL "/Volumes/Data/Documents")))
      as (_ & _ & _ & Hdisk & _).
    destruct (Hdisk _ [] ltac:(vm_compute; reflexivity))
      as (_ & url & _path & fs & Hurl & Hrep & Hfs & Hid).
    injection Hurl as <-. vm_compute in Hrep. injection Hrep as <-.
    vm_compute in Hfs. injection Hfs as <-. exact Hid.
  - destruct (@volume_path_null_or_mounted sample_headers
                (sample_world sample_media_properties no_hint)
                (Some (CFURL "/Volumes/Gone")))
      as (_ & _ & Hstat & _).
    apply (Hstat (CFURL "/Volumes/Gone") "/Volumes/Gone"%string); reflexivity.
Defined.

(** ** The match evaluator *)

Section Match.

Context `{Headers}.
Variable w : World.

Lemma __DADiskMatch_Some (disk : DADisk) (key : string) (value : CFType)
  (context : option DADisk) :
  __DADiskMatch w key value context = Some disk <->
  context = Some disk /\ key_matches w disk key value.
Proof.
  unfold __DADiskMatch, key_matches, DADiskGetDescription.
  destruct context as [disk'|]; [| split; [discriminate | intros [? _]; discriminate]].
  destruct (bool_decide_reflect (key = kIOPropertyMatchKey)) as [Hkey | Hkey].
  - destruct (IOServiceMatchPropertyTable w (_media disk') (_description disk' !! key))
      eqn:Hmatch.
    + split.
      * intros E. injection E as ->. auto.
      * intros [E _]. exact E.
    + split; [discriminate |].
      intros [E [[_ Hm] | [Hne _]]]; [| contradiction].
      injection E as ->. congruence.
  - destruct (_description disk' !! key) as [stored|] eqn:Hstored.
    + destruct (CFEqual value stored) eqn:Hequal.
      * apply CFEqual_eq in Hequal as ->. split.
        -- intros E. injection E as ->. auto.
        -- intros [E _]. exact E.
      * apply CFEqual_neq in Hequal. split; [discriminate |].
        intros [E [[Hk _] | [_ Hs]]]; [contradiction |].
        injection E as ->. congruence.
    + split; [discriminate |].
      intros [E [[Hk _] | [_ Hs]]]; [contradiction |].
      injection E as ->. congruence.
Qed.

(** The context cell holds the disk at the end exactly when every entry of
    the criteria matched, in whatever order the entries were applied. *)
Lemma DADiskMatch_fold (disk : DADisk) (criteria : gmap string CFType) :
  map_fold (__DADiskMatch w) (Some disk) criteria = Some disk <->
  map_Forall (key_matches w disk) criteria.
Proof.
  apply (map_fold_weak_ind
           (fun context criteria =>
              context = Some disk <-> map_Forall (key_matches w disk) criteria)).
  - split; [intros _; apply map_Forall_empty | reflexivity].
  - intros key value m context Hfresh IH.
    rewrite __DADiskMatch_Some, map_Forall_insert by exact Hfresh. tauto.
Qed.

Lemma DADiskMatch_fold_cases (disk : DADisk) (criteria : gmap string CFType) :
  map_fold (__DADiskMatch w) (Some disk) criteria = Some disk \/
  map_fold (__DADiskMatch w) (Some disk) criteria = None.
Proof.
  apply (map_fold_weak_ind
           (fun context (_ : gmap string CFType) =>
              context = Some disk \/ context = None)).
  - auto.
  - intros key value m context _ [-> | ->].
    + destruct (__DADiskMatch w key value (Some disk)) as [disk'|] eqn:E; [| auto].
      left. apply __DADiskMatch_Some in E as [E _]. congruence.
    + right. reflexivity.
Qed.

Lemma DADiskMatch_true (disk : DADisk) (criteria : gmap string CFType) :
  DADiskMatch w disk criteria = true <-> map_Forall (key_matches w disk) criteria.
Proof.
  rewrite <- DADiskMatch_fold. unfold DADiskMatch.
  destruct (DADiskMatch_fold_cases disk criteria) as [-> | ->];
    split; congruence.
Qed.

(** C4. The empty criteria match every disk; criteria with an ordinary key
    that the description lacks, or under which it stores an unequal value,
    do not match; and criteria match exactly when each of their entries
    does. *)
Theorem match_criteria (disk : DADisk) :
  DADiskMatch w disk ∅ = true /\
  (forall criteria key value,
     key <> kIOPropertyMatchKey ->
     criteria !! key = Some value ->
     (DADiskGetDescription disk key = None \/
      exists stored, DADiskGetDescription disk key = Some stored /\ stored <> value) ->
     DADiskMatch w disk criteria = false) /\
  (forall criteria,
     DADiskMatch w disk criteria = true <->
     forall key value, criteria !! key = Some value -> key_matches w disk key value).
Proof.
  split; [| split].
  - apply DADiskMatch_true, map_Forall_empty.
  - intros criteria key value Hkey Hin Hmismatch.
    destruct (DADiskMatch w disk criteria) eqn:E; [| reflexivity].
    apply DADiskMatch_true in E.
    destruct (E key value Hin) as [[Hk _] | [_ Hs]]; [contradiction |].
    destruct Hmismatch as [Hnone | (stored & Hs' & Hne)]; congruence.
  - intros criteria. apply DADiskMatch_true.
Qed.

(** C10. Under the special key the evaluator hands the disk's own stored
    value, not the value of the criteria, to the registry predicate: the
    criteria's value under that key does not matter to the result, and a
    disk matches criteria holding that key only if the registry predicate
    holds of the disk's media and the disk's own stored value (which may be
    absent). *)
Theorem match_hardware_key (disk : DADisk) (criteria : gmap string CFType)
  (value value' : CFType) :
  DADiskMatch w disk (<[kIOPropertyMatchKey := value]> criteria)
  = DADiskMatch w disk (<[kIOPropertyMatchKey := value']> criteria) /\
  (DADiskMatch w disk (<[kIOPropertyMatchKey := value]> criteria) = true ->
   IOServiceMatchPropertyTable w (_media disk)
     (DADiskGetDescription disk kIOPropertyMatchKey) = true) /\
  DADiskMatch w disk {[kIOPropertyMatchKey := value]}
  = IOServiceMatchPropertyTable w (_media disk)
      (DADiskGetDescription disk kIOPropertyMatchKey).
Proof.
  assert (Hspecial : forall v,
            key_matches w disk kIOPropertyMatchKey v <->
            IOServiceMatchPropertyTable w (_media disk)
              (DADiskGetDescription disk kIOPropertyMatchKey) = true).
  { intros v. unfold key_matches. split; [| auto].
    intros [[_ Hm] | [Hne _]]; [exact Hm | contradiction]. }
  assert (Hinsert : forall v,
            DADiskMatch w disk (<[kIOPropertyMatchKey := v]> criteria) = true <->
            IOServiceMatchPropertyTable w (_media disk)
              (DADiskGetDescription disk kIOPropertyMatchKey) = true /\
            map_Forall (key_matches w disk) (delete kIOPropertyMatchKey criteria)).
  { intros v. rewrite DADiskMatch_true, <- insert_delete_eq.
    rewrite map_Forall_insert by apply lookup_delete_eq.
    rewrite Hspecial. reflexivity. }
  split; [| split].
  - apply Bool.eq_iff_eq_true. rewrite !Hinsert. reflexivity.
  - intros E. apply Hinsert in E as [E _]. exact E.
  - apply Bool.eq_iff_eq_true. rewrite DADiskMatch_true, map_Forall_singleton.
    apply Hspecial.
Qed.

End Match.

(** On the concrete system: the empty criteria match, criteria asking for
    removable media do not match a disk described as not removable. *)
Lemma match_criteria_witness :
  @DADiskMatch sample_headers (sample_world sample_media_properties no_hint)
    sample_disk ∅ = true /\
  @DADiskMatch sample_headers (sample_world sample_media_properties no_hint)
    sample_disk {["DAMediaRemovable"%string := kCFBooleanTrue]} = false.
Proof.
  destruct (@match_criteria sample_headers
              (sample_world sample_media_properties no_hint) sample_disk)
    as (Hempty & Hmismatch & _).
  split; [exact Hempty |].
  apply (Hmismatch _ "DAMediaRemovable"%string kCFBooleanTrue).
  - discriminate.
  - apply lookup_singleton_eq.
  - right. exists kCFBooleanFalse. split; [reflexivity | discriminate].
Defined.

(** On the concrete system, where the registry predicate holds of any table
    but not of NULL: criteria that hold a table under the special key do not
    match a disk that stores nothing under that key. *)
Lemma match_hardware_key_witness :
  @DADiskMatch sample_headers (sample_world sample_media_properties no_hint)
    sample_disk {["IOPropertyMatch"%string := CFDictionary ∅]} = false.
Proof.
  destruct (@match_hardware_key sample_headers
              (sample_world sample_media_properties no_hint) sample_disk ∅
              (CFDictionary ∅) (CFDictionary ∅))
    as (_ & _ & Hsingle).
  exact Hsingle.
Defined.

(** ** The serialization cache *)

Section Serialization.

Context `{Headers}.
Variable w : World.

Lemma DADiskGetSerialization_computes (disk : DADisk) :
  _serialization disk = None ->
  DADiskGetSerialization w disk
  = (_DASerializeDiskDescription w (_description disk),
     set_serialization (_DASerializeDiskDescription w (_description disk)) disk).
Proof. unfold DADiskGetSerialization. intros ->. reflexivity. Qed.

Lemma DADiskGetSerialization_cached (disk : DADisk) (data : CFType) :
  _serialization disk = Some data ->
  DADiskGetSerialization w disk = (Some data, disk).
Proof. unfold DADiskGetSerialization. intros E. rewrite E. rewrite E. reflexivity. Qed.

Lemma DADiskGetSerialization_description (disk : DADisk) :
  _description (snd (DADiskGetSerialization w disk)) = _description disk.
Proof. unfold DADiskGetSerialization. destruct (_serialization disk); reflexivity. Qed.

Lemma DADiskSetDescription_serialization (disk : DADisk) (description : string)
  (value : option CFType) :
  _serialization (DADiskSetDescription disk description value) = None.
Proof.
  unfold DADiskSetDescription.
  destruct value; unfold set_description; simpl;
    destruct (_serialization disk); reflexivity.
Qed.

Lemma DADiskSetDescription_description (disk : DADisk) (description : string)
  (value : option CFType) :
  _description (DADiskSetDescription disk description value)
  = match value with
    | Some value => <[description := value]> (_description disk)
    | None => delete description (_description disk)
    end.
Proof.
  unfold DADiskSetDescription.
  destruct value; unfold set_description; simpl;
    destruct (_serialization disk); reflexivity.
Qed.

Lemma DADiskGetSerialization_current (disk : DADisk) :
  serialization_current w disk ->
  fst (DADiskGetSerialization w disk) = _DASerializeDiskDescription w (_description disk) /\
  serialization_current w (snd (DADiskGetSerialization w disk)).
Proof.
  unfold serialization_current, DADiskGetSerialization.
  intros [E | E].
  - rewrite E. simpl. split; [reflexivity | right; reflexivity].
  - destruct (_serialization disk) as [data|] eqn:Hs; simpl.
    + rewrite Hs. split; [exact E | right; exact E].
    + split; [reflexivity | right; reflexivity].
Qed.

(** Apart from the two calls above, no call touches the description or the
    cache. *)
Lemma call_current (disk : DADisk) (c : DADiskCall) :
  serialization_current w disk -> serialization_current w (call w disk c).
Proof.
  intros Hcurrent. destruct c; simpl.
  - apply DADiskGetSerialization_current, Hcurrent.
  - unfold DADiskSetBypath. destruct (_bypath disk), bypath; exact Hcurrent.
  - unfold DADiskSetClaim. destruct (_claim disk), claim; exact Hcurrent.
  - unfold DADiskSetContext. destruct (_context disk), context; exact Hcurrent.
  - unfold DADiskSetContextRe. destruct (_contextRe disk), context; exact Hcurrent.
  - left. apply DADiskSetDescription_serialization.
  - unfold DADiskSetFileSystem. destruct (_filesystem disk), filesystem; exact Hcurrent.
  - exact Hcurrent.
  - exact Hcurrent.
  - exact Hcurrent.
  - exact Hcurrent.
  - exact Hcurrent.
Qed.

Lemma calls_current (disk : DADisk) (cs : list DADiskCall) :
  serialization_current w disk -> serialization_current w (calls w disk cs).
Proof.
  unfold calls. revert disk.
  induction cs as [|c cs IH]; intros disk Hcurrent; simpl; [exact Hcurrent |].
  apply IH, call_current, Hcurrent.
Qed.

(** The disks that the constructors return have no cache. *)
Lemma pristine_current (disk : DADisk) : pristine disk -> serialization_current w disk.
Proof. intros (_ & _ & E & _). left. exact E. Qed.

Lemma DADiskCreateFromIOMedia_current (media : io_service_t) (disk : DADisk)
  (log : list DALogEntry) :
  DADiskCreateFromIOMedia w media = Returns (Some disk) log ->
  serialization_current w disk.
Proof.
  intros E. apply DADiskCreateFromIOMedia_Some in E as [E _].
  apply DADiskCreateFromIOMedia_body_Ret in E
    as (properties & d0 & d1 & d2 & d3 & d4 & d5 & _ & H0 & H1 & _ & H2 & H3 & H4 & H5 & H6).
  pose proof (facts_pristine w _ _ _ _ _ _ _ H0 H1 H2 H3 H4) as (_ & _ & Hs & _).
  apply owner_Ret in H5 as (P5 & _). apply owner_mode_Ret in H6.
  pose proof (f_equal _serialization (hints_options w media (device_of w media) d4)) as Hh.
  apply (f_equal _serialization) in P5, H6. simpl in P5, H6, Hh.
  left. congruence.
Qed.

Lemma DADiskCreateFromVolumePath_current (path : option CFType) (disk : DADisk)
  (log : list DALogEntry) :
  DADiskCreateFromVolumePath w path = Returns (Some disk) log ->
  serialization_current w disk.
Proof.
  unfold DADiskCreateFromVolumePath. intros E.
  destruct path as [url|]; [| discriminate].
  destruct (___CFURLCopyFileSystemRepresentation w url) as [_path|]; [| discriminate].
  destruct (___statfs w _path MNT_NOWAIT) as [fs|]; [| discriminate].
  left. destruct (getpwuid w (f_owner fs)), (negb _); injection E as <- _; reflexivity.
Qed.

Lemma created_current (disk : DADisk) : created w disk -> serialization_current w disk.
Proof.
  intros [media log E | path log E].
  - eapply DADiskCreateFromIOMedia_current, E.
  - eapply DADiskCreateFromVolumePath_current, E.
Qed.

(** C2. For a disk that a constructor returned, after any sequence of calls:
    the cache is absent or is the encoding of the description as it is now;
    DADiskSetDescription, setting or removing a key, leaves no cache;
    DADiskGetSerialization encodes the description only when there is no
    cache, stores the encoding and returns what the cache holds; so what it
    returns is always the encoding of the current description. *)
Theorem serialization_cache (disk : DADisk) (cs : list DADiskCall) :
  created w disk ->
  let disk' := calls w disk cs in
  serialization_current w disk' /\
  fst (DADiskGetSerialization w disk')
  = _DASerializeDiskDescription w (_description disk') /\
  (forall description value,
     _serialization (DADiskSetDescription disk' description value) = None /\
     _description (DADiskSetDescription disk' description value)
     = match value with
       | Some value => <[description := value]> (_description disk')
       | None => delete description (_description disk')
       end) /\
  (_serialization disk' = None ->
   DADiskGetSerialization w disk'
   = (_DASerializeDiskDescription w (_description disk'),
      set_serialization (_DASerializeDiskDescription w (_description disk')) disk')) /\
  (forall data,
     _serialization disk' = Some data ->
     DADiskGetSerialization w disk' = (Some data, disk')).
Proof.
  intros Hcreated disk'.
  pose proof (calls_current disk cs (created_current disk Hcreated)) as Hcurrent'.
  fold disk' in Hcurrent'.
  split; [exact Hcurrent' |].
  split; [apply DADiskGetSerialization_current, Hcurrent' |].
  split; [| split].
  - intros description value.
    split; [apply DADiskSetDescription_serialization
           | apply DADiskSetDescription_description].
  - apply DADiskGetSerialization_computes.
  - apply DADiskGetSerialization_cached.
Qed.

End Serialization.

(** On the concrete system, for the disk of the mounted volume: the encoding
    is cached, a volume name is set, and the next encoding is that of the
    new description. *)
Lemma serialization_cache_witness :
  @created sample_headers (sample_world sample_media_properties no_hint) mounted_disk /\
  let disk' :=
    calls (sample_world sample_media_properties no_hint) mounted_disk
      [ CallGetSerialization;
        CallSetDescription "DAVolumeName" (Some (CFString "Data")) ] in
  fst (DADiskGetSerialization (sample_world sample_media_properties no_hint) disk')
  = _DASerializeDiskDescription (sample_world sample_media_properties no_hint)
      (_description disk').
Proof.
  assert (Hcreated : @created sample_headers
                       (sample_world sample_media_properties no_hint) mounted_disk).
  { apply (@created_from_volume sample_headers
             (sample_world sample_media_properties no_hint) mounted_disk
             (Some (CFURL "/Volumes/Data/Documents")) []).
    vm_compute. reflexivity. }
  split; [exact Hcreated |].
  exact (proj1 (proj2 (@serialization_cache sample_headers
                         (sample_world sample_media_properties no_hint) mounted_disk
                         [ CallGetSerialization;
                           CallSetDescription "DAVolumeName" (Some (CFString "Data")) ]
                         Hcreated))).
Defined.

Example serialization_cache_run :
  let w := sample_world sample_media_properties no_hint in
  let '(first, disk1) := DADiskGetSerialization w mounted_disk in
  let disk2 := DADiskSetDescription disk1 "DAVolumeName" (Some (CFString "Data")) in
  let '(second, disk3) := DADiskGetSerialization w disk2 in
  first = Some (CFData [17; 15; 12; 8]) /\
  _serialization disk1 = first /\
  _serialization disk2 = None /\
  second = Some (CFData [17; 15; 12; 12; 8]) /\
  _serialization disk3 = second.
Proof. vm_compute. repeat split. Qed.

(** * Further properties of DADisk.c *)

(** ** Identity *)

Section Identity.

Context `{Headers}.
Variable w : World.

(** X1. [__DADiskEqual] is an equivalence on disks, and disks that are equal
    have the same hash: the pair can serve as the callbacks of a set or a
    dictionary of disks. *)
Theorem equal_disks_same_hash (A B C : DADisk) :
  __DADiskEqual A A = true /\
  __DADiskEqual A B = __DADiskEqual B A /\
  (__DADiskEqual A B = true -> __DADiskEqual B C = true -> __DADiskEqual A C = true) /\
  (__DADiskEqual A B = true -> __DADiskHash w A = __DADiskHash w B).
Proof.
  split; [| split; [| split]].
  - now apply __DADiskEqual_cstr.
  - apply Bool.eq_iff_eq_true. rewrite !__DADiskEqual_cstr. split; congruence.
  - rewrite !__DADiskEqual_cstr. congruence.
  - rewrite __DADiskEqual_cstr, !__DADiskHash_cstr. congruence.
Qed.

Lemma call_fixed_part (disk : DADisk) (c : DADiskCall) :
  fixed_part (call w disk c) = fixed_part disk.
Proof.
  destruct c; simpl; try reflexivity.
  - unfold DADiskGetSerialization. destruct (_serialization disk); reflexivity.
  - unfold DADiskSetBypath. destruct (_bypath disk), bypath; reflexivity.
  - unfold DADiskSetClaim. destruct (_claim disk), claim; reflexivity.
  - unfold DADiskSetContext. destruct (_context disk), context; reflexivity.
  - unfold DADiskSetContextRe. destruct (_contextRe disk), context; reflexivity.
  - unfold DADiskSetDescription.
    destruct value; unfold set_description; simpl;
      destruct (_serialization disk); reflexivity.
  - unfold DADiskSetFileSystem. destruct (_filesystem disk), filesystem; reflexivity.
Qed.

(** X2. Whatever calls are made on a disk, its identifier, its media, its
    device URL, node, paths and unit, its real user and group and its mode
    stay as they were; the disk stays equal to what it was, with the same
    hash. *)
Theorem calls_keep_identity (disk : DADisk) (cs : list DADiskCall) :
  fixed_part (calls w disk cs) = fixed_part disk /\
  __DADiskEqual (calls w disk cs) disk = true /\
  __DADiskHash w (calls w disk cs) = __DADiskHash w disk.
Proof.
  assert (Hfixed : fixed_part (calls w disk cs) = fixed_part disk).
  { unfold calls. revert disk.
    induction cs as [|c cs IH]; intros disk; simpl; [reflexivity |].
    rewrite IH. apply call_fixed_part. }
  split; [exact Hfixed |].
  assert (Hid : _id (calls w disk cs) = _id disk) by (injection Hfixed; auto).
  split.
  - apply __DADiskEqual_cstr. now rewrite Hid.
  - rewrite !__DADiskHash_cstr. now rewrite Hid.
Qed.

End Identity.

(** ** Comparing and changing the description *)

Section Description.

Context `{Headers}.
Variable w : World.

(** X3. DADiskCompareDescription answers EqualTo exactly when the disk
    stores the given value under the key (nothing stored and NULL given
    count as equal), GreaterThan exactly when something is stored and NULL
    is given, and LessThan in every other case: two unequal values compare
    LessThan whichever is stored.  The pointer test of the code does not
    change the answer. *)
Theorem compare_description (disk : DADisk) (description : string)
  (value : option CFType) (identical : bool) :
  (identical = true -> DADiskGetDescription disk description = value) ->
  (DADiskGetDescription disk description = None -> value = None -> identical = true) ->
  let result := DADiskCompareDescription disk description value identical in
  (result = kCFCompareEqualTo <-> DADiskGetDescription disk description = value) /\
  (result = kCFCompareGreaterThan <->
   is_Some (DADiskGetDescription disk description) /\ value = None) /\
  (result = kCFCompareLessThan <->
   DADiskGetDescription disk description <> value /\ is_Some value).
Proof.
  unfold DADiskCompareDescription, DADiskGetDescription.
  intros Hsame Hnull.
  assert (Hcases :
    (identical = true /\ _description disk !! description = value) \/
    (identical = false /\
     (is_Some (_description disk !! description) \/ is_Some value))).
  { destruct identical; [left; auto | right; split; [reflexivity |]].
    destruct (_description disk !! description), value; eauto.
    specialize (Hnull eq_refl eq_refl). discriminate. }
  clear Hsame Hnull.
  destruct Hcases as [[-> <-] | [-> Hsome]]; cbn zeta iota beta.
  - destruct (_description disk !! description) as [stored|];
      repeat split; intros;
      repeat match goal with
        | Hc : _ /\ _ |- _ => destruct Hc
        | Hc : is_Some None |- _ => destruct Hc as [? Hc]; discriminate Hc
        | Hc : ?x <> ?x |- _ => contradiction
        end;
      try discriminate; try congruence.
  - destruct (_description disk !! description) as [stored|], value as [given|];
      try (destruct (CFEqual stored given) eqn:He;
           [apply CFEqual_eq in He as -> | apply CFEqual_neq in He]);
      try (destruct Hsome as [[? Hn] | [? Hn]]; discriminate Hn);
      repeat split; intros;
      repeat match goal with
        | Hc : _ /\ _ |- _ => destruct Hc
        | Hc : is_Some None |- _ => destruct Hc as [? Hc]; discriminate Hc
        | Hc : ?x <> ?x |- _ => contradiction
        | |- is_Some (Some _) => eexists; reflexivity
        end;
      try discriminate; try congruence.
Qed.

(** X4. After DADiskSetDescription the disk stores the given value under the
    key, or nothing when NULL was given, and what it stores under every other
    key is as before; setting the same key again replaces the value, and
    removing a key that is not there leaves the description as it was. *)
Theorem set_description_get_description (disk : DADisk) (description : string)
  (value : option CFType) :
  DADiskGetDescription (DADiskSetDescription disk description value) description = value /\
  (forall key, key <> description ->
     DADiskGetDescription (DADiskSetDescription disk description value) key
     = DADiskGetDescription disk key) /\
  (forall value',
     DADiskSetDescription (DADiskSetDescription disk description value) description value'
     = DADiskSetDescription disk description value') /\
  (DADiskGetDescription disk description = None ->
   _description (DADiskSetDescription disk description None) = _description disk).
Proof.
  unfold DADiskGetDescription. rewrite !DADiskSetDescription_description.
  split; [| split; [| split]].
  - destruct value; [apply lookup_insert_eq | apply lookup_delete_eq].
  - intros key Hne. destruct value;
      [apply lookup_insert_ne | apply lookup_delete_ne]; congruence.
  - intros value'. unfold DADiskSetDescription, set_description, set_serialization.
    destruct value, value'; simpl; destruct (_serialization disk); simpl;
      rewrite ?insert_insert_eq, ?delete_insert_eq, ?insert_delete_eq, ?delete_delete_eq;
      reflexivity.
  - intros Hnone. now apply delete_id.
Qed.

(** X5. A value set under an ordinary key is what the match evaluator and
    the comparison then find: criteria made of that key and value match the
    disk and the comparison answers EqualTo; once the key is removed, no
    criteria that hold the key match. *)
Theorem set_description_then_match (disk : DADisk) (description : string)
  (value : CFType) (identical : bool) :
  description <> kIOPropertyMatchKey ->
  DADiskMatch w (DADiskSetDescription disk description (Some value))
    {[description := value]} = true /\
  DADiskCompareDescription (DADiskSetDescription disk description (Some value))
    description (Some value) identical = kCFCompareEqualTo /\
  (forall criteria,
     is_Some (criteria !! description) ->
     DADiskMatch w (DADiskSetDescription disk description None) criteria = false).
Proof.
  intros Hkey. split; [| split].
  - apply DADiskMatch_true, map_Forall_singleton. right. split; [exact Hkey |].
    unfold DADiskGetDescription. rewrite DADiskSetDescription_description.
    apply lookup_insert_eq.
  - unfold DADiskCompareDescription. rewrite DADiskSetDescription_description.
    rewrite lookup_insert_eq. destruct identical; [reflexivity |].
    now rewrite (proj2 (CFEqual_eq value value) eq_refl).
  - intros criteria [given Hgiven].
    destruct (DADiskMatch w _ criteria) eqn:E; [| reflexivity].
    apply DADiskMatch_true in E.
    destruct (E description given Hgiven) as [[Hk _] | [_ Hs]]; [contradiction |].
    unfold DADiskGetDescription in Hs. rewrite DADiskSetDescription_description in Hs.
    rewrite lookup_delete_eq in Hs. discriminate.
Qed.

(** X6. DADiskGetSerialization changes nothing of a disk but its cache, and
    a second call returns what the first returned and leaves the disk as the
    first left it. *)
Theorem get_serialization_again (disk : DADisk) :
  set_serialization None (snd (DADiskGetSerialization w disk))
  = set_serialization None disk /\
  DADiskGetSerialization w (snd (DADiskGetSerialization w disk))
  = DADiskGetSerialization w disk.
Proof.
  destruct (_serialization disk) as [data|] eqn:Hs.
  - rewrite (DADiskGetSerialization_cached w disk data Hs). simpl.
    rewrite (DADiskGetSerialization_cached w disk data Hs). split; reflexivity.
  - rewrite (DADiskGetSerialization_computes w disk Hs). simpl.
    destruct (_DASerializeDiskDescription w (_description disk)) as [data|] eqn:He.
    + rewrite (DADiskGetSerialization_cached w (set_serialization (Some data) disk)
                 data eq_refl). split; reflexivity.
    + rewrite (DADiskGetSerialization_computes w (set_serialization None disk) eq_refl).
      simpl. rewrite He.
      split; reflexivity.
Qed.

End Description.

(** On the concrete system: the disk stores the boolean false under
    DAMediaRemovable, so comparing with the boolean true answers LessThan. *)
Lemma compare_description_witness :
  (false = true ->
   DADiskGetDescription sample_disk "DAMediaRemovable" = Some kCFBooleanTrue) /\
  (DADiskGetDescription sample_disk "DAMediaRemovable" = None ->
   Some kCFBooleanTrue = None -> false = true) /\
  DADiskCompareDescription sample_disk "DAMediaRemovable" (Some kCFBooleanTrue) false
  = kCFCompareLessThan.
Proof.
  assert (H1 : false = true ->
               DADiskGetDescription sample_disk "DAMediaRemovable" = Some kCFBooleanTrue)
    by discriminate.
  assert (H2 : DADiskGetDescription sample_disk "DAMediaRemovable" = None ->
               Some kCFBooleanTrue = None -> false = true) by discriminate.
  split; [exact H1 | split; [exact H2 |]].
  apply (compare_description sample_disk "DAMediaRemovable" (Some kCFBooleanTrue) false
           H1 H2).
  split; [discriminate | eauto].
Defined.

(** On the concrete system: a volume name is set, matched and removed. *)
Lemma set_description_then_match_witness :
  "DAVolumeName"%string <> @kIOPropertyMatchKey sample_headers /\
  @DADiskMatch sample_headers (sample_world sample_media_properties no_hint)
    (DADiskSetDescription sample_disk "DAVolumeName" (Some (CFString "Data")))
    {["DAVolumeName"%string := CFString "Data"]} = true.
Proof.
  assert (Hkey : "DAVolumeName"%string <> @kIOPropertyMatchKey sample_headers)
    by discriminate.
  split; [exact Hkey |].
  exact (proj1 (@set_description_then_match sample_headers
                  (sample_world sample_media_properties no_hint) sample_disk
                  "DAVolumeName" (CFString "Data") false Hkey)).
Defined.

(** ** State and option flags *)

Lemma land_lnot_disjoint (flag other : Z) :
  Z.land flag other = 0 -> Z.land (Z.lnot flag) other = other.
Proof.
  intros Hdisjoint. apply Z.bits_inj'. intros n Hn.
  rewrite Z.land_spec, Z.lnot_spec by exact Hn.
  pose proof (f_equal (fun v => Z.testbit v n) Hdisjoint) as Hbit. simpl in Hbit.
  rewrite Z.land_spec, Z.bits_0 in Hbit.
  destruct (Z.testbit flag n), (Z.testbit other n); simpl in *; congruence.
Qed.

(** The word after [word &= ~flag; word |= value ? flag : 0;]. *)
Lemma flag_assigned (word flag : Z) (value : bool) :
  flag <> 0 ->
  negb (Z.land (Z.lor (Z.land word (Z.lnot flag)) (if value then flag else 0)) flag =? 0)
  = value.
Proof.
  intros Hflag. destruct value.
  - destruct (Z.eqb_spec (Z.land (Z.lor (Z.land word (Z.lnot flag)) flag) flag) 0)
      as [E | _]; [| reflexivity].
    exfalso. revert E. now apply land_lor_flag.
  - rewrite Z.lor_0_r, <- Z.land_assoc, (Z.land_comm (Z.lnot flag)), Z.land_lnot_diag,
      Z.land_0_r. reflexivity.
Qed.

Lemma flag_untouched (word flag other : Z) (value : bool) :
  Z.land flag other = 0 ->
  Z.land (Z.lor (Z.land word (Z.lnot flag)) (if value then flag else 0)) other
  = Z.land word other.
Proof.
  intros Hdisjoint.
  rewrite Z.land_lor_distr_l, <- Z.land_assoc, land_lnot_disjoint by exact Hdisjoint.
  destruct value; rewrite ?Hdisjoint, ?Z.land_0_l, Z.lor_0_r; reflexivity.
Qed.

(** In 32 bits, [~flag] is [0xFFFFFFFF - flag]. *)
Lemma land_lnot_UInt32 (word flag : Z) :
  UInt32_range word -> UInt32_range flag ->
  Z.land word (Z.lnot flag) = Z.land word (0xFFFFFFFF - flag).
Proof.
  unfold UInt32_range. intros Hword Hflag.
  replace (0xFFFFFFFF - flag) with (Z.lnot flag mod 2 ^ 32).
  - change (2 ^ 32) with (2 ^ 32) at 1. rewrite <- Z.land_ones by lia.
    rewrite Z.land_assoc, (Z.land_comm word (Z.lnot flag)), <- Z.land_assoc.
    rewrite (Z.land_ones word) by lia. rewrite Z.mod_small by exact Hword.
    reflexivity.
  - unfold Z.lnot. symmetry.
    apply (Z.mod_unique_pos _ _ (-1)); lia.
Qed.

Lemma UInt32_range_land (a b : Z) : UInt32_range a -> 0 <= b -> UInt32_range (Z.land a b).
Proof.
  unfold UInt32_range. intros Ha Hb.
  assert (Hnonneg : 0 <= Z.land a b) by (apply Z.land_nonneg; lia).
  split; [exact Hnonneg |].
  destruct (Z.eq_dec (Z.land a b) 0) as [-> | Hne]; [lia |].
  apply Z.log2_lt_pow2; [lia |].
  pose proof (Z.log2_land a b ltac:(lia) Hb).
  destruct (Z.eq_dec a 0) as [-> | Ha0]; [rewrite Z.land_0_l in Hne; contradiction |].
  assert (Z.log2 a < 32) by (apply Z.log2_lt_pow2; lia).
  lia.
Qed.

Lemma UInt32_range_lor (a b : Z) :
  UInt32_range a -> UInt32_range b -> UInt32_range (Z.lor a b).
Proof.
  unfold UInt32_range. intros Ha Hb.
  assert (Hnonneg : 0 <= Z.lor a b) by (apply Z.lor_nonneg; lia).
  split; [exact Hnonneg |].
  destruct (Z.eq_dec (Z.lor a b) 0) as [-> | Hne]; [lia |].
  apply Z.log2_lt_pow2; [lia |].
  rewrite Z.log2_lor by lia.
  assert (Z.log2 a < 32).
  { destruct (Z.eq_dec a 0) as [-> | Ha0]; [simpl; lia |].
    apply Z.log2_lt_pow2; lia. }
  assert (Z.log2 b < 32).
  { destruct (Z.eq_dec b 0) as [-> | Hb0]; [simpl; lia |].
    apply Z.log2_lt_pow2; lia. }
  lia.
Qed.

Section Flags.

Context `{Headers}.

(** X7. A state flag that is set or cleared reads back as it was written,
    and the flags that share no bit with it read as before; the same holds of
    the options, and DADiskSetOption is DADiskSetOptions. *)
Theorem set_flag_get_flag (disk : DADisk) (flag other : Z) (value : bool) :
  (flag <> 0 ->
   DADiskGetState (DADiskSetState disk flag value) flag = value /\
   DADiskGetOption (DADiskSetOptions disk flag value) flag = value) /\
  (Z.land flag other = 0 ->
   DADiskGetState (DADiskSetState disk flag value) other = DADiskGetState disk other /\
   DADiskGetOption (DADiskSetOptions disk flag value) other = DADiskGetOption disk other) /\
  DADiskSetOption disk flag value = DADiskSetOptions disk flag value.
Proof.
  unfold DADiskGetState, DADiskGetOption, DADiskSetState, DADiskSetOptions,
    DADiskSetOption. simpl.
  split; [| split; [| reflexivity]].
  - intros Hflag. split; now apply flag_assigned.
  - intros Hdisjoint. split; now rewrite flag_untouched.
Qed.

(** X8. A mask of several flags reads as set as soon as one of its flags is
    set: DADiskGetState and DADiskGetOption test for any bit of the mask, not
    for all of them. *)
Theorem get_flag_of_mask (disk : DADisk) (flag1 flag2 : Z) :
  DADiskGetState disk (Z.lor flag1 flag2)
  = DADiskGetState disk flag1 || DADiskGetState disk flag2 /\
  DADiskGetOption disk (Z.lor flag1 flag2)
  = DADiskGetOption disk flag1 || DADiskGetOption disk flag2.
Proof.
  unfold DADiskGetState, DADiskGetOption.
  rewrite !Z.land_lor_distr_r.
  split.
  - destruct (Z.eqb_spec (Z.land (_state disk) flag1) 0) as [E1 | N1];
      destruct (Z.eqb_spec (Z.land (_state disk) flag2) 0) as [E2 | N2];
      rewrite ?E1, ?E2; simpl; try reflexivity;
      match goal with
      | |- negb (?x =? 0) = true =>
          destruct (Z.eqb_spec x 0) as [E | _]; [| reflexivity];
          apply Z.lor_eq_0_iff in E as [? ?]; congruence
      end.
  - destruct (Z.eqb_spec (Z.land (_options disk) flag1) 0) as [E1 | N1];
      destruct (Z.eqb_spec (Z.land (_options disk) flag2) 0) as [E2 | N2];
      rewrite ?E1, ?E2; simpl; try reflexivity;
      match goal with
      | |- negb (?x =? 0) = true =>
          destruct (Z.eqb_spec x 0) as [E | _]; [| reflexivity];
          apply Z.lor_eq_0_iff in E as [? ?]; congruence
      end.
Qed.

(** X9. On 32-bit words the assignments of DADiskSetState and
    DADiskSetOptions stay within 32 bits, and the complement they take is the
    32-bit complement [0xFFFFFFFF - flag]. *)
Theorem set_flag_UInt32 (disk : DADisk) (flag : Z) (value : bool) :
  UInt32_range (_state disk) -> UInt32_range (_options disk) -> UInt32_range flag ->
  UInt32_range (_state (DADiskSetState disk flag value)) /\
  UInt32_range (_options (DADiskSetOptions disk flag value)) /\
  _state (DADiskSetState disk flag value)
  = Z.lor (Z.land (_state disk) (0xFFFFFFFF - flag)) (if value then flag else 0) /\
  _options (DADiskSetOptions disk flag value)
  = Z.lor (Z.land (_options disk) (0xFFFFFFFF - flag)) (if value then flag else 0).
Proof.
  intros Hstate Hoptions Hflag.
  unfold DADiskSetState, DADiskSetOptions. simpl.
  rewrite !land_lnot_UInt32 by assumption.
  assert (Hvalue : UInt32_range (if value then flag else 0))
    by (destruct value; [exact Hflag | unfold UInt32_range; lia]).
  assert (Hcomplement : 0 <= 0xFFFFFFFF - flag) by (unfold UInt32_range in Hflag; lia).
  repeat split; try reflexivity;
    try (apply UInt32_range_lor; [apply UInt32_range_land |]; assumption).
  all: apply (UInt32_range_lor _ _ (UInt32_range_land _ _ ltac:(eassumption) Hcomplement)
                Hvalue).
Qed.

End Flags.

(** On the concrete system: StagedMount is cleared on the mounted disk and
    StagedProbe is still set. *)
Lemma set_flag_get_flag_witness :
  @kDADiskStateStagedMount sample_headers <> 0 /\
  Z.land (@kDADiskStateStagedMount sample_headers)
    (@kDADiskStateStagedProbe sample_headers) = 0 /\
  DADiskGetState
    (DADiskSetState mounted_disk (@kDADiskStateStagedMount sample_headers) false)
    (@kDADiskStateStagedMount sample_headers) = false /\
  DADiskGetState
    (DADiskSetState mounted_disk (@kDADiskStateStagedMount sample_headers) false)
    (@kDADiskStateStagedProbe sample_headers)
  = DADiskGetState mounted_disk (@kDADiskStateStagedProbe sample_headers).
Proof.
  assert (Hflag : @kDADiskStateStagedMount sample_headers <> 0) by discriminate.
  assert (Hdisjoint : Z.land (@kDADiskStateStagedMount sample_headers)
                        (@kDADiskStateStagedProbe sample_headers) = 0) by reflexivity.
  split; [exact Hflag | split; [exact Hdisjoint |]].
  destruct (set_flag_get_flag mounted_disk (@kDADiskStateStagedMount sample_headers)
              (@kDADiskStateStagedProbe sample_headers) false) as (Hsame & Hother & _).
  split; [exact (proj1 (Hsame Hflag)) | exact (proj1 (Hother Hdisjoint))].
Defined.

(** On the concrete system: the state of the mounted disk with StagedProbe
    cleared is 0x3e0000. *)
Lemma set_flag_UInt32_witness :
  UInt32_range (_state mounted_disk) /\
  UInt32_range (_options mounted_disk) /\
  UInt32_range (@kDADiskStateStagedProbe sample_headers) /\
  _state (DADiskSetState mounted_disk (@kDADiskStateStagedProbe sample_headers) false)
  = Z.lor (Z.land (_state mounted_disk)
             (0xFFFFFFFF - @kDADiskStateStagedProbe sample_headers)) 0.
Proof.
  assert (H1 : UInt32_range (_state mounted_disk)) by (split; [vm_compute; discriminate | vm_compute; reflexivity]).
  assert (H2 : UInt32_range (_options mounted_disk)) by (split; [vm_compute; discriminate | vm_compute; reflexivity]).
  assert (H3 : UInt32_range (@kDADiskStateStagedProbe sample_headers))
    by (split; [vm_compute; discriminate | vm_compute; reflexivity]).
  split; [exact H1 | split; [exact H2 | split; [exact H3 |]]].
  exact (proj1 (proj2 (proj2 (set_flag_UInt32 mounted_disk
                                (@kDADiskStateStagedProbe sample_headers) false
                                H1 H2 H3)))).
Defined.

(** ** The disk of a registry entry *)

Lemma keys_here {A : Type} (x : A) (l : list A) : (x :: l) !! 0%nat = Some x.
Proof. reflexivity. Qed.

Lemma keys_further {A : Type} (x y : A) (l : list A) (i : nat) :
  l !! i = Some x -> (y :: l) !! S i = Some x.
Proof. intros E. exact E. Qed.

(** Closes [description_keys !! ?i = Some key]. *)
Ltac key_place :=
  solve [ unfold description_keys;
          repeat first [ apply keys_here | apply keys_further ] ].

(** Closes [key <> key'] for two description keys, given that the
    description keys are pairwise distinct. *)
Ltac keys_apart :=
  match goal with
  | HND : NoDup description_keys |- ?a <> ?b =>
      eapply (NoDup_lookup_ne _ _ _ a b HND); [ key_place | key_place | discriminate ]
  end.

(** Closes [key ∉ [k1; ...; kn]] likewise. *)
Ltac key_not_in :=
  unfold hardware_keys, object_keys, media_keys, device_keys, bus_keys;
  rewrite ?elem_of_app, ?elem_of_cons, ?elem_of_nil;
  intros Hin; decompose [or] Hin; clear Hin;
  try contradiction;
  match goal with
  | Heq : ?a = ?b |- False => revert Heq; change (a <> b); keys_apart
  end.

Section HardwareFrames.

Context `{Headers}.
Variable w : World.

Lemma describes_description_erased (keys : list string) (disk disk' : DADisk) :
  describes keys disk disk' ->
  _deviceNode disk' = _deviceNode disk ->
  _deviceUnit disk' = _deviceUnit disk ->
  description_erased disk' = description_erased disk.
Proof.
  intros [E _] Hnode Hunit. unfold facts_erased, description_erased in *.
  destruct disk, disk'. simpl in *. inversion E. subst. reflexivity.
Qed.

Lemma device_description_erased (device : io_service_t) (disk disk' : DADisk) :
  device_description w device disk = Ret disk' ->
  description_erased disk' = description_erased disk.
Proof.
  unfold device_description. intros E.
  apply bind_Ret in E as (properties & _ & E).
  apply bind_Ret in E as (d1 & H1 & E).
  apply bind_Ret in E as (d2 & H2 & E).
  apply bind_Ret in E as (d3 & H3 & E).
  assert (E1 : description_erased d1 = description_erased disk).
  { clear - H1. unfold device_protocol, device_internal in H1.
    steps_ret; unfold describe_optional; try destruct x0; reflexivity. }
  assert (E2 : description_erased d2 = description_erased d1).
  { clear - H2. unfold device_model in H2.
    steps_ret; unfold describe_optional;
      repeat match goal with |- context [match ?o with Some _ => _ | None => _ end] =>
               destruct o end; reflexivity. }
  assert (E3 : description_erased d3 = description_erased d2).
  { clear - H3. unfold device_path in H3. steps_ret. reflexivity. }
  assert (E4 : description_erased disk' = description_erased (device_unit w device d3)).
  { clear - E. unfold device_guid in E. steps_ret; reflexivity. }
  rewrite E4, <- E1, <- E2, <- E3. unfold device_unit, describe_optional.
  destruct (IORegistryEntrySearchCFProperty w device kIOServicePlane "IOUnit");
    reflexivity.
Qed.

Lemma bus_description_erased (device : io_service_t) (disk disk' : DADisk) :
  bus_description w device disk = Ret disk' ->
  description_erased disk' = description_erased disk.
Proof. unfold bus_description. intros E. steps_ret; reflexivity. Qed.

Lemma appearance_time_erased (disk disk' : DADisk) :
  appearance_time w disk = Ret disk' ->
  description_erased disk' = description_erased disk /\
  _description disk' = <[kDADiskDescriptionAppearanceTimeKey
                         := CFNumberDouble (CFAbsoluteTimeGetCurrent w)]> (_description disk).
Proof.
  unfold appearance_time, CFNumberCreate_Double. intros E. steps_ret.
  match goal with Hn : Some _ = Some _ |- _ => injection Hn as <- end.
  split; reflexivity.
Qed.

(** What the policy part of the construction leaves as it is. *)
Lemma policy_steps (media : io_service_t) (d4 d5 disk : DADisk) :
  owner w (device_of w media)
    (eject_upon_logout w (device_of w media) (mount_automatic w media d4)) = Ret d5 ->
  owner_mode w (device_of w media) d5 = Ret disk ->
  policy_erased disk = policy_erased d4.
Proof.
  intros H5 H6. apply owner_Ret in H5 as (P5 & _). apply owner_mode_Ret in H6.
  pose proof (hints_options w media (device_of w media) d4) as Lh.
  unfold policy_erased in *.
  destruct disk, d5, d4,
    (eject_upon_logout w (device_of w media) (mount_automatic w media _)).
  simpl in *. inversion P5. inversion H6. inversion Lh. subst. reflexivity.
Qed.

End HardwareFrames.

Section HardwareDisk.

Context `{Headers}.
Variable w : World.

Lemma strdup_strcat (s t : string) : strdup (strcat s t) = strcat s t.
Proof.
  unfold strdup, strcat. apply cstr_NulFree. apply NulFree_app; apply NulFree_cstr.
Qed.

Lemma create_disk_object_fields (media : io_service_t) (properties : gmap string CFType)
  (disk : DADisk) :
  create_disk_object w media properties = Ret disk ->
  exists object name url,
    properties !! kIOBSDNameKey = Some object /\
    CFStringGetCString object sizeof_io_name_t = Ret (Some name) /\
    CFURLCreateFromFileSystemRepresentation w (strcat (strcpy _PATH_DEV) name)
      (strlen (strcat (strcpy _PATH_DEV) name)) false = Some url /\
    _id disk = strcat (strcpy _PATH_DEV) name /\
    description_erased disk
    = description_erased
        (set_media media
           (set_devicePath (Some (strcat (strcpy _PATH_DEV) name),
                            Some (strcat (strcat (strcpy _PATH_DEV) "r") name))
              (set_device (Some url) (__DADiskCreate (strcat (strcpy _PATH_DEV) name))))) /\
    _description disk
    = <[kDADiskDescriptionVolumeNetworkKey := kCFBooleanFalse]>
        (<[_kDADiskIDKey := CFData (buffer_bytes (strcat (strcpy _PATH_DEV) name))]> ∅).
Proof.
  unfold create_disk_object. intros E. steps_ret.
  eexists _, _, _. split; [eassumption |]. split; [eassumption |].
  split; [eassumption |].
  simpl. rewrite !strdup_strcat. split; [reflexivity |]. split; [reflexivity |].
  unfold CFDataCreate. simpl. do 3 f_equal.
  apply firstn_all2. unfold buffer_bytes.
  rewrite length_app, length_map. simpl.
  assert (Hlen : forall s, NulFree s ->
                   strlen s = Z.of_nat (length (list_ascii_of_string s))).
  { clear. induction s as [| c s IH]; simpl; [reflexivity |].
    intros [Hc Hs]. apply is_nul_false in Hc. apply Z.eqb_neq in Hc.
    unfold is_nul. rewrite Hc. rewrite IH by exact Hs. lia. }
  rewrite Hlen by (unfold strcat; apply NulFree_app; apply NulFree_cstr).
  lia.
Qed.

Lemma media_description_node (media : io_service_t) (properties : gmap string CFType)
  (disk disk' : DADisk) :
  media_description w media properties disk = Ret disk' ->
  exists major minor unit,
    properties !! kIOBSDMajorKey = Some (CFNumber major) /\
    properties !! kIOBSDMinorKey = Some (CFNumber minor) /\
    properties !! kIOBSDUnitKey = Some (CFNumber unit) /\
    _deviceNode disk' = makedev (major mod 2 ^ 32) (minor mod 2 ^ 32) /\
    _deviceUnit disk' = to_signed 32 unit.
Proof.
  unfold media_description. intros E.
  apply bind_Ret in E as ([? d1] & _ & E).
  apply bind_Ret in E as ([? d2] & _ & E).
  apply bind_Ret in E as (d3 & Hnode & E).
  apply bind_Ret in E as (d4 & Hunit & E).
  assert (Hrest : _deviceNode disk' = _deviceNode d4 /\ _deviceUnit disk' = _deviceUnit d4).
  { clear Hnode Hunit.
    unfold media_icon, media_kind, media_name, media_path, describe_required in E.
    steps_ret; split; reflexivity. }
  destruct Hrest as [-> ->]. clear E.
  unfold media_bsd_node, media_bsd_unit, describe_required in *.
  steps_ret.
  repeat match goal with
    | Hn : CFNumberGetValue ?o _ = Ret _ |- _ =>
        destruct o; try discriminate Hn; simpl in Hn; injection Hn as <-
    end.
  eexists _, _, _. repeat (split; [eassumption |]).
  simpl. rewrite !to_unsigned_to_signed_32. split; reflexivity.
Qed.

(** The fields of a returned disk other than its description and its
    policy are those of the facts phases. *)
Lemma DADiskCreateFromIOMedia_steps (media : io_service_t) (disk : DADisk)
  (log : list DALogEntry) :
  DADiskCreateFromIOMedia w media = Returns (Some disk) log ->
  exists properties d0 d1 d2 d3 d4,
    IORegistryEntryCreateCFProperties w media = Some properties /\
    create_disk_object w media properties = Ret d0 /\
    media_description w media properties d0 = Ret d1 /\
    device_of w media <> 0 /\
    device_description w (device_of w media) d1 = Ret d2 /\
    bus_description w (device_of w media) d2 = Ret d3 /\
    appearance_time w d3 = Ret d4 /\
    description_erased d4 = description_erased d1 /\
    facts_erased d4 = facts_erased d0 /\
    policy_erased disk = policy_erased d4.
Proof.
  intros E. apply DADiskCreateFromIOMedia_Some in E as [E _].
  apply DADiskCreateFromIOMedia_body_Ret in E
    as (properties & d0 & d1 & d2 & d3 & d4 & d5
        & Hp & H0 & H1 & Hd & H2 & H3 & H4 & H5 & H6).
  exists properties, d0, d1, d2, d3, d4.
  repeat (split; [assumption |]).
  split; [| split].
  - apply appearance_time_erased in H4 as [-> _].
    apply bus_description_erased in H3 as ->.
    now apply device_description_erased in H2.
  - pose proof H1 as D1. apply media_description_Ret in D1 as ([D1 _] & _).
    rewrite <- D1.
    apply appearance_time_erased in H4 as [E4 _].
    apply bus_description_erased in H3 as E3.
    apply device_description_erased in H2 as E2.
    assert (E14 : description_erased d4 = description_erased d1) by congruence.
    unfold description_erased, facts_erased in *.
    destruct d4, d1. simpl in *. inversion E14. subst. reflexivity.
  - eapply policy_steps; eassumption.
Qed.

(** X10. A disk that DADiskCreateFromIOMedia returns is identified by the
    path of its BSD device: its id is the device directory followed by the BSD
    name of the media, which is also its BSD path; its raw BSD path has an "r"
    before the name; it holds the media object it was created from and the
    URL of its BSD path; it has no mount point, claim, context or file system
    yet. *)
Theorem hardware_disk_paths (media : io_service_t) (disk : DADisk)
  (log : list DALogEntry) :
  DADiskCreateFromIOMedia w media = Returns (Some disk) log ->
  exists properties name,
    IORegistryEntryCreateCFProperties w media = Some properties /\
    properties !! kIOBSDNameKey = Some (CFString name) /\
    Z.of_nat (String.length name) < sizeof_io_name_t /\
    DADiskGetID disk = cstr _PATH_DEV +:+ cstr name /\
    DADiskGetBSDPath disk false = Some (DADiskGetID disk) /\
    DADiskGetBSDPath disk true = Some (cstr _PATH_DEV +:+ "r" +:+ cstr name) /\
    DADiskGetIOMedia disk = media /\
    DADiskGetDevice disk
    = CFURLCreateFromFileSystemRepresentation w (DADiskGetID disk)
        (strlen (DADiskGetID disk)) false /\
    is_Some (DADiskGetDevice disk) /\
    DADiskGetBypath disk = None /\
    DADiskGetClaim disk = None /\
    DADiskGetContext disk = None /\
    DADiskGetContextRe disk = None /\
    DADiskGetFileSystem disk = None.
Proof.
  intros E. apply DADiskCreateFromIOMedia_steps in E
    as (properties & d0 & d1 & d2 & d3 & d4 & Hp & H0 & _ & _ & _ & _ & _ & _ & F & P).
  apply create_disk_object_fields in H0 as (object & name & url & Hn & Hs & Hu & _ & E0 & _).
  destruct object; try discriminate Hs. simpl in Hs.
  destruct (Z.ltb_spec (Z.of_nat (String.length s)) sizeof_io_name_t) as [Hfit |];
    [| discriminate Hs].
  injection Hs as <-.
  exists properties, s. split; [exact Hp |]. split; [exact Hn |]. split; [exact Hfit |].
  assert (Hfields :
            (_id disk, _devicePath disk, _media disk, _device disk)
            = (strcat (strcpy _PATH_DEV) s,
               (Some (strcat (strcpy _PATH_DEV) s),
                Some (strcat (strcat (strcpy _PATH_DEV) "r") s)),
               media, Some url) /\
            (_bypath disk, _claim disk, _context disk, _contextRe disk, _filesystem disk)
            = (None, None, None, None, None)).
  { unfold policy_erased, facts_erased, description_erased in *.
    destruct disk, d4, d0. simpl in *. inversion P. inversion F. inversion E0.
    subst. rewrite !strdup_strcat. split; reflexivity. }
  destruct Hfields as [Hfields Hnone].
  injection Hfields as Hid Hpath Hmedia Hdevice.
  injection Hnone as Hbypath Hclaim Hcontext HcontextRe Hfilesystem.
  unfold DADiskGetID, DADiskGetBSDPath, DADiskGetIOMedia, DADiskGetDevice,
    DADiskGetBypath, DADiskGetClaim, DADiskGetContext, DADiskGetContextRe,
    DADiskGetFileSystem.
  rewrite Hid, Hpath, Hmedia, Hdevice, Hbypath, Hclaim, Hcontext, HcontextRe, Hfilesystem.
  simpl. unfold strcat, strcpy.
  assert (Hcc : forall t, cstr (cstr t) = cstr t)
    by (intros t; apply cstr_NulFree, NulFree_cstr).
  assert (Hr : cstr (cstr _PATH_DEV +:+ "r") = cstr _PATH_DEV +:+ "r").
  { apply cstr_NulFree. apply NulFree_app; [apply NulFree_cstr |].
    simpl. split; [reflexivity | exact I]. }
  rewrite !Hcc. change (cstr "r") with "r"%string. rewrite Hr.
  repeat split; try reflexivity.
  - f_equal. clear. induction (cstr _PATH_DEV) as [| c p IH]; simpl; [reflexivity |].
    exact (f_equal (String c) IH).
  - unfold strcat, strcpy in Hu. rewrite Hcc in Hu. rewrite Hu. reflexivity.
  - eauto.
Qed.

(** X11. The BSD node of a disk that DADiskCreateFromIOMedia returns is
    [makedev] of the BSD major and minor numbers of the media, each read as an
    unsigned 32-bit integer, and its BSD unit is the BSD unit number of the
    media, read likewise. *)
Theorem hardware_disk_bsd_node (media : io_service_t) (disk : DADisk)
  (log : list DALogEntry) :
  DADiskCreateFromIOMedia w media = Returns (Some disk) log ->
  exists properties major minor unit,
    IORegistryEntryCreateCFProperties w media = Some properties /\
    properties !! kIOBSDMajorKey = Some (CFNumber major) /\
    properties !! kIOBSDMinorKey = Some (CFNumber minor) /\
    properties !! kIOBSDUnitKey = Some (CFNumber unit) /\
    DADiskGetBSDNode disk = makedev (major mod 2 ^ 32) (minor mod 2 ^ 32) /\
    DADiskGetBSDUnit disk = unit mod 2 ^ 32.
Proof.
  intros E. apply DADiskCreateFromIOMedia_steps in E
    as (properties & d0 & d1 & d2 & d3 & d4 & Hp & _ & H1 & _ & _ & _ & _ & E14 & _ & P).
  apply media_description_node in H1
    as (major & minor & unit & Hmajor & Hminor & Hunit & Hnode & Hu).
  exists properties, major, minor, unit.
  repeat (split; [assumption |]).
  assert (Hfields : _deviceNode disk = _deviceNode d1 /\ _deviceUnit disk = _deviceUnit d1).
  { unfold policy_erased, description_erased in *.
    destruct disk, d4, d1. simpl in *. inversion P. inversion E14. subst.
    split; reflexivity. }
  destruct Hfields as [Hn' Hu'].
  unfold DADiskGetBSDNode, DADiskGetBSDUnit. rewrite Hn', Hu', Hnode, Hu.
  split; [reflexivity | apply to_unsigned_to_signed_32].
Qed.

End HardwareDisk.

Section HardwareDescription.

Context `{Headers}.
Variable w : World.
Hypothesis HND : NoDup description_keys.

(** The facts of the media, as the media phase leaves them. *)
Lemma media_description_stores (media : io_service_t) (properties : gmap string CFType)
  (disk disk' : DADisk) :
  media_description w media properties disk = Ret disk' ->
  (forall from to, (from, to) ∈ copied_media_properties ->
                   is_Some (properties !! from) /\
                   _description disk' !! to = properties !! from) /\
  (is_Some (IORegistryEntrySearchCFProperty w media kIOServicePlane kIOMediaIconKey) /\
   _description disk' !! kDADiskDescriptionMediaIconKey
   = IORegistryEntrySearchCFProperty w media kIOServicePlane kIOMediaIconKey) /\
  (exists name, IORegistryEntryGetName w media = Some name /\
                is_Some (string_with_fallback w name) /\
                _description disk' !! kDADiskDescriptionMediaNameKey
                = string_with_fallback w name) /\
  (exists path, media_registry_path w media = Some path /\
                is_Some (string_with_fallback w path) /\
                _description disk' !! kDADiskDescriptionMediaPathKey
                = string_with_fallback w path) /\
  _description disk' !! kDADiskDescriptionMediaKindKey
  = Some (CFString (if IOObjectConformsTo w media kIODVDMediaClass
                    then kIODVDMediaClass
                    else if IOObjectConformsTo w media kIOCDMediaClass
                         then kIOCDMediaClass
                         else kIOMediaClass)) /\
  _description disk' !! kDADiskDescriptionMediaTypeKey
  = (if IOObjectConformsTo w media kIODVDMediaClass
     then properties !! kIODVDMediaTypeKey
     else if IOObjectConformsTo w media kIOCDMediaClass
          then properties !! kIOCDMediaTypeKey
          else _description disk !! kDADiskDescriptionMediaTypeKey) /\
  (IOObjectConformsTo w media kIODVDMediaClass = true ->
   is_Some (properties !! kIODVDMediaTypeKey)) /\
  (IOObjectConformsTo w media kIODVDMediaClass = false ->
   IOObjectConformsTo w media kIOCDMediaClass = true ->
   is_Some (properties !! kIOCDMediaTypeKey)).
Proof.
  unfold media_description, media_bsd_node, media_bsd_unit, media_icon, media_kind,
    media_name, media_path, describe_required, media_registry_path.
  intros E. steps_ret; simpl.
  all: repeat match goal with
         | Hc : IOObjectConformsTo _ _ _ = _ |- _ => rewrite Hc
         end.
  all: split;
    [ intros from to Hin; unfold copied_media_properties in Hin;
      repeat (apply elem_of_cons in Hin as [Heq | Hin]);
      [ injection Heq as -> -> .. | by apply elem_of_nil in Hin ];
      (split; [eauto |]);
      (rewrite ?lookup_insert_ne by keys_apart); rewrite lookup_insert_eq; congruence |].
  all: split;
    [ split; [eauto |];
      (rewrite ?lookup_insert_ne by keys_apart); rewrite lookup_insert_eq; congruence |].
  all: split;
    [ eexists; split; [eassumption |]; split; [eauto |];
      (rewrite ?lookup_insert_ne by keys_apart); rewrite lookup_insert_eq; congruence |].
  all: split;
    [ eexists; split; [eassumption |]; split; [eauto |];
      (rewrite ?lookup_insert_ne by keys_apart); rewrite lookup_insert_eq; congruence |].
  all: split;
    [ (rewrite ?lookup_insert_ne by keys_apart); rewrite lookup_insert_eq; reflexivity |].
  all: split;
    [ (rewrite ?lookup_insert_ne by keys_apart);
      first [ rewrite lookup_insert_eq; congruence | reflexivity ] |].
  all: split; intros; try discriminate; eauto.
Qed.

End HardwareDescription.

Section HardwareFacts.

Context `{Headers}.
Variable w : World.

(** The successive descriptions of a successful DADiskCreateFromIOMedia. *)
Lemma DADiskCreateFromIOMedia_facts (media : io_service_t) (disk : DADisk)
  (log : list DALogEntry) :
  DADiskCreateFromIOMedia w media = Returns (Some disk) log ->
  exists properties d0 d1 d2 d3,
    IORegistryEntryCreateCFProperties w media = Some properties /\
    create_disk_object w media properties = Ret d0 /\
    media_description w media properties d0 = Ret d1 /\
    device_of w media <> 0 /\
    device_description w (device_of w media) d1 = Ret d2 /\
    bus_description w (device_of w media) d2 = Ret d3 /\
    (forall key, key ∉ media_keys -> _description d1 !! key = _description d0 !! key) /\
    (forall key, key ∉ device_keys ++ [kDADiskDescriptionDeviceGUIDKey] ->
                 _description d2 !! key = _description d1 !! key) /\
    (forall key, key ∉ bus_keys -> _description d3 !! key = _description d2 !! key) /\
    _description disk
    = <[kDADiskDescriptionAppearanceTimeKey
        := CFNumberDouble (CFAbsoluteTimeGetCurrent w)]> (_description d3).
Proof.
  intros E. apply DADiskCreateFromIOMedia_steps in E
    as (properties & d0 & d1 & d2 & d3 & d4 & Hp & H0 & H1 & Hd & H2 & H3 & H4 & _ & _ & P).
  exists properties, d0, d1, d2, d3.
  repeat (split; [assumption |]).
  split; [| split; [| split]].
  - apply media_description_Ret in H1 as ((_ & L1) & _). exact L1.
  - apply device_description_Ret in H2 as ((d1' & (_ & L2) & G) & _).
    apply device_guid_Ret in G as ((_ & LG) & _).
    intros key Hk. rewrite elem_of_app in Hk.
    rewrite LG, L2; [reflexivity | tauto | tauto].
  - apply bus_description_Ret in H3 as ((_ & L3) & _). exact L3.
  - apply appearance_time_erased in H4 as [_ <-].
    apply (f_equal _description) in P. exact P.
Qed.

Hypothesis HND : NoDup description_keys.

Lemma describe_optional_lookup (key : string) (object : option CFType) (disk : DADisk) :
  _description disk !! key = None ->
  _description (describe_optional key object disk) !! key = object /\
  forall key', key <> key' ->
    _description (describe_optional key object disk) !! key' = _description disk !! key'.
Proof.
  intros Hnone. unfold describe_optional, describe.
  destruct object; simpl.
  - rewrite lookup_insert_eq. split; [reflexivity |].
    intros key' Hne. now rewrite lookup_insert_ne.
  - auto.
Qed.

Lemma device_protocol_stores (properties : gmap string CFType) (disk disk' : DADisk) :
  device_protocol properties disk = Ret disk' ->
  _description disk !! kDADiskDescriptionDeviceInternalKey = None ->
  _description disk !! kDADiskDescriptionDeviceProtocolKey = None ->
  _description disk' !! kDADiskDescriptionDeviceInternalKey
  = internal_of (sub_property properties kIOPropertyProtocolCharacteristicsKey
                   kIOPropertyPhysicalInterconnectLocationKey) /\
  _description disk' !! kDADiskDescriptionDeviceProtocolKey
  = sub_property properties kIOPropertyProtocolCharacteristicsKey
      kIOPropertyPhysicalInterconnectTypeKey /\
  forall key, key <> kDADiskDescriptionDeviceInternalKey ->
              key <> kDADiskDescriptionDeviceProtocolKey ->
              _description disk' !! key = _description disk !! key.
Proof.
  unfold device_protocol, device_internal, sub_property, internal_of.
  intros E Hinternal Hprotocol.
  destruct (properties !! kIOPropertyProtocolCharacteristicsKey) as [sub|];
    [| steps_ret; auto].
  destruct sub as [? | ? | ? | ? | ? | ? | g]; try discriminate E. simpl in E.
  assert (Happart : kDADiskDescriptionDeviceProtocolKey
                    <> kDADiskDescriptionDeviceInternalKey) by keys_apart.
  destruct (g !! kIOPropertyPhysicalInterconnectLocationKey) as [location|] eqn:Hl;
    [destruct location; try discriminate E; simpl in E |].
  all: unfold describe_optional, describe in E.
  all: repeat match type of E with
         | context [bool_decide ?P] => destruct (bool_decide P)
         end; simpl in E.
  all: destruct (g !! kIOPropertyPhysicalInterconnectTypeKey); simpl in E;
    injection E as <-; simpl.
  all: repeat split.
  all: try (intros key Hk1 Hk2).
  all: repeat first [ rewrite lookup_insert_eq | rewrite lookup_insert_ne by congruence ].
  all: first [assumption | reflexivity].
Qed.

Lemma device_model_stores (properties : gmap string CFType) (disk disk' : DADisk) :
  device_model properties disk = Ret disk' ->
  _description disk !! kDADiskDescriptionDeviceModelKey = None ->
  _description disk !! kDADiskDescriptionDeviceRevisionKey = None ->
  _description disk !! kDADiskDescriptionDeviceVendorKey = None ->
  _description disk' !! kDADiskDescriptionDeviceModelKey
  = sub_property properties kIOPropertyDeviceCharacteristicsKey kIOPropertyProductNameKey /\
  _description disk' !! kDADiskDescriptionDeviceRevisionKey
  = sub_property properties kIOPropertyDeviceCharacteristicsKey
      kIOPropertyProductRevisionLevelKey /\
  _description disk' !! kDADiskDescriptionDeviceVendorKey
  = sub_property properties kIOPropertyDeviceCharacteristicsKey kIOPropertyVendorNameKey /\
  forall key, key <> kDADiskDescriptionDeviceModelKey ->
              key <> kDADiskDescriptionDeviceRevisionKey ->
              key <> kDADiskDescriptionDeviceVendorKey ->
              _description disk' !! key = _description disk !! key.
Proof.
  unfold device_model, sub_property. intros E Hmodel Hrevision Hvendor.
  destruct (properties !! kIOPropertyDeviceCharacteristicsKey) as [sub|];
    [| steps_ret; auto 10].
  destruct sub as [? | ? | ? | ? | ? | ? | g]; try discriminate E. simpl in E.
  assert (Hmr : kDADiskDescriptionDeviceRevisionKey <> kDADiskDescriptionDeviceModelKey)
    by keys_apart.
  assert (Hmv : kDADiskDescriptionDeviceVendorKey <> kDADiskDescriptionDeviceModelKey)
    by keys_apart.
  assert (Hrv : kDADiskDescriptionDeviceVendorKey <> kDADiskDescriptionDeviceRevisionKey)
    by keys_apart.
  unfold describe_optional, describe in E.
  destruct (g !! kIOPropertyProductNameKey), (g !! kIOPropertyProductRevisionLevelKey),
    (g !! kIOPropertyVendorNameKey); simpl in E; injection E as <-; simpl.
  all: repeat split.
  all: try (intros key Hk1 Hk2 Hk3).
  all: repeat first [ rewrite lookup_insert_eq | rewrite lookup_insert_ne by congruence ].
  all: first [assumption | reflexivity].
Qed.

(** The facts of the device, as the device phase leaves them on a disk that
    has none yet. *)
Lemma device_description_stores (device : io_service_t) (disk disk' : DADisk) :
  device_description w device disk = Ret disk' ->
  (forall key, key ∈ device_keys -> _description disk !! key = None) ->
  _description disk' !! kDADiskDescriptionDeviceInternalKey
  = internal_of (characteristic w device kIOPropertyProtocolCharacteristicsKey
                   kIOPropertyPhysicalInterconnectLocationKey) /\
  _description disk' !! kDADiskDescriptionDeviceProtocolKey
  = characteristic w device kIOPropertyProtocolCharacteristicsKey
      kIOPropertyPhysicalInterconnectTypeKey /\
  _description disk' !! kDADiskDescriptionDeviceModelKey
  = characteristic w device kIOPropertyDeviceCharacteristicsKey kIOPropertyProductNameKey /\
  _description disk' !! kDADiskDescriptionDeviceRevisionKey
  = characteristic w device kIOPropertyDeviceCharacteristicsKey
      kIOPropertyProductRevisionLevelKey /\
  _description disk' !! kDADiskDescriptionDeviceVendorKey
  = characteristic w device kIOPropertyDeviceCharacteristicsKey kIOPropertyVendorNameKey /\
  (exists path, IORegistryEntryGetPath w device kIOServicePlane = Some path /\
                is_Some (CFStringCreateWithCString w path kCFStringEncodingUTF8) /\
                _description disk' !! kDADiskDescriptionDevicePathKey
                = CFStringCreateWithCString w path kCFStringEncodingUTF8) /\
  _description disk' !! kDADiskDescriptionDeviceUnitKey
  = IORegistryEntrySearchCFProperty w device kIOServicePlane "IOUnit".
Proof.
  unfold device_description, characteristic. intros E Hnone.
  apply bind_Ret in E as (properties & Hp & E). apply required_Ret in Hp. rewrite Hp.
  apply bind_Ret in E as (d1 & H1 & E).
  apply bind_Ret in E as (d2 & H2 & E).
  apply bind_Ret in E as (d3 & H3 & E).
  apply device_guid_Ret in E as ((_ & LG) & _).
  apply device_protocol_stores in H1 as (Hinternal & Hprotocol & L1);
    [| apply Hnone; unfold device_keys; in_list ..].
  apply device_model_stores in H2 as (Hmodel & Hrevision & Hvendor & L2);
    [| rewrite L1 by keys_apart; apply Hnone; unfold device_keys; in_list ..].
  unfold device_path in H3.
  apply bind_Ret in H3 as (path & Hpath & H3). apply required_Ret in Hpath.
  apply bind_Ret in H3 as (object & Hobject & H3). apply required_Ret in Hobject.
  apply mret_Ret in H3. subst d3.
  destruct (describe_optional_lookup kDADiskDescriptionDeviceUnitKey
              (IORegistryEntrySearchCFProperty w device kIOServicePlane "IOUnit")
              (describe kDADiskDescriptionDevicePathKey object d2)) as [Hunit L4].
  { simpl. rewrite lookup_insert_ne by keys_apart.
    rewrite L2, L1 by keys_apart. apply Hnone. unfold device_keys. in_list. }
  fold (device_unit w device (describe kDADiskDescriptionDevicePathKey object d2))
    in Hunit, L4.
  rewrite !LG by key_not_in.
  rewrite Hunit, !L4 by keys_apart. simpl.
  rewrite lookup_insert_eq, !lookup_insert_ne by keys_apart.
  rewrite Hmodel, Hrevision, Hvendor, !L2 by keys_apart.
  rewrite Hinternal, Hprotocol.
  repeat split. exists path. rewrite Hobject. eauto.
Qed.


End HardwareFacts.

Section HardwareTheorems.

Context `{Headers}.
Variable w : World.
Hypothesis HND : NoDup description_keys.

Lemma media_keys_apart (key : string) :
  key ∈ media_keys ->
  (key ∉ device_keys ++ [kDADiskDescriptionDeviceGUIDKey]) /\
  (key ∉ bus_keys) /\
  kDADiskDescriptionAppearanceTimeKey <> key.
Proof.
  unfold media_keys. intros Hin.
  repeat (apply elem_of_cons in Hin as [-> | Hin]); [ .. | by apply elem_of_nil in Hin ].
  all: split; [key_not_in | split; [key_not_in | keys_apart]].
Qed.

Lemma device_keys_apart (key : string) :
  key ∈ device_keys ++ [kDADiskDescriptionDeviceGUIDKey] ->
  (key ∉ object_keys) /\
  (key ∉ media_keys) /\
  (key ∉ bus_keys) /\
  kDADiskDescriptionAppearanceTimeKey <> key.
Proof.
  unfold device_keys. simpl. intros Hin.
  repeat (apply elem_of_cons in Hin as [-> | Hin]); [ .. | by apply elem_of_nil in Hin ].
  all: split; [key_not_in | split; [key_not_in | split; [key_not_in | keys_apart]]].
Qed.

Lemma bus_keys_apart (key : string) :
  key ∈ bus_keys ->
  (key ∉ object_keys) /\
  (key ∉ media_keys) /\
  (key ∉ device_keys ++ [kDADiskDescriptionDeviceGUIDKey]) /\
  kDADiskDescriptionAppearanceTimeKey <> key.
Proof.
  unfold bus_keys. intros Hin.
  repeat (apply elem_of_cons in Hin as [-> | Hin]); [ .. | by apply elem_of_nil in Hin ].
  all: split; [key_not_in | split; [key_not_in | split; [key_not_in | keys_apart]]].
Qed.

Lemma copied_media_properties_keys (from to : string) :
  (from, to) ∈ copied_media_properties -> to ∈ media_keys.
Proof.
  unfold copied_media_properties, media_keys. intros Hin.
  repeat (apply elem_of_cons in Hin as [Heq | Hin]);
    [ injection Heq as -> -> .. | by apply elem_of_nil in Hin ];
    in_list.
Qed.

(** The description of a returned disk under a key of the media, of the
    device or of the bus is the one its phase left. *)
Lemma DADiskCreateFromIOMedia_lookups (media : io_service_t) (disk : DADisk)
  (log : list DALogEntry) :
  DADiskCreateFromIOMedia w media = Returns (Some disk) log ->
  exists properties d0 d1 d2 d3,
    IORegistryEntryCreateCFProperties w media = Some properties /\
    create_disk_object w media properties = Ret d0 /\
    media_description w media properties d0 = Ret d1 /\
    device_of w media <> 0 /\
    device_description w (device_of w media) d1 = Ret d2 /\
    bus_description w (device_of w media) d2 = Ret d3 /\
    (forall key, key ∈ media_keys -> _description disk !! key = _description d1 !! key) /\
    (forall key, key ∈ device_keys ++ [kDADiskDescriptionDeviceGUIDKey] ->
                 _description d1 !! key = None /\
                 _description disk !! key = _description d2 !! key) /\
    (forall key, key ∈ bus_keys ->
                 _description d2 !! key = None /\
                 _description disk !! key = _description d3 !! key).
Proof.
  intros E. pose proof E as E'.
  apply DADiskCreateFromIOMedia_facts in E
    as (properties & d0 & d1 & d2 & d3 & Hp & H0 & H1 & Hd & H2 & H3 & L1 & L2 & L3 & L4).
  exists properties, d0, d1, d2, d3.
  repeat (split; [assumption |]).
  apply create_disk_object_Ret in H0 as (_ & _ & L0).
  split; [| split].
  - intros key Hin. apply media_keys_apart in Hin as (N2 & N3 & N4).
    rewrite L4, lookup_insert_ne by exact N4. rewrite L3, L2 by assumption. reflexivity.
  - intros key Hin. pose proof Hin as Hin'.
    apply device_keys_apart in Hin as (N0 & N1 & N3 & N4).
    split.
    + rewrite L1, L0 by assumption. reflexivity.
    + rewrite L4, lookup_insert_ne by exact N4. rewrite L3 by assumption. reflexivity.
  - intros key Hin. apply bus_keys_apart in Hin as (N0 & N1 & N2 & N4).
    split.
    + rewrite L2, L1, L0 by assumption. reflexivity.
    + rewrite L4, lookup_insert_ne by exact N4. reflexivity.
Qed.

(** X12. When the description keys are pairwise distinct, a disk that
    DADiskCreateFromIOMedia returns describes each of the twelve media
    properties it requires by the very object the registry gives, under the
    description key that goes with the property; its media icon is what the
    search through the parents of the media finds, its media name is the
    registry name of the media and its media path is the path of the media in
    the device tree plane and, without one, in the service plane. *)
Theorem hardware_media_facts (media : io_service_t) (disk : DADisk)
  (log : list DALogEntry) :
  DADiskCreateFromIOMedia w media = Returns (Some disk) log ->
  exists properties name path,
    IORegistryEntryCreateCFProperties w media = Some properties /\
    (forall from to, (from, to) ∈ copied_media_properties ->
                     is_Some (properties !! from) /\
                     DADiskGetDescription disk to = properties !! from) /\
    is_Some (DADiskGetDescription disk kDADiskDescriptionMediaIconKey) /\
    DADiskGetDescription disk kDADiskDescriptionMediaIconKey
    = IORegistryEntrySearchCFProperty w media kIOServicePlane kIOMediaIconKey /\
    IORegistryEntryGetName w media = Some name /\
    is_Some (DADiskGetDescription disk kDADiskDescriptionMediaNameKey) /\
    DADiskGetDescription disk kDADiskDescriptionMediaNameKey
    = string_with_fallback w name /\
    media_registry_path w media = Some path /\
    is_Some (DADiskGetDescription disk kDADiskDescriptionMediaPathKey) /\
    DADiskGetDescription disk kDADiskDescriptionMediaPathKey
    = string_with_fallback w path.
Proof.
  intros E. apply DADiskCreateFromIOMedia_lookups in E
    as (properties & d0 & d1 & d2 & d3 & Hp & _ & H1 & _ & _ & _ & L & _).
  apply (media_description_stores w HND) in H1
    as (Hcopied & (Hi & Hicon) & (name & Hn & Hns & Hname) & (path & Hq & Hqs & Hpath) & _).
  exists properties, name, path. unfold DADiskGetDescription.
  rewrite !L by (unfold media_keys; in_list).
  rewrite Hicon, Hname, Hpath.
  repeat (split; [assumption |]).
  split; [| auto 10].
  intros from to Hin. rewrite L by (eapply copied_media_properties_keys; eassumption).
  auto.
Qed.

(** X13. When the description keys are pairwise distinct, the media kind
    of a disk that DADiskCreateFromIOMedia returns is the DVD media class when
    the media conforms to it, else the CD media class when the media conforms
    to that one, else the media class; its media type is the type property of
    the DVD or of the CD, and a disk of neither kind has no media type. *)
Theorem hardware_media_kind (media : io_service_t) (disk : DADisk)
  (log : list DALogEntry) :
  DADiskCreateFromIOMedia w media = Returns (Some disk) log ->
  exists properties,
    IORegistryEntryCreateCFProperties w media = Some properties /\
    if IOObjectConformsTo w media kIODVDMediaClass
    then DADiskGetDescription disk kDADiskDescriptionMediaKindKey
         = Some (CFString kIODVDMediaClass) /\
         DADiskGetDescription disk kDADiskDescriptionMediaTypeKey
         = properties !! kIODVDMediaTypeKey /\
         is_Some (properties !! kIODVDMediaTypeKey)
    else if IOObjectConformsTo w media kIOCDMediaClass
    then DADiskGetDescription disk kDADiskDescriptionMediaKindKey
         = Some (CFString kIOCDMediaClass) /\
         DADiskGetDescription disk kDADiskDescriptionMediaTypeKey
         = properties !! kIOCDMediaTypeKey /\
         is_Some (properties !! kIOCDMediaTypeKey)
    else DADiskGetDescription disk kDADiskDescriptionMediaKindKey
         = Some (CFString kIOMediaClass) /\
         DADiskGetDescription disk kDADiskDescriptionMediaTypeKey = None.
Proof.
  intros E. apply DADiskCreateFromIOMedia_lookups in E
    as (properties & d0 & d1 & d2 & d3 & Hp & H0 & H1 & _ & _ & _ & L & _).
  apply create_disk_object_Ret in H0 as (_ & _ & L0).
  apply (media_description_stores w HND) in H1
    as (_ & _ & _ & _ & Hkind & Htype & Hdvd & Hcd).
  exists properties. split; [exact Hp |]. unfold DADiskGetDescription.
  rewrite !L by (unfold media_keys; in_list).
  rewrite Hkind, Htype.
  destruct (IOObjectConformsTo w media kIODVDMediaClass);
    [| destruct (IOObjectConformsTo w media kIOCDMediaClass)]; auto.
  split; [reflexivity |]. apply L0. key_not_in.
Qed.

(** X14. When the description keys are pairwise distinct, a disk that
    DADiskCreateFromIOMedia returns describes its device, the first block
    storage device above the media, from the properties of that device: it is
    internal when the protocol characteristics locate the interconnect as
    Internal, not internal when they locate it as External, and neither
    without such a location; protocol, model, revision and vendor are the
    entries of the protocol and of the device characteristics, absent when
    the registry has none; the device path is the service-plane path of the
    device and the device unit is the IOUnit found above the device. *)
Theorem hardware_device_facts (media : io_service_t) (disk : DADisk)
  (log : list DALogEntry) :
  DADiskCreateFromIOMedia w media = Returns (Some disk) log ->
  let device := device_of w media in
  device <> 0 /\
  IOObjectConformsTo w device kIOBlockStorageDeviceClass = true /\
  DADiskGetDescription disk kDADiskDescriptionDeviceInternalKey
  = internal_of (characteristic w device kIOPropertyProtocolCharacteristicsKey
                   kIOPropertyPhysicalInterconnectLocationKey) /\
  DADiskGetDescription disk kDADiskDescriptionDeviceProtocolKey
  = characteristic w device kIOPropertyProtocolCharacteristicsKey
      kIOPropertyPhysicalInterconnectTypeKey /\
  DADiskGetDescription disk kDADiskDescriptionDeviceModelKey
  = characteristic w device kIOPropertyDeviceCharacteristicsKey kIOPropertyProductNameKey /\
  DADiskGetDescription disk kDADiskDescriptionDeviceRevisionKey
  = characteristic w device kIOPropertyDeviceCharacteristicsKey
      kIOPropertyProductRevisionLevelKey /\
  DADiskGetDescription disk kDADiskDescriptionDeviceVendorKey
  = characteristic w device kIOPropertyDeviceCharacteristicsKey kIOPropertyVendorNameKey /\
  (exists path, IORegistryEntryGetPath w device kIOServicePlane = Some path /\
                is_Some (DADiskGetDescription disk kDADiskDescriptionDevicePathKey) /\
                DADiskGetDescription disk kDADiskDescriptionDevicePathKey
                = CFStringCreateWithCString w path kCFStringEncodingUTF8) /\
  DADiskGetDescription disk kDADiskDescriptionDeviceUnitKey
  = IORegistryEntrySearchCFProperty w device kIOServicePlane "IOUnit".
Proof.
  intros E device. apply DADiskCreateFromIOMedia_lookups in E
    as (properties & d0 & d1 & d2 & d3 & _ & _ & _ & Hd & H2 & _ & _ & L & _).
  fold device in Hd, H2.
  split; [exact Hd |]. split.
  { clear - Hd. unfold device, device_of in *.
    induction (parents w media) as [| entry rest IH]; simpl in *; [contradiction |].
    destruct (entry =? 0); [contradiction |].
    destruct (IOObjectConformsTo w entry kIOBlockStorageDeviceClass) eqn:Hc;
      [exact Hc | auto]. }
  apply (device_description_stores w HND) in H2
    as (Hinternal & Hprotocol & Hmodel & Hrevision & Hvendor
        & (path & Hpath & Hps & Hdp) & Hunit);
    [| intros key Hin; apply L; rewrite elem_of_app; auto].
  assert (Ld : forall key, key ∈ device_keys ->
                           _description disk !! key = _description d2 !! key)
    by (intros key Hin; apply L; rewrite elem_of_app; auto).
  unfold DADiskGetDescription.
  rewrite !Ld by (unfold device_keys; in_list).
  repeat (split; [assumption |]).
  split; [| assumption].
  exists path. rewrite Hdp. auto.
Qed.

End HardwareTheorems.

Section HardwareOther.

Context `{Headers}.
Variable w : World.

(** X16. A disk that DADiskCreateFromIOMedia returns describes nothing
    but what the construction stores: under a key that is none of the object,
    media, device, GUID, bus and appearance time keys its description has no
    entry. *)
Theorem hardware_description_keys (media : io_service_t) (disk : DADisk)
  (log : list DALogEntry) (key : string) :
  DADiskCreateFromIOMedia w media = Returns (Some disk) log ->
  key ∉ hardware_keys ->
  DADiskGetDescription disk key = None.
Proof.
  intros E Hk. apply DADiskCreateFromIOMedia_facts in E
    as (properties & d0 & d1 & d2 & d3 & _ & H0 & _ & _ & _ & _ & L1 & L2 & L3 & L4).
  apply create_disk_object_Ret in H0 as (_ & _ & L0).
  unfold hardware_keys in Hk. rewrite !elem_of_app in Hk.
  unfold DADiskGetDescription.
  rewrite L4, lookup_insert_ne by (intros Heq; apply Hk; rewrite <- Heq;
                                   do 5 right; in_list).
  rewrite L3, L2, L1, L0; [reflexivity | ..]; rewrite ?elem_of_app; tauto.
Qed.

(** X17. The mode of a disk that DADiskCreateFromIOMedia returns is the
    number of the owner-mode hint found above its device, read as an [int]
    and converted to [mode_t]; without the hint it is 0755. *)
Theorem hardware_disk_mode (media : io_service_t) (disk : DADisk)
  (log : list DALogEntry) :
  DADiskCreateFromIOMedia w media = Returns (Some disk) log ->
  match IORegistryEntrySearchCFProperty w (device_of w media) kIOServicePlane
          "owner-mode" with
  | Some object =>
      exists n, object = CFNumber n /\
                DADiskGetMode disk = mode_t_of_int (to_signed 32 n)
  | None => DADiskGetMode disk = 493 (* 0755 *)
  end.
Proof.
  intros E. apply DADiskCreateFromIOMedia_Some in E as [E _].
  apply DADiskCreateFromIOMedia_body_Ret in E
    as (properties & d0 & d1 & d2 & d3 & d4 & d5
        & _ & H0 & H1 & _ & H2 & H3 & H4 & H5 & H6).
  pose proof (facts_pristine w _ _ _ _ _ _ _ H0 H1 H2 H3 H4) as (_ & _ & _ & Hm & _).
  apply owner_Ret in H5 as (_ & _ & Hm5 & _).
  assert (Hm' : _mode d5 = 493).
  { rewrite Hm5.
    pose proof (f_equal _mode (hints_options w media (device_of w media) d4)) as Lh.
    simpl in Lh. congruence. }
  unfold owner_mode in H6. unfold DADiskGetMode.
  destruct (IORegistryEntrySearchCFProperty w (device_of w media) kIOServicePlane
              "owner-mode") as [object|].
  - apply bind_Ret in H6 as (mode & Hn & H6). apply mret_Ret in H6. subst disk.
    destruct object; try discriminate Hn. simpl in Hn. injection Hn as <-.
    eexists. split; reflexivity.
  - apply mret_Ret in H6. congruence.
Qed.

Hypothesis HND : NoDup description_keys.

(** X18. When the description keys are pairwise distinct, a disk that
    DADiskCreateFromIOMedia returns describes its id as the bytes of the id
    with their terminating NUL, is described as not on the network and as
    having appeared at the current time, and has neither a volume path nor a
    mountable fact. *)
Theorem hardware_object_facts (media : io_service_t) (disk : DADisk)
  (log : list DALogEntry) :
  DADiskCreateFromIOMedia w media = Returns (Some disk) log ->
  DADiskGetDescription disk _kDADiskIDKey
  = Some (CFData (buffer_bytes (DADiskGetID disk))) /\
  DADiskGetDescription disk kDADiskDescriptionVolumeNetworkKey = Some kCFBooleanFalse /\
  DADiskGetDescription disk kDADiskDescriptionAppearanceTimeKey
  = Some (CFNumberDouble (CFAbsoluteTimeGetCurrent w)) /\
  DADiskGetDescription disk kDADiskDescriptionVolumePathKey = None /\
  DADiskGetDescription disk kDADiskDescriptionVolumeMountableKey = None.
Proof.
  intros E.
  assert (Hpath : DADiskGetDescription disk kDADiskDescriptionVolumePathKey = None)
    by (eapply hardware_description_keys; [exact E | key_not_in]).
  assert (Hmountable :
            DADiskGetDescription disk kDADiskDescriptionVolumeMountableKey = None)
    by (eapply hardware_description_keys; [exact E | key_not_in]).
  pose proof E as E'. apply DADiskCreateFromIOMedia_steps in E'
    as (properties' & d0' & d1' & d2' & d3' & d4' & Hp' & H0' & _ & _ & _ & _ & _ & _
        & F & P).
  apply DADiskCreateFromIOMedia_facts in E
    as (properties & d0 & d1 & d2 & d3 & Hp & H0 & _ & _ & _ & _ & L1 & L2 & L3 & L4).
  assert (properties' = properties) by congruence. subst properties'.
  assert (d0' = d0) by congruence. subst d0'.
  assert (Hid : _id disk = _id d0).
  { unfold policy_erased, facts_erased in *.
    destruct disk, d4', d0. simpl in *. inversion P. inversion F. subst. reflexivity. }
  apply create_disk_object_fields in H0 as (object & name & url & _ & _ & _ & Hid0 & _ & L0).
  repeat split; try assumption; unfold DADiskGetDescription, DADiskGetID.
  - rewrite L4, lookup_insert_ne by keys_apart.
    rewrite L3, L2, L1, L0 by key_not_in.
    rewrite lookup_insert_ne, lookup_insert_eq by keys_apart.
    rewrite Hid, Hid0. reflexivity.
  - rewrite L4, lookup_insert_ne by keys_apart.
    rewrite L3, L2, L1, L0 by key_not_in.
    apply lookup_insert_eq.
  - rewrite L4. apply lookup_insert_eq.
Qed.

End HardwareOther.

(** ** The disk of a mounted volume *)

Section VolumeDisk.

Context `{Headers}.
Variable w : World.

Lemma DADiskCreateFromVolumePath_Some (path : option CFType) (disk : DADisk)
  (log : list DALogEntry) :
  DADiskCreateFromVolumePath w path = Returns (Some disk) log ->
  exists url _path fs,
    path = Some url /\
    ___CFURLCopyFileSystemRepresentation w url = Some _path /\
    ___statfs w _path MNT_NOWAIT = Some fs /\
    let disk0 :=
      describe kDADiskDescriptionVolumeNetworkKey
        (CFBoolean (Z.land (f_flags fs) MNT_LOCAL =? 0))
        (describe kDADiskDescriptionVolumeMountableKey kCFBooleanTrue
           (describe kDADiskDescriptionVolumePathKey url
              (set_bypath (Some url) (__DADiskCreate (f_mntonname fs))))) in
    set_state 0 (policy_erased disk) = set_state 0 (policy_erased disk0) /\
    _options disk = 0 /\
    _mode disk = 493 /\
    (_userEUID disk, _userEGID disk, _userRUID disk, _userRGID disk)
    = match getpwuid w (f_owner fs) with
      | Some user => (pw_uid user, pw_gid user, pw_uid user, pw_gid user)
      | None => (___UID_ROOT, ___GID_ADMIN, ___UID_ROOT, ___GID_ADMIN)
      end.
Proof.
  unfold DADiskCreateFromVolumePath. intros E.
  destruct path as [url|]; [| discriminate].
  destruct (___CFURLCopyFileSystemRepresentation w url) as [_path|] eqn:Hrep;
    [| discriminate].
  destruct (___statfs w _path MNT_NOWAIT) as [fs|] eqn:Hfs; [| discriminate].
  exists url, _path, fs. repeat (split; [first [reflexivity | assumption] |]).
  destruct (getpwuid w (f_owner fs)), (Z.land (f_flags fs) MNT_LOCAL =? 0);
    injection E as <- _; simpl; repeat split; reflexivity.
Qed.

(** X19. A disk that DADiskCreateFromVolumePath returns keeps the URL it
    was given as its mount point, has no BSD path, device, media, node or
    unit and no option set, has mode 0755, and belongs to the owner of the
    file system when the password database knows that user, to root and the
    admin group otherwise. *)
Theorem volume_disk_fields (path : option CFType) (disk : DADisk)
  (log : list DALogEntry) :
  DADiskCreateFromVolumePath w path = Returns (Some disk) log ->
  exists url _path fs,
    path = Some url /\
    ___CFURLCopyFileSystemRepresentation w url = Some _path /\
    ___statfs w _path MNT_NOWAIT = Some fs /\
    DADiskGetBypath disk = Some url /\
    (forall raw, DADiskGetBSDPath disk raw = None) /\
    DADiskGetDevice disk = None /\
    DADiskGetIOMedia disk = 0 /\
    DADiskGetBSDNode disk = 0 /\
    DADiskGetBSDUnit disk = 0xFFFFFFFF /\
    DADiskGetOptions disk = 0 /\
    DADiskGetMode disk = 493 (* 0755 *) /\
    match getpwuid w (f_owner fs) with
    | Some user =>
        DADiskGetUserEUID disk = pw_uid user /\ DADiskGetUserEGID disk = pw_gid user /\
        DADiskGetUserRUID disk = pw_uid user /\ DADiskGetUserRGID disk = pw_gid user
    | None =>
        DADiskGetUserEUID disk = ___UID_ROOT /\ DADiskGetUserEGID disk = ___GID_ADMIN /\
        DADiskGetUserRUID disk = ___UID_ROOT /\ DADiskGetUserRGID disk = ___GID_ADMIN
    end.
Proof.
  intros E. apply DADiskCreateFromVolumePath_Some in E
    as (url & _path & fs & Hpath & Hrep & Hfs & E & Hoptions & Hmode & Husers).
  exists url, _path, fs. repeat (split; [assumption |]).
  assert (Hfields :
            (_bypath disk, _devicePath disk, _device disk, _media disk, _deviceNode disk,
             _deviceUnit disk)
            = (Some url, (None, None), None, 0, 0, -1)).
  { unfold policy_erased in E. destruct disk. simpl in *. inversion E. reflexivity. }
  injection Hfields as Hbypath Hbsd Hdevice Hmedia Hnode Hunit.
  unfold DADiskGetBypath, DADiskGetBSDPath, DADiskGetDevice, DADiskGetIOMedia,
    DADiskGetBSDNode, DADiskGetBSDUnit, DADiskGetOptions, DADiskGetMode,
    DADiskGetUserEUID, DADiskGetUserEGID, DADiskGetUserRUID, DADiskGetUserRGID.
  rewrite Hbypath, Hbsd, Hdevice, Hmedia, Hnode, Hunit, Hoptions, Hmode.
  repeat (split; [first [reflexivity | intros []; reflexivity] |]).
  destruct (getpwuid w (f_owner fs)); injection Husers as -> -> -> ->; auto.
Qed.

(** X20. Two paths on the same mount point give equal disks with the same
    hash, and paths on different mount points give unequal disks: a volume is
    identified by where it is mounted, not by the path that was asked
    about. *)
Theorem volume_disks_of_one_mount (path1 path2 : option CFType) (disk1 disk2 : DADisk)
  (log1 log2 : list DALogEntry) :
  DADiskCreateFromVolumePath w path1 = Returns (Some disk1) log1 ->
  DADiskCreateFromVolumePath w path2 = Returns (Some disk2) log2 ->
  mount_point w path1 = Some (DADiskGetID disk1) /\
  mount_point w path2 = Some (DADiskGetID disk2) /\
  (__DADiskEqual disk1 disk2 = true <-> mount_point w path1 = mount_point w path2) /\
  (mount_point w path1 = mount_point w path2 ->
   __DADiskHash w disk1 = __DADiskHash w disk2).
Proof.
  intros E1 E2.
  apply DADiskCreateFromVolumePath_Some in E1
    as (u1 & p1 & f1 & -> & Hr1 & Hs1 & E1 & _).
  apply DADiskCreateFromVolumePath_Some in E2
    as (u2 & p2 & f2 & -> & Hr2 & Hs2 & E2 & _).
  assert (Hid1 : _id disk1 = cstr (f_mntonname f1)).
  { unfold policy_erased in E1. destruct disk1. simpl in *. inversion E1. reflexivity. }
  assert (Hid2 : _id disk2 = cstr (f_mntonname f2)).
  { unfold policy_erased in E2. destruct disk2. simpl in *. inversion E2. reflexivity. }
  assert (Hcc : forall t, cstr (cstr t) = cstr t)
    by (intros t; apply cstr_NulFree, NulFree_cstr).
  unfold mount_point, DADiskGetID. simpl. rewrite Hr1, Hr2. simpl. rewrite Hs1, Hs2. simpl.
  rewrite Hid1, Hid2.
  split; [reflexivity |]. split; [reflexivity |]. split.
  - unfold __DADiskEqual. rewrite Z.eqb_eq, strcmp_zero, Hid1, Hid2, !Hcc.
    split; congruence.
  - intros Heq. injection Heq as Heq.
    unfold __DADiskHash. rewrite Hid1, Hid2, Heq. reflexivity.
Qed.

Hypothesis HND : NoDup description_keys.

(** X21. When the description keys are pairwise distinct, a disk that
    DADiskCreateFromVolumePath returns describes its volume path as the URL it
    was given, is described as mountable, and as on the network exactly when
    the mount is not local; it has no fact of a media, a device or a bus and
    no appearance time. *)
Theorem volume_disk_facts (path : option CFType) (disk : DADisk)
  (log : list DALogEntry) :
  DADiskCreateFromVolumePath w path = Returns (Some disk) log ->
  exists url _path fs,
    path = Some url /\
    ___CFURLCopyFileSystemRepresentation w url = Some _path /\
    ___statfs w _path MNT_NOWAIT = Some fs /\
    DADiskGetDescription disk kDADiskDescriptionVolumePathKey = Some url /\
    DADiskGetDescription disk kDADiskDescriptionVolumeMountableKey
    = Some kCFBooleanTrue /\
    DADiskGetDescription disk kDADiskDescriptionVolumeNetworkKey
    = Some (CFBoolean (Z.land (f_flags fs) MNT_LOCAL =? 0)) /\
    forall key,
      key ∈ media_keys ++ device_keys ++ [kDADiskDescriptionDeviceGUIDKey] ++ bus_keys
            ++ [kDADiskDescriptionAppearanceTimeKey] ->
      DADiskGetDescription disk key = None.
Proof.
  intros E. apply DADiskCreateFromVolumePath_Some in E
    as (url & _path & fs & Hpath & Hrep & Hfs & E & _).
  exists url, _path, fs. repeat (split; [assumption |]).
  assert (Hd : _description disk
               = <[kDADiskDescriptionVolumeNetworkKey
                   := CFBoolean (Z.land (f_flags fs) MNT_LOCAL =? 0)]>
                   (<[kDADiskDescriptionVolumeMountableKey := kCFBooleanTrue]>
                      (<[kDADiskDescriptionVolumePathKey := url]>
                         (<[_kDADiskIDKey
                            := CFData (take (Z.to_nat (strlen (f_mntonname fs) + 1))
                                         (buffer_bytes (f_mntonname fs)))]> ∅)))).
  { unfold policy_erased in E. destruct disk. simpl in *. inversion E. reflexivity. }
  unfold DADiskGetDescription. rewrite Hd.
  split; [| split; [| split]].
  - rewrite !lookup_insert_ne by keys_apart. apply lookup_insert_eq.
  - rewrite lookup_insert_ne by keys_apart. apply lookup_insert_eq.
  - apply lookup_insert_eq.
  - intros key Hin. unfold media_keys, device_keys, bus_keys in Hin. simpl in Hin.
    repeat (apply elem_of_cons in Hin as [-> | Hin]);
      [ .. | by apply elem_of_nil in Hin ];
      rewrite !lookup_insert_ne by keys_apart; apply lookup_empty.
Qed.

End VolumeDisk.

(** ** The log line of a disk *)

Section DiskLog.

Context `{Headers}.
Variable w : World.
Variable lw : LogWorld.

(** X22. DADiskLog hands a line to the log only for a disk that is
    described as mountable and has a BSD name, which has to be a string; the
    line ends, after the column that is padded to 80 characters and a space,
    with the file system path of the volume path and, for a disk without a
    volume path, with [not mounted]. *)
Theorem disk_log_line (disk : DADisk) :
  (DADiskGetDescription disk kDADiskDescriptionVolumeMountableKey <> Some kCFBooleanTrue ->
   DADiskLog lw disk = Ret None) /\
  (DADiskGetDescription disk kDADiskDescriptionMediaBSDNameKey = None ->
   DADiskLog lw disk = Ret None) /\
  (forall line,
     DADiskLog lw disk = Ret (Some line) ->
     DADiskGetDescription disk kDADiskDescriptionVolumeMountableKey = Some kCFBooleanTrue /\
     (exists name,
        DADiskGetDescription disk kDADiskDescriptionMediaBSDNameKey
        = Some (CFString name)) /\
     exists columns,
       line = ___CFStringPad lw columns " " 80 0 +:+ " "
              +:+ match DADiskGetDescription disk kDADiskDescriptionVolumePathKey with
                  | Some url =>
                      match CFURLCopyFileSystemPath lw url with
                      | Some path => path
                      | None => ""
                      end
                  | None => "[not mounted]"
                  end).
Proof.
  unfold DADiskLog.
  destruct (is_kCFBooleanTrue
              (DADiskGetDescription disk kDADiskDescriptionVolumeMountableKey)) eqn:Hm.
  - apply is_kCFBooleanTrue_spec in Hm. split; [intros Hn; contradiction |].
    split; [intros ->; reflexivity |].
    intros line E. split; [exact Hm |].
    destruct (DADiskGetDescription disk kDADiskDescriptionMediaBSDNameKey)
      as [component|]; [| discriminate E].
    apply bind_Ret in E as (s1 & H1 & E).
    apply bind_Ret in E as (s2 & H2 & E).
    apply bind_Ret in E as (s3 & H3 & E).
    apply mret_Ret in E. injection E as <-.
    destruct component; try discriminate H1.
    split; [eauto |].
    exists s3.
    assert (Happ : forall a b c : string, (a +:+ b) +:+ c = a +:+ b +:+ c).
    { clear. induction a as [| ch a IH]; intros b c; simpl; [reflexivity |].
      exact (f_equal (String ch) (IH b c)). }
    destruct (DADiskGetDescription disk kDADiskDescriptionVolumePathKey) as [url|].
    + destruct (CFURLCopyFileSystemPath lw url).
      * apply Happ.
      * reflexivity.
    + apply Happ.
  - split; [reflexivity |]. split; [reflexivity |]. discriminate.
Qed.

Hypothesis HND : NoDup description_keys.

(** X23. When the description keys are pairwise distinct, DADiskLog has
    no line for a disk as either constructor returns it: the disk of a
    registry entry is not described as mountable, and the disk of a volume
    path has no BSD name. *)
Theorem created_disk_not_logged (disk : DADisk) :
  created w disk -> DADiskLog lw disk = Ret None.
Proof.
  intros [media log E | path log E].
  - apply (proj1 (disk_log_line disk)).
    apply (hardware_object_facts w HND) in E as (_ & _ & _ & _ & ->). discriminate.
  - apply (proj1 (proj2 (disk_log_line disk))).
    apply (volume_disk_facts w HND) in E as (url & _path & fs & _ & _ & _ & _ & _ & _ & L).
    apply L. unfold media_keys. rewrite elem_of_app. left. in_list.
Qed.

End DiskLog.

(** ** Matching, composed *)

Section MatchComposition.

Context `{Headers}.
Variable w : World.

(** X24. Criteria compose: a disk that matches criteria matches every part
    of them, and it matches the union of two criteria with no key in common
    exactly when it matches both. *)
Theorem match_composition (disk : DADisk) (criteria1 criteria2 : gmap string CFType) :
  (criteria1 ⊆ criteria2 ->
   DADiskMatch w disk criteria2 = true -> DADiskMatch w disk criteria1 = true) /\
  (criteria1 ##ₘ criteria2 ->
   DADiskMatch w disk (criteria1 ∪ criteria2)
   = DADiskMatch w disk criteria1 && DADiskMatch w disk criteria2).
Proof.
  split.
  - rewrite !DADiskMatch_true. intros Hsub Hall key value Hk.
    apply Hall. eapply lookup_weaken; eassumption.
  - intros Hdisjoint. apply Bool.eq_iff_eq_true.
    rewrite andb_true_iff, !DADiskMatch_true. now apply map_Forall_union.
Qed.

(** X25. A disk matches its own description, and every part of it, as
    long as the special key of the registry match is left out; with that key
    in its description the disk matches its description exactly when the
    registry predicate holds of the media and the stored value. *)
Theorem match_own_description (disk : DADisk) (criteria : gmap string CFType) :
  (criteria ⊆ delete kIOPropertyMatchKey (_description disk) ->
   DADiskMatch w disk criteria = true) /\
  (is_Some (DADiskGetDescription disk kIOPropertyMatchKey) ->
   DADiskMatch w disk (_description disk)
   = IOServiceMatchPropertyTable w (DADiskGetIOMedia disk)
       (DADiskGetDescription disk kIOPropertyMatchKey)).
Proof.
  split.
  - intros Hsub. apply DADiskMatch_true. intros key value Hk.
    eapply lookup_weaken in Hk; [| exact Hsub].
    apply lookup_delete_Some in Hk as [Hne Hk].
    right. split; [congruence | exact Hk].
  - intros [value Hv]. apply Bool.eq_iff_eq_true. rewrite DADiskMatch_true.
    unfold DADiskGetIOMedia. split.
    + intros Hall. destruct (Hall _ _ Hv) as [[_ Hm] | [Hne _]];
        [exact Hm | contradiction].
    + intros Hm key value' Hk.
      destruct (decide (key = kIOPropertyMatchKey)) as [-> | Hne].
      * left. split; [reflexivity | exact Hm].
      * right. split; [exact Hne | exact Hk].
Qed.

End MatchComposition.

(** ** What a failed construction logs *)





Section ErrorLog.

Context `{Headers}.
Variable w : World.








End ErrorLog.

(** ** Why a construction fails *)


Section Failure.

Context `{Headers}.
Variable w : World.








End Failure.

Section Bus.

Context `{Headers}.
Variable w : World.
Hypothesis HND : NoDup description_keys.


End Bus.

(** ** The reference slots *)

Section Slots.

Context `{Headers}.

(** X27. The setters of the mount point, the claim, the two contexts and
    the file system release what the slot holds and retain what they are
    given, which leaves the slot holding exactly what was given, NULL
    included: each is an assignment to its slot, reads back through its
    getter, overwrites an earlier value and leaves the other slots alone. *)
Theorem set_slot_get_slot (disk : DADisk) (object object' : option CFType) :
  (DADiskSetBypath disk object = set_bypath object disk /\
   DADiskSetClaim disk object = set_claim object disk /\
   DADiskSetContext disk object = set_context object disk /\
   DADiskSetContextRe disk object = set_contextRe object disk /\
   DADiskSetFileSystem disk object = set_filesystem object disk) /\
  (DADiskGetBypath (DADiskSetBypath disk object) = object /\
   DADiskGetClaim (DADiskSetClaim disk object) = object /\
   DADiskGetContext (DADiskSetContext disk object) = object /\
   DADiskGetContextRe (DADiskSetContextRe disk object) = object /\
   DADiskGetFileSystem (DADiskSetFileSystem disk object) = object) /\
  (DADiskSetBypath (DADiskSetBypath disk object') object = DADiskSetBypath disk object /\
   DADiskSetClaim (DADiskSetClaim disk object') object = DADiskSetClaim disk object /\
   DADiskSetContext (DADiskSetContext disk object') object
   = DADiskSetContext disk object /\
   DADiskSetContextRe (DADiskSetContextRe disk object') object
   = DADiskSetContextRe disk object /\
   DADiskSetFileSystem (DADiskSetFileSystem disk object') object
   = DADiskSetFileSystem disk object) /\
  (DADiskGetClaim (DADiskSetBypath disk object) = DADiskGetClaim disk /\
   DADiskGetContext (DADiskSetContextRe disk object) = DADiskGetContext disk /\
   DADiskGetContextRe (DADiskSetContext disk object) = DADiskGetContextRe disk /\
   DADiskGetBypath (DADiskSetFileSystem disk object) = DADiskGetBypath disk /\
   DADiskGetFileSystem (DADiskSetClaim disk object) = DADiskGetFileSystem disk).
Proof.
  unfold DADiskSetBypath, DADiskSetClaim, DADiskSetContext, DADiskSetContextRe,
    DADiskSetFileSystem, DADiskGetBypath, DADiskGetClaim, DADiskGetContext,
    DADiskGetContextRe, DADiskGetFileSystem.
  destruct disk as [bypath claim context contextRe ? ? ? ? ? filesystem
                    ? ? ? ? ? ? ? ? ? ?].
  destruct bypath, claim, context, contextRe, filesystem, object, object';
    simpl; repeat split; reflexivity.
Qed.

End Slots.

(** ** The further properties on the concrete system *)

Lemma sample_keys_distinct : NoDup (@description_keys sample_headers).
Proof. apply (@bool_decide_unpack _ (NoDup_dec _)). vm_compute. exact I. Qed.

Lemma mounted_disk_created :
  @DADiskCreateFromVolumePath sample_headers plain_world
    (Some (CFURL "/Volumes/Data/Documents"))
  = Returns (Some mounted_disk) [].
Proof. vm_compute. reflexivity. Qed.

Lemma plain_world_media_properties :
  IORegistryEntryCreateCFProperties plain_world sample_media = Some sample_media_properties.
Proof. reflexivity. Qed.

(** The disk of disk2 is /dev/disk2, raw /dev/rdisk2. *)
Lemma hardware_disk_paths_witness :
  @DADiskCreateFromIOMedia sample_headers plain_world sample_media
  = Returns (Some hardware_disk) [] /\
  DADiskGetID hardware_disk = "/dev/disk2"%string /\
  DADiskGetBSDPath hardware_disk true = Some "/dev/rdisk2"%string /\
  DADiskGetIOMedia hardware_disk = sample_media.
Proof.
  split; [exact hardware_disk_created |].
  destruct (@hardware_disk_paths sample_headers plain_world sample_media hardware_disk []
              hardware_disk_created)
    as (properties & name & Hp & Hn & _ & Hid & _ & Hraw & Hmedia & _).
  rewrite plain_world_media_properties in Hp. injection Hp as <-.
  vm_compute in Hn. injection Hn as <-.
  split; [exact Hid | split; [exact Hraw | exact Hmedia]].
Defined.

(** Major 14 and minor 2 give the node 0x0E000002, and the unit is 2. *)
Lemma hardware_disk_bsd_node_witness :
  @DADiskCreateFromIOMedia sample_headers plain_world sample_media
  = Returns (Some hardware_disk) [] /\
  DADiskGetBSDNode hardware_disk = 0x0E000002 /\
  DADiskGetBSDUnit hardware_disk = 2.
Proof.
  split; [exact hardware_disk_created |].
  destruct (@hardware_disk_bsd_node sample_headers plain_world sample_media
              hardware_disk [] hardware_disk_created)
    as (properties & major & minor & unit & Hp & Hmajor & Hminor & Hunit & Hnode & Hu).
  rewrite plain_world_media_properties in Hp. injection Hp as <-.
  vm_compute in Hmajor. injection Hmajor as <-.
  vm_compute in Hminor. injection Hminor as <-.
  vm_compute in Hunit. injection Hunit as <-.
  split; [exact Hnode | exact Hu].
Defined.

(** The size of disk2 is the Size property of the media, and its path is
    the one in the service plane, for want of one in the device tree. *)
Lemma hardware_media_facts_witness :
  NoDup (@description_keys sample_headers) /\
  @DADiskCreateFromIOMedia sample_headers plain_world sample_media
  = Returns (Some hardware_disk) [] /\
  DADiskGetDescription hardware_disk "DAMediaSize" = Some (CFNumber 10000000000) /\
  DADiskGetDescription hardware_disk "DAMediaPath"
  = Some (CFString "IOService:/MacRISC2PE/pci/ata-4/disk").
Proof.
  split; [exact sample_keys_distinct |]. split; [exact hardware_disk_created |].
  destruct (@hardware_media_facts sample_headers plain_world sample_keys_distinct
              sample_media hardware_disk [] hardware_disk_created)
    as (properties & name & path & Hp & Hcopied & _ & _ & _ & _ & _ & Hpath & _ & Hmp).
  rewrite plain_world_media_properties in Hp. injection Hp as <-.
  vm_compute in Hpath. injection Hpath as <-.
  split; [| exact Hmp].
  refine (proj2 (Hcopied "Size"%string "DAMediaSize"%string _)).
  unfold copied_media_properties. in_list.
Defined.

(** disk2 is neither a DVD nor a CD: its kind is IOMedia and it has no
    media type. *)
Lemma hardware_media_kind_witness :
  NoDup (@description_keys sample_headers) /\
  @DADiskCreateFromIOMedia sample_headers plain_world sample_media
  = Returns (Some hardware_disk) [] /\
  DADiskGetDescription hardware_disk "DAMediaKind" = Some (CFString "IOMedia") /\
  DADiskGetDescription hardware_disk "DAMediaType" = None.
Proof.
  split; [exact sample_keys_distinct |]. split; [exact hardware_disk_created |].
  destruct (@hardware_media_kind sample_headers plain_world sample_keys_distinct
              sample_media hardware_disk [] hardware_disk_created)
    as (properties & _ & Hkind).
  change (IOObjectConformsTo plain_world sample_media
            (@kIODVDMediaClass sample_headers)) with false in Hkind.
  change (IOObjectConformsTo plain_world sample_media
            (@kIOCDMediaClass sample_headers)) with false in Hkind.
  exact Hkind.
Defined.

(** disk2 is on an internal ATA device of Seagate, of no known revision. *)
Lemma hardware_device_facts_witness :
  NoDup (@description_keys sample_headers) /\
  @DADiskCreateFromIOMedia sample_headers plain_world sample_media
  = Returns (Some hardware_disk) [] /\
  DADiskGetDescription hardware_disk "DADeviceInternal" = Some kCFBooleanTrue /\
  DADiskGetDescription hardware_disk "DADeviceVendor" = Some (CFString "Seagate") /\
  DADiskGetDescription hardware_disk "DADeviceRevision" = None.
Proof.
  split; [exact sample_keys_distinct |]. split; [exact hardware_disk_created |].
  destruct (@hardware_device_facts sample_headers plain_world sample_keys_distinct
              sample_media hardware_disk [] hardware_disk_created)
    as (_ & _ & Hinternal & _ & _ & Hrevision & Hvendor & _).
  split; [| split].
  - etransitivity; [exact Hinternal | vm_compute; reflexivity].
  - etransitivity; [exact Hvendor | vm_compute; reflexivity].
  - etransitivity; [exact Hrevision | vm_compute; reflexivity].
Defined.





(** disk2 has no volume kind: the construction stores under no such key. *)
Lemma hardware_description_keys_witness :
  @DADiskCreateFromIOMedia sample_headers plain_world sample_media
  = Returns (Some hardware_disk) [] /\
  ("DAVolumeKind"%string ∉ @hardware_keys sample_headers) /\
  DADiskGetDescription hardware_disk "DAVolumeKind" = None.
Proof.
  assert (Hk : "DAVolumeKind"%string ∉ @hardware_keys sample_headers).
  { apply (bool_decide_unpack _). vm_compute. exact I. }
  split; [exact hardware_disk_created |]. split; [exact Hk |].
  exact (@hardware_description_keys sample_headers plain_world sample_media
           hardware_disk [] "DAVolumeKind"%string hardware_disk_created Hk).
Defined.

Lemma mode_disk_created :
  @DADiskCreateFromIOMedia sample_headers mode_world sample_media
  = Returns (Some mode_disk) [].
Proof. vm_compute. reflexivity. Qed.

(** With an owner-mode hint of 0644 above the device the mode is 0644. *)
Lemma hardware_disk_mode_witness :
  @DADiskCreateFromIOMedia sample_headers mode_world sample_media
  = Returns (Some mode_disk) [] /\
  DADiskGetMode mode_disk = 420 (* 0644 *).
Proof.
  split; [exact mode_disk_created |].
  pose proof (@hardware_disk_mode sample_headers mode_world sample_media mode_disk []
                mode_disk_created) as M.
  change (IORegistryEntrySearchCFProperty mode_world
            (@device_of sample_headers mode_world sample_media) kIOServicePlane
            "owner-mode") with (Some (CFNumber 420)) in M.
  destruct M as (n & Hn & Hmode). injection Hn as <-.
  exact Hmode.
Defined.

(** The id entry of disk2 is "/dev/disk2" with its NUL; disk2 is not
    described as mountable. *)
Lemma hardware_object_facts_witness :
  NoDup (@description_keys sample_headers) /\
  @DADiskCreateFromIOMedia sample_headers plain_world sample_media
  = Returns (Some hardware_disk) [] /\
  DADiskGetDescription hardware_disk "DADiskID"
  = Some (CFData [47; 100; 101; 118; 47; 100; 105; 115; 107; 50; 0]) /\
  DADiskGetDescription hardware_disk "DAVolumeMountable" = None.
Proof.
  split; [exact sample_keys_distinct |]. split; [exact hardware_disk_created |].
  destruct (@hardware_object_facts sample_headers plain_world sample_keys_distinct
              sample_media hardware_disk [] hardware_disk_created)
    as (Hid & _ & _ & _ & Hmountable).
  split; [| exact Hmountable].
  etransitivity; [exact Hid | vm_compute; reflexivity].
Defined.

(** The disk of /Volumes/Data has the unit -1, read as 0xFFFFFFFF, and
    belongs to the user 501 of the group 20. *)
Lemma volume_disk_fields_witness :
  @DADiskCreateFromVolumePath sample_headers plain_world
    (Some (CFURL "/Volumes/Data/Documents"))
  = Returns (Some mounted_disk) [] /\
  DADiskGetBSDUnit mounted_disk = 0xFFFFFFFF /\
  DADiskGetUserEUID mounted_disk = 501 /\
  DADiskGetUserRGID mounted_disk = 20.
Proof.
  split; [exact mounted_disk_created |].
  destruct (@volume_disk_fields sample_headers plain_world _ mounted_disk []
              mounted_disk_created)
    as (url & _path & fs & Hpath & Hrep & Hfs & _ & _ & _ & _ & _ & Hunit & _ & _ & Husers).
  injection Hpath as <-.
  vm_compute in Hrep. injection Hrep as <-.
  vm_compute in Hfs. injection Hfs as <-.
  split; [exact Hunit |].
  change (getpwuid plain_world
            (f_owner {| f_mntonname := "/Volumes/Data"; f_flags := 4096; f_owner := 501 |}))
    with (Some {| pw_uid := 501; pw_gid := 20 |}) in Husers.
  destruct Husers as (Heuid & _ & _ & Hrgid).
  split; [exact Heuid | exact Hrgid].
Defined.

Lemma documents_disk_created :
  @DADiskCreateFromVolumePath sample_headers paths_world
    (Some (CFURL "/Volumes/Data/Documents")) = Returns (Some documents_disk) [].
Proof. vm_compute. reflexivity. Qed.

Lemma albums_disk_created :
  @DADiskCreateFromVolumePath sample_headers paths_world
    (Some (CFURL "/Volumes/Data/Music/Albums")) = Returns (Some albums_disk) [].
Proof. vm_compute. reflexivity. Qed.

(** Two paths below /Volumes/Data give equal disks with the same hash. *)
Lemma volume_disks_of_one_mount_witness :
  @DADiskCreateFromVolumePath sample_headers paths_world
    (Some (CFURL "/Volumes/Data/Documents")) = Returns (Some documents_disk) [] /\
  @DADiskCreateFromVolumePath sample_headers paths_world
    (Some (CFURL "/Volumes/Data/Music/Albums")) = Returns (Some albums_disk) [] /\
  __DADiskEqual documents_disk albums_disk = true /\
  __DADiskHash paths_world documents_disk = __DADiskHash paths_world albums_disk.
Proof.
  split; [exact documents_disk_created |]. split; [exact albums_disk_created |].
  destruct (@volume_disks_of_one_mount sample_headers paths_world _ _ _ _ [] []
              documents_disk_created albums_disk_created)
    as (_ & _ & Hequal & Hhash).
  assert (Hm : @mount_point sample_headers paths_world
                 (Some (CFURL "/Volumes/Data/Documents"))
               = @mount_point sample_headers paths_world
                   (Some (CFURL "/Volumes/Data/Music/Albums")))
    by (vm_compute; reflexivity).
  split; [exact (proj2 Hequal Hm) | exact (Hhash Hm)].
Defined.

(** The disk of /Volumes/Data is at the path that was given, on a local
    mount. *)
Lemma volume_disk_facts_witness :
  NoDup (@description_keys sample_headers) /\
  @DADiskCreateFromVolumePath sample_headers plain_world
    (Some (CFURL "/Volumes/Data/Documents"))
  = Returns (Some mounted_disk) [] /\
  DADiskGetDescription mounted_disk "DAVolumePath"
  = Some (CFURL "/Volumes/Data/Documents") /\
  DADiskGetDescription mounted_disk "DAVolumeNetwork" = Some kCFBooleanFalse /\
  DADiskGetDescription mounted_disk "DAMediaBSDName" = None.
Proof.
  split; [exact sample_keys_distinct |]. split; [exact mounted_disk_created |].
  destruct (@volume_disk_facts sample_headers plain_world sample_keys_distinct _
              mounted_disk [] mounted_disk_created)
    as (url & _path & fs & Hpath & Hrep & Hfs & Hvolume & _ & Hnetwork & Hnone).
  injection Hpath as <-.
  vm_compute in Hrep. injection Hrep as <-.
  vm_compute in Hfs. injection Hfs as <-.
  split; [exact Hvolume |]. split; [exact Hnetwork |].
  apply Hnone. unfold media_keys. rewrite elem_of_app. left. in_list.
Defined.

(** Neither disk2 nor the disk of /Volumes/Data is logged as created. *)
Lemma created_disk_not_logged_witness :
  NoDup (@description_keys sample_headers) /\
  @created sample_headers plain_world hardware_disk /\
  @created sample_headers plain_world mounted_disk /\
  @DADiskLog sample_headers sample_log_world hardware_disk = Ret None /\
  @DADiskLog sample_headers sample_log_world mounted_disk = Ret None.
Proof.
  assert (Hh : @created sample_headers plain_world hardware_disk)
    by exact (created_from_media _ _ _ _ hardware_disk_created).
  assert (Hm : @created sample_headers plain_world mounted_disk)
    by exact (created_from_volume _ _ _ _ mounted_disk_created).
  split; [exact sample_keys_distinct |]. split; [exact Hh |]. split; [exact Hm |].
  split.
  - exact (@created_disk_not_logged sample_headers plain_world sample_log_world
             sample_keys_distinct hardware_disk Hh).
  - exact (@created_disk_not_logged sample_headers plain_world sample_log_world
             sample_keys_distinct mounted_disk Hm).
Defined.
